(** * js_acme_blogs: a shallow embedding of [src/js/main.js]

    The script fetches users, posts and comments from a JSON API and renders
    them into the document.  Its functions are embedded here as functions on
    an explicit program state: the node store of the document, the counter
    that gives every evaluated arrow function its identity, the requests
    issued so far, the console's error channel and the network itself.
    [await] is sequential composition: the claims below are about one call
    running to completion, not about interleavings of several.

    Outcomes are [Ret v] (normal completion), [Throw e] (an exception that
    reaches the caller; for an async function, a rejected promise) and
    [Unmodelled], returned where the behaviour of the runtime is outside
    this model: a selector built from a string with a quote or a backslash,
    the string form of a DOM node, of an integer from 2^53 on or of an
    object with an own [toString], a comparison that needs string-to-float
    conversion, a property of a node that the script does not read, the
    value of a [select] with option groups, the [disabled] flag of an
    option, an element name that is not plain, a reference to no node.

    [initApp] and the [DOMContentLoaded] hook only install handlers and are
    not embedded. *)

From Stdlib Require Import ZArith String Ascii List Bool Lia DecimalString DecimalPos.
From Stdlib Require HexadecimalString HexadecimalPos.
From stdpp Require Import base option list strings.
Import ListNotations.

Set Warnings "-register-all".

Local Open Scope string_scope.
Local Open Scope list_scope.
Local Open Scope Z_scope.

(* ===================================================================== *)
(** * JavaScript values                                                    *)
(* ===================================================================== *)

(** Numbers are the integer-valued doubles, NaN and the two infinities: the
    identifiers of the API are integers, and the script does no arithmetic.
    [NInt z] is a number when a double holds [z], as it does every integer
    below 2^53 in magnitude; the negative zero is not told from zero. *)
Inductive number : Type :=
  | NNaN
  | NInf (negative : bool)
  | NInt (z : Z).

(** A DOM node is held by reference: [VNode r] is the node at index [r] of
    the store.  Strings are sequences of code units below 256. *)
Inductive value : Type :=
  | VUndefined
  | VNull
  | VBool (b : bool)
  | VNum (n : number)
  | VStr (s : string)
  | VArr (items : list value)
  | VObj (fields : list (string * value))
  | VNode (r : nat).

Inductive exn : Type :=
  | TypeError            (* property of null/undefined, not iterable, not a Node *)
  | FetchRejected        (* fetch() rejected: no response *)
  | NotOkError           (* new Error('Network response was not ok') *)
  | JsonError            (* response.json() rejected *)
  | SyntaxError.         (* querySelector on a selector that does not parse *)

#[global] Instance number_eq_dec : EqDecision number.
Proof. solve_decision. Defined.

#[global] Instance exn_eq_dec : EqDecision exn.
Proof. solve_decision. Defined.

(** ToBoolean. *)
Definition truthy (v : value) : bool :=
  match v with
  | VUndefined | VNull => false
  | VBool b => b
  | VNum NNaN => false
  | VNum (NInt z) => negb (z =? 0)
  | VNum (NInf _) => true
  | VStr s => negb (String.eqb s "")
  | VArr _ | VObj _ | VNode _ => true
  end.

Definition is_undefined (v : value) : bool :=
  match v with VUndefined => true | _ => false end.

Definition nullish (v : value) : bool :=
  match v with VUndefined | VNull => true | _ => false end.

(** Decimal digits of an integer, as Number::toString prints them. *)
Definition decimal (z : Z) : string :=
  NilZero.string_of_int (Z.to_int z).

(** Number::toString prints the shortest digits that read back to the
    double.  For an integer below 2^53 in magnitude these are its decimal
    digits.  From 2^53 on they are not (2^64 prints as
    18446744073709552000), and not every integer is a double: the string
    form is not modelled there. *)
Definition number_to_string (n : number) : option string :=
  match n with
  | NNaN => Some "NaN"
  | NInf false => Some "Infinity"
  | NInf true => Some "-Infinity"
  | NInt z => if Z.abs z <? 2 ^ 53 then Some (decimal z) else None
  end.

(** The object has an own property [k]. *)
Definition has_field {A} (k : string) (fs : list (string * A)) : bool :=
  existsb (fun kv => String.eqb k (fst kv)) fs.

(** ToString, as applied by template literals and by DOMString attributes.
    An array prints its items separated by commas, null and undefined items
    as the empty string.  A plain object prints through the inherited
    [toString]; an own property of that name, which in data is never a
    function, makes the conversion throw, and is not modelled.  The string
    form of a node depends on its interface and is not modelled. *)
Fixpoint to_string (v : value) : option string :=
  match v with
  | VUndefined => Some "undefined"
  | VNull => Some "null"
  | VBool true => Some "true"
  | VBool false => Some "false"
  | VNum n => number_to_string n
  | VStr s => Some s
  | VArr items =>
      (fix join (l : list value) : option string :=
         match l with
         | [] => Some ""
         | x :: rest =>
             let item := match x with
                         | VUndefined | VNull => Some ""
                         | _ => to_string x
                         end in
             match item, rest with
             | Some s, [] => Some s
             | Some s, _ :: _ =>
                 match join rest with
                 | Some t => Some (s +:+ "," +:+ t)
                 | None => None
                 end
             | None, _ => None
             end
         end) items
  | VObj fs => if has_field "toString" fs then None else Some "[object Object]"
  | VNode _ => None
  end.

(** What a nullable DOMString attribute ([textContent]) stores. *)
Definition to_text (v : value) : option string :=
  if nullish v then Some "" else to_string v.

(** [v < 1] for the values the comparison is modelled on; a non-empty string
    or array would need StringToNumber, and an object with an own [toString]
    has no primitive form. *)
Definition lt_one (v : value) : option bool :=
  match v with
  | VUndefined => Some false
  | VNull => Some true
  | VBool b => Some (negb b)
  | VNum NNaN => Some false
  | VNum (NInf neg) => Some neg
  | VNum (NInt z) => Some (z <? 1)
  | VStr s => if String.eqb s "" then Some true else None
  | VArr [] => Some true
  | VArr (_ :: _) => None
  | VObj fs => if has_field "toString" fs then None else Some false
  | VNode _ => None
  end.

(* --------------------------------------------------------------------- *)
(** ** parseInt and Number.isInteger                                       *)

(** The double nearest to an integer (ties to even), or an infinity. *)
Definition round_double (z : Z) : number :=
  let a := Z.abs z in
  if a <? 2 ^ 53 then NInt z
  else
    let e := Z.log2 a - 52 in
    let q := a / 2 ^ e in
    let r := a mod 2 ^ e in
    let half := 2 ^ (e - 1) in
    let q' := if (half <? r) || ((r =? half) && Z.odd q) then q + 1 else q in
    let m := q' * 2 ^ e in
    if 2 ^ 1024 <=? m then NInf (z <? 0) else NInt (Z.sgn z * m).

Definition is_space (a : ascii) : bool :=
  let n := nat_of_ascii a in
  existsb (Nat.eqb n) [9; 10; 11; 12; 13; 32; 160]%nat.

Fixpoint skip_space (s : string) : string :=
  match s with
  | String a rest => if is_space a then skip_space rest else s
  | EmptyString => s
  end.

Definition digit_val (a : ascii) : option Z :=
  let n := Z.of_nat (nat_of_ascii a) in
  if (48 <=? n) && (n <=? 57) then Some (n - 48)
  else if (97 <=? n) && (n <=? 122) then Some (n - 87)
  else if (65 <=? n) && (n <=? 90) then Some (n - 55)
  else None.

(** The value of the longest prefix of radix-[radix] digits, [acc] being the
    value read so far ([None]: no digit yet). *)
Fixpoint digits (radix : Z) (s : string) (acc : option Z) : option Z :=
  match s with
  | String a rest =>
      match digit_val a with
      | Some d =>
          if d <? radix
          then digits radix rest (Some (match acc with
                                        | Some v => v * radix + d
                                        | None => d
                                        end))
          else acc
      | None => acc
      end
  | EmptyString => acc
  end.

(** [parseInt(s)] with no radix argument. *)
Definition parseInt (s : string) : number :=
  let s1 := skip_space s in
  let '(neg, s2) :=
    match s1 with
    | String "-" rest => (true, rest)
    | String "+" rest => (false, rest)
    | _ => (false, s1)
    end in
  let '(radix, s3) :=
    match s2 with
    | String "0" (String "x" rest) => (16, rest)
    | String "0" (String "X" rest) => (16, rest)
    | _ => (10, s2)
    end in
  match digits radix s3 None with
  | None => NNaN
  | Some m => round_double (if neg then - m else m)
  end.

Definition isInteger (n : number) : bool :=
  match n with NInt _ => true | _ => false end.


(* ===================================================================== *)
(** * The document                                                         *)
(* ===================================================================== *)

(** A child of a node is a run of text or a reference to an element.  The
    script never holds a reference to a text node, so text needs no
    identity. *)
Inductive child : Type :=
  | CText (data : string)
  | CElem (r : nat).

(** A click listener installed by [addButtonListeners]: the arrow function
    [(event) => { toggleComments(event, postId) }].  [l_fn] is the identity
    of the function object, [l_postId] the [postId] it closes over. *)
Record listener : Type := mkListener {
  l_fn : nat;
  l_postId : value }.

(** [n_tag = None] is a DocumentFragment, [Some t] an element of local name
    [t].  [n_postId] is [dataset.postId] (the [data-post-id] attribute),
    [n_class] the token set of the [class] attribute, [n_flag] the expando
    [listener] that [toggleComments] sets on the event target.  [n_value]
    is the [value] attribute of an option ([None]: it has none).  [n_chosen],
    on a [select], is the option chosen last, by the [selected] attribute or
    by the user; the value of a [select] is not kept, it is read off its
    options ([select_value] below). *)
Record node : Type := mkNode {
  n_tag : option string;
  n_id : string;
  n_postId : option string;
  n_class : list string;
  n_value : option string;
  n_disabled : bool;
  n_flag : bool;
  n_children : list child;
  n_click : list listener;
  n_chosen : option nat }.

Definition blank (tag : option string) : node :=
  mkNode tag "" None [] None false false [] [] None.

Definition with_children (n : node) (cs : list child) : node :=
  mkNode (n_tag n) (n_id n) (n_postId n) (n_class n) (n_value n)
         (n_disabled n) (n_flag n) cs (n_click n) (n_chosen n).

Definition with_class (n : node) (cl : list string) : node :=
  mkNode (n_tag n) (n_id n) (n_postId n) cl (n_value n)
         (n_disabled n) (n_flag n) (n_children n) (n_click n) (n_chosen n).

Definition with_postId (n : node) (p : string) : node :=
  mkNode (n_tag n) (n_id n) (Some p) (n_class n) (n_value n)
         (n_disabled n) (n_flag n) (n_children n) (n_click n) (n_chosen n).

Definition with_value (n : node) (v : string) : node :=
  mkNode (n_tag n) (n_id n) (n_postId n) (n_class n) (Some v)
         (n_disabled n) (n_flag n) (n_children n) (n_click n) (n_chosen n).

Definition with_disabled (n : node) (b : bool) : node :=
  mkNode (n_tag n) (n_id n) (n_postId n) (n_class n) (n_value n)
         b (n_flag n) (n_children n) (n_click n) (n_chosen n).

Definition with_flag (n : node) (b : bool) : node :=
  mkNode (n_tag n) (n_id n) (n_postId n) (n_class n) (n_value n)
         (n_disabled n) b (n_children n) (n_click n) (n_chosen n).

Definition with_click (n : node) (ls : list listener) : node :=
  mkNode (n_tag n) (n_id n) (n_postId n) (n_class n) (n_value n)
         (n_disabled n) (n_flag n) (n_children n) ls (n_chosen n).

Definition is_elem (c : child) : bool :=
  match c with CElem _ => true | CText _ => false end.

Definition is_text (c : child) : bool := negb (is_elem c).

Definition elem_children (cs : list child) : list nat :=
  flat_map (fun c => match c with CElem r => [r] | CText _ => [] end) cs.

(** What the network answers: the request is rejected, or there is a
    response with its [ok] flag and the value [json()] parses its body to
    ([None]: the body is not JSON and [json()] rejects). *)
Inductive response : Type :=
  | Rejected
  | Response (ok : bool) (json : option value).

(** The program state.  [net k url] is the answer to a request for [url]
    issued after [k] earlier requests. *)
Record state : Type := mkState {
  nodes : list node;
  root : nat;
  next_fn : nat;
  requests : list string;
  console : list exn;
  net : nat -> string -> response }.

Definition set_nodes (st : state) (ns : list node) : state :=
  mkState ns (root st) (next_fn st) (requests st) (console st) (net st).

(* --------------------------------------------------------------------- *)
(** ** Outcomes and the state monad                                        *)

Inductive res (A : Type) : Type :=
  | Ret (a : A)
  | Throw (e : exn)
  | Unmodelled.
Arguments Ret {A} a.
Arguments Throw {A} e.
Arguments Unmodelled {A}.

Definition M (A : Type) : Type := state -> res A * state.

Definition ret {A} (a : A) : M A := fun st => (Ret a, st).
Definition throw {A} (e : exn) : M A := fun st => (Throw e, st).
Definition unmodelled {A} : M A := fun st => (Unmodelled, st).

Definition bind {A B} (m : M A) (k : A -> M B) : M B :=
  fun st =>
    match m st with
    | (Ret a, st') => k a st'
    | (Throw e, st') => (Throw e, st')
    | (Unmodelled, st') => (Unmodelled, st')
    end.

(** [try { m } catch (error) { h error }]: the state reached at the throw is
    kept. *)
Definition try_catch {A} (m : M A) (h : exn -> M A) : M A :=
  fun st =>
    match m st with
    | (Throw e, st') => h e st'
    | other => other
    end.

Definition of_option {A} (o : option A) : M A :=
  match o with Some a => ret a | None => unmodelled end.

Declare Scope js_scope.
Delimit Scope js_scope with js.
Notation "x <- c ;; k" := (bind c (fun x => k))
  (at level 100, c at next level, right associativity) : js_scope.
Notation "c ;;; k" := (bind c (fun _ => k))
  (at level 100, right associativity) : js_scope.
Local Open Scope js_scope.

(** [for (const x of items) body(x)] and [items.forEach(body)] over an
    already evaluated sequence. *)
Fixpoint for_each {A} (items : list A) (body : A -> M unit) : M unit :=
  match items with
  | [] => ret tt
  | x :: rest => body x ;;; for_each rest body
  end.

Fixpoint chars (s : string) : list value :=
  match s with
  | EmptyString => []
  | String a rest => VStr (String a EmptyString) :: chars rest
  end.

(** The values a [for ... of] loop runs over. *)
Definition iterate (v : value) : M (list value) :=
  match v with
  | VArr items => ret items
  | VStr s => ret (chars s)
  | _ => throw TypeError
  end.

(* --------------------------------------------------------------------- *)
(** ** Node store                                                          *)

Definition get_node (r : nat) : M node :=
  fun st => match nodes st !! r with
            | Some n => (Ret n, st)
            | None => (Unmodelled, st)
            end.

Definition put_node (r : nat) (n : node) : M unit :=
  fun st => (Ret tt, set_nodes st (<[r := n]> (nodes st))).

Definition alloc (n : node) : M nat :=
  fun st => (Ret (length (nodes st)), set_nodes st (nodes st ++ [n])).

Definition modify_node (r : nat) (f : node -> node) : M unit :=
  n <- get_node r ;; put_node r (f n).

(** The element children of the node at [r]. *)
Definition kids (ns : list node) (r : nat) : list nat :=
  match ns !! r with
  | Some n => elem_children (n_children n)
  | None => []
  end.

(** Elements below [r] in tree order, [r] first.  [fuel] bounds the depth. *)
Fixpoint subtree (fuel : nat) (ns : list node) (r : nat) : list nat :=
  match fuel with
  | O => []
  | S f => r :: flat_map (subtree f ns) (kids ns r)
  end.

Definition descendants (ns : list node) (r : nat) : list nat :=
  tl (subtree (length ns) ns r).

(** The elements of the document in tree order.  A tree held in a store of
    [n] nodes is at most [n] deep. *)
Definition doc_elements (st : state) : list nat :=
  subtree (length (nodes st)) (nodes st) (root st).

Definition node_sat (ns : list node) (p : node -> bool) (r : nat) : bool :=
  match ns !! r with Some n => p n | None => false end.

Definition has_tag (t : string) (n : node) : bool :=
  match n_tag n with Some t' => String.eqb t t' | None => false end.

Definition has_post_id (t v : string) (n : node) : bool :=
  has_tag t n &&
  match n_postId n with Some p => String.eqb p v | None => false end.

Definition has_id (i : string) (n : node) : bool :=
  match n_tag n with Some _ => String.eqb (n_id n) i | None => false end.

(* --------------------------------------------------------------------- *)
(** ** Strings of the DOM                                                  *)

Definition code (a : ascii) : nat := nat_of_ascii a.

Definition is_letter (a : ascii) : bool :=
  ((65 <=? code a) && (code a <=? 90) || (97 <=? code a) && (code a <=? 122))%nat.

Definition is_name_char (a : ascii) : bool :=
  (is_letter a || (48 <=? code a) && (code a <=? 57) || (code a =? 45))%nat.

Definition lower_ascii (a : ascii) : ascii :=
  if ((65 <=? code a) && (code a <=? 90))%nat then ascii_of_nat (code a + 32) else a.

Definition upper_ascii (a : ascii) : ascii :=
  if ((97 <=? code a) && (code a <=? 122))%nat then ascii_of_nat (code a - 32) else a.

Fixpoint map_string (f : ascii -> ascii) (s : string) : string :=
  match s with
  | EmptyString => EmptyString
  | String a rest => String (f a) (map_string f rest)
  end.

Fixpoint all_chars (p : ascii -> bool) (s : string) : bool :=
  match s with
  | EmptyString => true
  | String a rest => p a && all_chars p rest
  end.

(** The local name [document.createElement(name)] gives an element, for the
    names made of a letter followed by letters, digits and hyphens. *)
Definition element_name (name : string) : option string :=
  match name with
  | String a rest =>
      if is_letter a && all_chars is_name_char rest
      then Some (map_string lower_ascii name) else None
  | EmptyString => None
  end.

(** A string that stands for itself between single quotes in a selector:
    no quote, backslash, line break or NUL. *)
Definition css_plain (s : string) : bool :=
  all_chars (fun a => negb (existsb (Nat.eqb (code a)) [0; 10; 12; 13; 39; 92]%nat)) s.

(** A line break between the quotes, before any quote or backslash, ends
    the string as a bad string, and the selector does not parse. *)
Fixpoint css_broken (s : string) : bool :=
  match s with
  | EmptyString => false
  | String a rest =>
      if existsb (Nat.eqb (code a)) [10; 12; 13]%nat then true
      else if existsb (Nat.eqb (code a)) [39; 92]%nat then false
      else css_broken rest
  end.

Definition is_class_space (a : ascii) : bool :=
  existsb (Nat.eqb (code a)) [9; 10; 12; 13; 32]%nat.

(** The tokens of a [class] attribute, [cur] being the token under way. *)
Fixpoint tokens (s : string) (cur : string) : list string :=
  match s with
  | EmptyString => if String.eqb cur "" then [] else [cur]
  | String a rest =>
      if is_class_space a
      then (if String.eqb cur "" then tokens rest "" else cur :: tokens rest "")
      else tokens rest (cur +:+ String a EmptyString)
  end.

Definition has_token (t : string) (cl : list string) : bool :=
  existsb (String.eqb t) cl.

Definition add_token (t : string) (cl : list string) : list string :=
  if has_token t cl then cl else cl ++ [t].

Definition remove_token (t : string) (cl : list string) : list string :=
  List.filter (fun c => negb (String.eqb t c)) cl.

Definition token_set (s : string) : list string :=
  fold_left (fun acc t => add_token t acc) (tokens s "") [].

(* --------------------------------------------------------------------- *)
(** ** The value of a select                                               *)

(** The text a node holds in its own children. *)
Definition own_text (n : node) : string :=
  String.concat ""
    (map (fun c => match c with CText s => s | CElem _ => "" end) (n_children n)).

(** [option.value]: the [value] attribute, and without one the text of the
    option, its white space stripped and collapsed.  An option with
    elements inside is not modelled. *)
Definition own_value (n : node) : option string :=
  match n_value n with
  | Some v => Some v
  | None =>
      if forallb is_text (n_children n)
      then Some (String.concat " " (tokens (own_text n) ""))
      else None
  end.

Definition is_option (ns : list node) (r : nat) : bool :=
  node_sat ns (has_tag "option") r.

(** An option that the selection can fall on by default. *)
Definition is_choice (ns : list node) (r : nat) : bool :=
  node_sat ns (fun n => has_tag "option" n && negb (n_disabled n)) r.

(** The selected option of a drop-down [select]: the chosen option while it
    is one of its options, and otherwise the first option that is not
    disabled, on which the selection falls when options are inserted or
    the selected one is removed.  (A [select] with the [multiple] or the
    [size] attribute, and one that a script has left with no selected
    option, are not among the states of this model.) *)
Definition selected_of (ns : list node) (n : node) : option nat :=
  let options := elem_children (n_children n) in
  match n_chosen n with
  | Some o => if existsb (Nat.eqb o) options then Some o
              else List.find (is_choice ns) options
  | None => List.find (is_choice ns) options
  end.

(** [select.value]: the value of the selected option, the empty string
    when there is none.  A [select] with other elements than options inside
    (option groups) is not modelled. *)
Definition select_value (ns : list node) (n : node) : option string :=
  if forallb (is_option ns) (elem_children (n_children n)) then
    match selected_of ns n with
    | Some o => match ns !! o with Some no => own_value no | None => None end
    | None => Some ""
    end
  else None.

(* --------------------------------------------------------------------- *)
(** ** DOM operations                                                      *)

Definition createElement (name : string) : M nat :=
  match element_name name with
  | Some t => alloc (blank (Some t))
  | None => unmodelled
  end.

Definition createDocumentFragment : M nat := alloc (blank None).

(** [document.querySelector]: the first element of the document, in tree
    order, that satisfies the selector. *)
Definition querySelector (p : node -> bool) : M (option nat) :=
  fun st => (Ret (List.find (node_sat (nodes st) p) (doc_elements st)), st).

(** [element.querySelectorAll]: the matching descendants, in tree order. *)
Definition querySelectorAll (r : nat) (p : node -> bool) : M (list nat) :=
  fun st =>
    (Ret (List.filter (node_sat (nodes st) p) (descendants (nodes st) r)), st).

Definition getElementById (i : string) : M (option nat) :=
  querySelector (has_id i).

(** The selector [`tag[data-post-id='${postId}']`].  With a line break in
    the string [querySelector] throws a SyntaxError; what a quote or a
    backslash makes of the selector is not modelled. *)
Definition post_id_selector (tag : string) (postId : value) : M (node -> bool) :=
  s <- of_option (to_string postId) ;;
  if css_plain s then ret (has_post_id tag s)
  else if css_broken s then throw SyntaxError
  else unmodelled.

Definition of_ref (o : option nat) : value :=
  match o with Some r => VNode r | None => VNull end.

(** The [textContent] getter: the text below a node, in tree order. *)
Fixpoint text_content (fuel : nat) (ns : list node) (r : nat) : string :=
  match fuel with
  | O => ""
  | S f =>
      match ns !! r with
      | Some n =>
          String.concat ""
            (map (fun c => match c with
                           | CText s => s
                           | CElem i => text_content f ns i
                           end) (n_children n))
      | None => ""
      end
  end.

Definition get_textContent (r : nat) : M string :=
  fun st => (Ret (text_content (length (nodes st)) (nodes st) r), st).

(** The [textContent] setter replaces all children by one run of text, or by
    nothing for the empty string. *)
Definition set_textContent (r : nat) (s : string) : M unit :=
  modify_node r (fun n =>
    with_children n (if String.eqb s "" then [] else [CText s])).

Definition set_className (r : nat) (s : string) : M unit :=
  modify_node r (fun n => with_class n (token_set s)).

Definition classList_add (r : nat) (ts : list string) : M unit :=
  modify_node r (fun n =>
    with_class n (fold_left (fun acc t => add_token t acc) ts (n_class n))).

(** [classList.toggle(t)]: the token is removed if present, added if not. *)
Definition toggle_token (t : string) (cl : list string) : list string :=
  if has_token t cl then remove_token t cl else cl ++ [t].

Definition classList_toggle (r : nat) (t : string) : M unit :=
  modify_node r (fun n => with_class n (toggle_token t (n_class n))).

Definition dataset_postId (r : nat) : M value :=
  n <- get_node r ;;
  ret (match n_postId n with Some p => VStr p | None => VUndefined end).

Definition set_dataset_postId (r : nat) (v : value) : M unit :=
  s <- of_option (to_string v) ;;
  modify_node r (fun n => with_postId n s).

(** [parent.appendChild(c)].  Every node the script appends is one it has
    just created, so the node has no parent to leave.  The children of a
    fragment move to the parent and the fragment is left empty.  The value
    of a [select] follows the options it is given: it is read off them
    ([select_value]), so an empty [select] takes the value of the first
    option appended to it. *)
Definition appendChild (parent : nat) (c : value) : M unit :=
  match c with
  | VNode r =>
      n <- get_node r ;;
      match n_tag n with
      | None =>
          modify_node parent (fun p => with_children p (n_children p ++ n_children n)) ;;;
          modify_node r (fun n => with_children n [])
      | Some _ =>
          modify_node parent (fun p => with_children p (n_children p ++ [CElem r]))
      end
  | _ => throw TypeError
  end.

(** The same call on a value: on null it is a property read of null. *)
Definition call_appendChild (parent c : value) : M unit :=
  match parent with
  | VNode p => appendChild p c
  | _ => throw TypeError
  end.

Fixpoint last_elem (cs : list child) : option nat :=
  match cs with
  | [] => None
  | c :: rest =>
      match last_elem rest with
      | Some r => Some r
      | None => match c with CElem r => Some r | CText _ => None end
      end
  end.

Fixpoint remove_elem (c : nat) (cs : list child) : list child :=
  match cs with
  | [] => []
  | CElem r :: rest => if Nat.eqb r c then rest else CElem r :: remove_elem c rest
  | x :: rest => x :: remove_elem c rest
  end.

(** [parent.removeChild(c)].  A [select] that loses its selected option
    falls back on the first option left that is not disabled
    ([select_value]). *)
Definition removeChild (parent c : nat) : M unit :=
  modify_node parent (fun p => with_children p (remove_elem c (n_children p))).

(** A new function object: every evaluation of an arrow function yields
    one, distinct from all earlier ones. *)
Definition fresh_fn : M nat :=
  fun st =>
    (Ret (next_fn st),
     mkState (nodes st) (root st) (S (next_fn st)) (requests st) (console st) (net st)).

(** [addEventListener('click', f)] appends [f] unless the same function is
    already listed; [removeEventListener('click', f)] removes the listener
    whose function is [f] itself. *)
Definition addEventListener (r : nat) (l : listener) : M unit :=
  modify_node r (fun n =>
    with_click n (if existsb (fun l' => Nat.eqb (l_fn l') (l_fn l)) (n_click n)
                  then n_click n else n_click n ++ [l])).

Definition removeEventListener (r : nat) (fn : nat) : M unit :=
  modify_node r (fun n =>
    with_click n (List.filter (fun l' => negb (Nat.eqb (l_fn l') fn)) (n_click n))).

(* --------------------------------------------------------------------- *)
(** ** Property access                                                     *)

Fixpoint lookup_field (k : string) (fs : list (string * value)) : value :=
  match fs with
  | [] => VUndefined
  | (k', v) :: rest => if String.eqb k k' then v else lookup_field k rest
  end.

Definition string_length (s : string) : value :=
  VNum (NInt (Z.of_nat (String.length s))).

(** The properties of a node that the script reads. *)
Definition node_prop (n : node) (k : string) : option value :=
  if String.eqb k "tagName" then
    Some (match n_tag n with
          | Some t => VStr (map_string upper_ascii t)
          | None => VUndefined
          end)
  else if String.eqb k "lastElementChild" then
    Some (of_ref (last_elem (n_children n)))
  else if String.eqb k "childElementCount" then
    Some (VNum (NInt (Z.of_nat (length (elem_children (n_children n))))))
  else None.

(** [node.value], of a [select], an option and a fragment. *)
Definition value_prop (ns : list node) (n : node) : option value :=
  match n_tag n with
  | Some t => if String.eqb t "select" then option_map VStr (select_value ns n)
              else if String.eqb t "option" then option_map VStr (own_value n)
              else None
  | None => Some VUndefined
  end.

Definition get_value (n : node) : M value :=
  fun st => of_option (value_prop (nodes st) n) st.

(** [v.k] on a value that is neither null, undefined nor a node.  Objects
    are plain data; of the inherited properties of arrays and strings only
    [length] is a value the script reads. *)
Definition data_prop (v : value) (k : string) : value :=
  match v with
  | VObj fs => lookup_field k fs
  | VArr items =>
      if String.eqb k "length"
      then VNum (NInt (Z.of_nat (length items))) else VUndefined
  | VStr s => if String.eqb k "length" then string_length s else VUndefined
  | _ => VUndefined
  end.

(** [v.k] *)
Definition get_prop (v : value) (k : string) : M value :=
  match v with
  | VUndefined | VNull => throw TypeError
  | VNode r =>
      n <- get_node r ;;
      if String.eqb k "value" then get_value n else of_option (node_prop n k)
  | _ => ret (data_prop v k)
  end.

(** [v?.k]. *)
Definition get_prop_opt (v : value) (k : string) : M value :=
  if nullish v then ret VUndefined else get_prop v k.

(** [node.disabled = b].  On an option the flag bears on the option a
    [select] falls back on, while the selection itself stays; that is not
    modelled. *)
Definition set_disabled (r : nat) (b : bool) : M unit :=
  n <- get_node r ;;
  if has_tag "option" n then unmodelled else put_node r (with_disabled n b).

(** [target.disabled = b] and [target.listener = b].  An assignment to a
    property of a primitive is dropped; one to a plain object sets a
    property the script never reads. *)
Definition set_flag (target : value) (k : string) (b : bool) : M unit :=
  match target with
  | VUndefined | VNull => throw TypeError
  | VNode r =>
      if String.eqb k "disabled" then set_disabled r b
      else if String.eqb k "listener" then modify_node r (fun n => with_flag n b)
      else unmodelled
  | _ => ret tt
  end.

(* ===================================================================== *)
(** * The functions of [main.js]                                           *)
(* ===================================================================== *)

(** A parameter with a default value: the default replaces undefined. *)
Definition param_default (d v : value) : value :=
  if is_undefined v then d else v.

(** [createElemWithText(elem = 'p', text = '', className)] *)
Definition createElemWithText (elem text className : value) : M value :=
  let elem := param_default (VStr "p") elem in
  let text := param_default (VStr "") text in
  name <- of_option (to_string elem) ;;
  element <- createElement name ;;
  t <- of_option (to_text text) ;;
  set_textContent element t ;;;
  (if truthy className
   then c <- of_option (to_string className) ;; set_className element c
   else ret tt) ;;;
  ret (VNode element).

(** One turn of the loop of [createSelectOptions]; [options] is the array
    built so far. *)
Definition createSelectOptions_step (options : list value) (user : value)
  : M (list value) :=
  option <- createElement "option" ;;
  id <- get_prop user "id" ;;
  v <- of_option (to_string id) ;;
  modify_node option (fun n => with_value n v) ;;;
  name <- get_prop user "name" ;;
  t <- of_option (to_text name) ;;
  set_textContent option t ;;;
  ret (options ++ [VNode option]).

Fixpoint createSelectOptions_loop (users : list value) (options : list value)
  : M (list value) :=
  match users with
  | [] => ret options
  | user :: rest =>
      options' <- createSelectOptions_step options user ;;
      createSelectOptions_loop rest options'
  end.

Definition createSelectOptions (users : value) : M value :=
  if negb (truthy users) then ret VUndefined else
  items <- iterate users ;;
  options <- createSelectOptions_loop items [] ;;
  ret (VArr options).

Definition toggleCommentSection (postId : value) : M value :=
  if is_undefined postId then ret VUndefined else
  selector <- post_id_selector "section" postId ;;
  section <- querySelector selector ;;
  match section with
  | None => ret VNull
  | Some r => classList_toggle r "hide" ;;; ret (VNode r)
  end.

(** [text === 'Show Comments' ? 'Hide Comments' : 'Show Comments'] *)
Definition flip_label (text : string) : string :=
  if String.eqb text "Show Comments" then "Hide Comments" else "Show Comments".

Definition toggleCommentButton (postId : value) : M value :=
  if is_undefined postId then ret VUndefined else
  selector <- post_id_selector "button" postId ;;
  button <- querySelector selector ;;
  match button with
  | None => ret VNull
  | Some r =>
      text <- get_textContent r ;;
      set_textContent r (flip_label text) ;;;
      ret (VNode r)
  end.

(** The [while (child)] loop of [deleteChildElements].  Each turn removes
    one element child, so [fuel] above their number is never used up. *)
Fixpoint deleteChildElements_loop (fuel : nat) (parent : nat) : M unit :=
  match fuel with
  | O => unmodelled
  | S f =>
      n <- get_node parent ;;
      match last_elem (n_children n) with
      | None => ret tt
      | Some child => removeChild parent child ;;; deleteChildElements_loop f parent
      end
  end.

(** On an object that is not a node but has a truthy [tagName],
    [lastElementChild] is plain data and [removeChild] is not a function. *)
Definition deleteChildElements (parentElement : value) : M value :=
  tagName <- get_prop_opt parentElement "tagName" ;;
  if negb (truthy tagName) then ret VUndefined else
  match parentElement with
  | VNode r =>
      n <- get_node r ;;
      deleteChildElements_loop (S (length (n_children n))) r ;;;
      ret parentElement
  | _ =>
      child <- get_prop parentElement "lastElementChild" ;;
      if truthy child then throw TypeError else ret parentElement
  end.

Definition addButtonListeners : M value :=
  mainElement <- querySelector (has_tag "main") ;;
  match mainElement with
  | None => ret VNull
  | Some m =>
      buttons <- querySelectorAll m (has_tag "button") ;;
      for_each buttons (fun button =>
        postId <- dataset_postId button ;;
        if truthy postId
        then fn <- fresh_fn ;; addEventListener button (mkListener fn postId)
        else ret tt) ;;;
      ret (VArr (map VNode buttons))
  end.

(** The function handed to [removeEventListener] is a new arrow function,
    as the source writes it. *)
Definition removeButtonListeners : M value :=
  mainElement <- querySelector (has_tag "main") ;;
  match mainElement with
  | None => ret VNull
  | Some m =>
      buttons <- querySelectorAll m (has_tag "button") ;;
      for_each buttons (fun button =>
        postId <- dataset_postId button ;;
        if truthy postId
        then fn <- fresh_fn ;; removeEventListener button fn
        else ret tt) ;;;
      ret (VArr (map VNode buttons))
  end.

Definition createComments_step (fragment : nat) (comment : value) : M unit :=
  article <- createElement "article" ;;
  name <- get_prop comment "name" ;;
  h3 <- createElemWithText (VStr "h3") name VUndefined ;;
  body <- get_prop comment "body" ;;
  pBody <- createElemWithText (VStr "p") body VUndefined ;;
  email <- get_prop comment "email" ;;
  from <- of_option (to_string email) ;;
  pEmail <- createElemWithText (VStr "p") (VStr ("From: " +:+ from)) VUndefined ;;
  appendChild article h3 ;;;
  appendChild article pBody ;;;
  appendChild article pEmail ;;;
  appendChild fragment (VNode article).

Definition createComments (comments : value) : M value :=
  if negb (truthy comments) then ret VUndefined else
  fragment <- createDocumentFragment ;;
  items <- iterate comments ;;
  for_each items (createComments_step fragment) ;;;
  ret (VNode fragment).

Definition populateSelectMenu (users : value) : M value :=
  selectMenu <- getElementById "selectMenu" ;;
  if negb (truthy users) then ret VUndefined else
  options <- createSelectOptions users ;;
  items <- iterate options ;;
  for_each items (fun option => call_appendChild (of_ref selectMenu) option) ;;;
  ret (of_ref selectMenu).

(* --------------------------------------------------------------------- *)
(** ** The API client                                                      *)

Definition console_error (e : exn) : M unit :=
  fun st =>
    (Ret tt,
     mkState (nodes st) (root st) (next_fn st) (requests st)
             (console st ++ [e]) (net st)).

(** [await fetch(url)]: the request is issued, then the promise settles. *)
Definition fetch (url : string) : M (bool * option value) :=
  fun st =>
    let st' := mkState (nodes st) (root st) (next_fn st)
                       (requests st ++ [url]) (console st) (net st) in
    match net st (length (requests st)) url with
    | Rejected => (Throw FetchRejected, st')
    | Response ok body => (Ret (ok, body), st')
    end.

(** The body of each [try] block, after the URL is built. *)
Definition request_json (url : string) : M value :=
  response <- fetch url ;;
  if negb (fst response) then throw NotOkError else
  match snd response with
  | Some data => ret data
  | None => throw JsonError
  end.

Definition api : string := "https://jsonplaceholder.typicode.com".

Definition getUsers : M value :=
  try_catch
    (request_json (api +:+ "/users"))
    (fun error => console_error error ;;; ret VNull).

Definition getUserPosts (userId : value) : M value :=
  if is_undefined userId then ret VUndefined else
  try_catch
    (id <- of_option (to_string userId) ;;
     request_json (api +:+ "/posts?userId=" +:+ id))
    (fun error => console_error error ;;; ret VNull).

Definition getUser (userId : value) : M value :=
  if is_undefined userId then ret VUndefined else
  try_catch
    (id <- of_option (to_string userId) ;;
     request_json (api +:+ "/users/" +:+ id))
    (fun error => console_error error ;;; ret VNull).

Definition getPostComments (postId : value) : M value :=
  if is_undefined postId then ret VUndefined else
  try_catch
    (id <- of_option (to_string postId) ;;
     request_json (api +:+ "/comments?postId=" +:+ id))
    (fun error => console_error error ;;; ret VNull).

(* --------------------------------------------------------------------- *)
(** ** Rendering                                                           *)

Definition displayComments (postId : value) : M value :=
  if is_undefined postId then ret VUndefined else
  section <- createElement "section" ;;
  set_dataset_postId section postId ;;;
  classList_add section ["comments"; "hide"] ;;;
  comments <- getPostComments postId ;;
  fragment <- createComments comments ;;
  appendChild section fragment ;;;
  ret (VNode section).

Definition node_of (v : value) : M nat :=
  match v with VNode r => ret r | _ => unmodelled end.

Definition createPosts_step (fragment : nat) (post : value) : M unit :=
  article <- createElement "article" ;;
  title <- get_prop post "title" ;;
  h2 <- createElemWithText (VStr "h2") title VUndefined ;;
  body <- get_prop post "body" ;;
  pBody <- createElemWithText (VStr "p") body VUndefined ;;
  id <- get_prop post "id" ;;
  idText <- of_option (to_string id) ;;
  pPostId <- createElemWithText (VStr "p") (VStr ("Post ID: " +:+ idText)) VUndefined ;;
  userId <- get_prop post "userId" ;;
  author <- getUser userId ;;
  authorName <- get_prop author "name" ;;
  nameText <- of_option (to_string authorName) ;;
  company <- get_prop author "company" ;;
  companyName <- get_prop company "name" ;;
  companyText <- of_option (to_string companyName) ;;
  pAuthor <- createElemWithText (VStr "p")
               (VStr ("Author: " +:+ nameText +:+ " with " +:+ companyText)) VUndefined ;;
  company' <- get_prop author "company" ;;
  catchPhrase <- get_prop company' "catchPhrase" ;;
  pCatchPhrase <- createElemWithText (VStr "p") catchPhrase VUndefined ;;
  button <- createElemWithText (VStr "button") (VStr "Show Comments") VUndefined ;;
  b <- node_of button ;;
  id' <- get_prop post "id" ;;
  set_dataset_postId b id' ;;;
  appendChild article h2 ;;;
  appendChild article pBody ;;;
  appendChild article pPostId ;;;
  appendChild article pAuthor ;;;
  appendChild article pCatchPhrase ;;;
  appendChild article button ;;;
  id'' <- get_prop post "id" ;;
  section <- displayComments id'' ;;
  appendChild article section ;;;
  appendChild fragment (VNode article).

Definition createPosts (posts : value) : M value :=
  if negb (truthy posts) then ret VUndefined else
  len <- get_prop posts "length" ;;
  short <- of_option (lt_one len) ;;
  if short : bool then ret VUndefined else
  fragment <- createDocumentFragment ;;
  items <- iterate posts ;;
  for_each items (createPosts_step fragment) ;;;
  ret (VNode fragment).

Definition displayPosts (posts : value) : M value :=
  main <- querySelector (has_tag "main") ;;
  match main with
  | None => ret VNull
  | Some m =>
      element <- createPosts posts ;;
      empty <- (if negb (truthy element) then ret true else
                count <- get_prop element "childElementCount" ;;
                of_option (lt_one count)) ;;
      element' <- (if empty : bool
                   then createElemWithText (VStr "p")
                          (VStr "Select an Employee to display their posts.")
                          (VStr "default-text")
                   else ret element) ;;
      appendChild m element' ;;;
      ret element'
  end.

Definition toggleComments (event postId : value) : M value :=
  if negb (truthy event) || is_undefined postId then ret VUndefined else
  target <- get_prop event "target" ;;
  set_flag target "listener" true ;;;
  section <- toggleCommentSection postId ;;
  button <- toggleCommentButton postId ;;
  ret (VArr [section; button]).

Definition refreshPosts (posts : value) : M value :=
  if negb (truthy posts) then ret VUndefined else
  removeButtons <- removeButtonListeners ;;
  mainElement <- querySelector (has_tag "main") ;;
  main <- deleteChildElements (of_ref mainElement) ;;
  fragment <- displayPosts posts ;;
  addButtons <- addButtonListeners ;;
  ret (VArr [removeButtons; main; fragment; addButtons]).

(** [parseInt(event?.target?.value)] *)
Definition parse_target_value (event : value) : M number :=
  target <- get_prop_opt event "target" ;;
  chosen <- get_prop_opt target "value" ;;
  s <- of_option (to_string chosen) ;;
  ret (parseInt s).

Definition selectMenuChangeEventHandler (event : value) : M value :=
  if negb (truthy event) then ret VUndefined else
  selectMenu <- get_prop event "target" ;;
  (if truthy selectMenu then set_flag selectMenu "disabled" true else ret tt) ;;;
  parsed <- parse_target_value event ;;
  userId <- (if isInteger parsed then parse_target_value event else ret (NInt 1)) ;;
  posts <- getUserPosts (VNum userId) ;;
  refreshPostsArray <- refreshPosts posts ;;
  (if truthy selectMenu then set_flag selectMenu "disabled" false else ret tt) ;;;
  ret (VArr [VNum userId; posts; refreshPostsArray]).

Definition initPage : M value :=
  users <- getUsers ;;
  select <- populateSelectMenu users ;;
  ret (VArr [users; select]).

(** A click on [button]: the listeners registered on it run in order, each
    on an event whose target is the button.  An exception in a listener is
    reported by the host and does not stop the others. *)
Definition click (button : nat) : M unit :=
  n <- get_node button ;;
  for_each (n_click n) (fun l =>
    try_catch
      (toggleComments (VObj [("target", VNode button)]) (l_postId l) ;;; ret tt)
      (fun _ => ret tt)).

(* ===================================================================== *)
(** * Vocabulary of the properties                                         *)
(* ===================================================================== *)

(** A failing network interaction: the request rejects or the response is
    not ok. *)
Definition fails (r : response) : bool :=
  match r with
  | Rejected => true
  | Response ok _ => negb ok
  end.

(** The value caught by the [catch] block on such a failure. *)
Definition failure_of (r : response) : exn :=
  match r with
  | Rejected => FetchRejected
  | Response false _ => NotOkError
  | Response true _ => JsonError
  end.

(** The state after one request for [url] whose failure [e] was logged. *)
Definition after_failure (st : state) (url : string) (e : exn) : state :=
  mkState (nodes st) (root st) (next_fn st)
          (requests st ++ [url]) (console st ++ [e]) (net st).

(** The state after one request for [url]. *)
Definition after_request (st : state) (url : string) : state :=
  mkState (nodes st) (root st) (next_fn st)
          (requests st ++ [url]) (console st) (net st).

(** No element of the document satisfies the selector. *)
Definition no_match (st : state) (p : node -> bool) : Prop :=
  forall r, In r (doc_elements st) -> node_sat (nodes st) p r = false.

(** The value has no [tagName] property: it is null, undefined, a
    primitive, an array, an object without that field, or a fragment. *)
Definition lacks_tagName (st : state) (v : value) : Prop :=
  match v with
  | VNode r => exists n, nodes st !! r = Some n /\ n_tag n = None
  | VObj fs => lookup_field "tagName" fs = VUndefined
  | _ => True
  end.

(** The option element [createSelectOptions] builds for a user whose id
    prints as [id] and whose name is stored as [name]. *)
Definition option_node (d : string * string) : node :=
  let n := with_value (blank (Some "option")) (fst d) in
  with_children n (if String.eqb (snd d) "" then [] else [CText (snd d)]).

(** A user object, with the string form of its id and of its name. *)
Definition is_user (u : value) (d : string * string) : Prop :=
  exists fs, u = VObj fs /\
             to_string (lookup_field "id" fs) = Some (fst d) /\
             to_text (lookup_field "name" fs) = Some (snd d).

(** The label of a node: its [textContent]. *)
Definition label (st : state) (r : nat) : string :=
  text_content (length (nodes st)) (nodes st) r.

(** The comment section is hidden: its class list holds [hide]. *)
Definition hidden (st : state) (r : nat) : bool :=
  node_sat (nodes st) (fun n => has_token "hide" (n_class n)) r.

(** One toggle, as [toggleComments] performs it. *)
Definition toggle (postId : value) : M value :=
  section <- toggleCommentSection postId ;;
  button <- toggleCommentButton postId ;;
  ret (VArr [section; button]).

(** The user id the change handler resolves from the selector's value. *)
Definition resolve_user_id (s : string) : number :=
  match parseInt s with
  | NInt z => NInt z
  | _ => NInt 1
  end.

(** The handler, run on [event] in [st], resolves the user id [u]: its
    first request is the one for the posts of user [u], and when it returns,
    the first component of its result is [u] and the second is what
    [getUserPosts] gave for [u] in [disabled], the state with the selector
    disabled. *)
Definition resolves (event : value) (st disabled : state) (u : Z) : Prop :=
  let run := selectMenuChangeEventHandler event st in
  (exists more,
     requests (snd run) =
       requests st ++ [api +:+ "/posts?userId=" +:+ decimal u] ++ more) /\
  (forall r, fst run = Ret r ->
     exists posts refreshed,
       fst (getUserPosts (VNum (NInt u)) disabled) = Ret posts /\
       r = VArr [VNum (NInt u); posts; refreshed]).

Definition is_digit (a : ascii) : bool := ((48 <=? code a) && (code a <=? 57))%nat.

(** The text ends the decimal digits before it: it is empty, or starts with
    what is neither a digit nor the [x] of a hexadecimal prefix. *)
Definition ends_number (rest : string) : bool :=
  match rest with
  | EmptyString => true
  | String a _ => negb (is_digit a || Ascii.eqb a "x" || Ascii.eqb a "X")
  end.

(** The text ends the hexadecimal digits before it. *)
Definition ends_hex (rest : string) : bool :=
  match rest with
  | EmptyString => true
  | String a _ => match digit_val a with Some d => 16 <=? d | None => true end
  end.

(** The text starts no number: it is empty, or starts with what is neither
    a digit, a sign nor white space. *)
Definition starts_no_number (rest : string) : bool :=
  match rest with
  | EmptyString => true
  | String a _ => negb (is_digit a || is_space a || Ascii.eqb a "+" || Ascii.eqb a "-")
  end.

(** Hexadecimal digits of a natural number, in lower case. *)
Definition hexadecimal (z : Z) : string :=
  HexadecimalString.NilZero.string_of_uint (N.to_hex_uint (Z.to_N z)).

(** Every registered listener is a function created earlier. *)
Definition listeners_known (st : state) : Prop :=
  forall r n l, nodes st !! r = Some n -> In l (n_click n) ->
                (l_fn l < next_fn st)%nat.

Definition clicks_of (st : state) (r : nat) : option (list listener) :=
  n_click <$> nodes st !! r.

(** The computation only adds to the request log. *)
Definition keeps_requests {A} (m : M A) : Prop :=
  forall st, exists more, requests (snd (m st)) = requests st ++ more.

(** The state with [k] more function objects created. *)
Definition more_functions (k : nat) (st : state) : state :=
  mkState (nodes st) (root st) (k + next_fn st) (requests st) (console st) (net st).

(* --------------------------------------------------------------------- *)
(** ** Sample documents and networks                                       *)

Definition elem (tag : string) (cs : list child) : node :=
  mkNode (Some tag) "" None [] None false false cs [] None.

(** html > body > (select#selectMenu, main > p.default-text) *)
Definition sample_nodes : list node :=
  [ elem "html" [CElem 1%nat];
    elem "body" [CElem 2%nat; CElem 3%nat];
    mkNode (Some "select") "selectMenu" None [] None false false [] [] None;
    elem "main" [CElem 4%nat];
    mkNode (Some "p") "" None ["default-text"] None false false
           [CText "Select an Employee to display their posts."] [] None ].

Definition sample_user : value :=
  VObj [("id", VNum (NInt 1)); ("name", VStr "Leanne Graham");
        ("company", VObj [("name", VStr "Romaguera-Crona");
                          ("catchPhrase", VStr "Multi-layered client-server neural-net")])].

Definition sample_post : value :=
  VObj [("userId", VNum (NInt 1)); ("id", VNum (NInt 1));
        ("title", VStr "sunt aut facere"); ("body", VStr "quia et suscipit")].

Definition sample_comment : value :=
  VObj [("postId", VNum (NInt 1)); ("id", VNum (NInt 1));
        ("name", VStr "id labore"); ("email", VStr "Eliseo@gardner.biz");
        ("body", VStr "laudantium enim")].

(** A network that serves user 1, their one post and its one comment. *)
Definition sample_net (k : nat) (url : string) : response :=
  if String.eqb url (api +:+ "/users") then Response true (Some (VArr [sample_user]))
  else if String.eqb url (api +:+ "/users/1") then Response true (Some sample_user)
  else if String.eqb url (api +:+ "/posts?userId=1") then Response true (Some (VArr [sample_post]))
  else if String.eqb url (api +:+ "/comments?postId=1") then Response true (Some (VArr [sample_comment]))
  else Response false None.

(** A network on which every request is rejected. *)
Definition down_net (k : nat) (url : string) : response := Rejected.

(** A network that serves the posts and the comments but answers 500 to
    every request for a single user. *)
Definition no_author_net (k : nat) (url : string) : response :=
  if String.eqb url (api +:+ "/users/1") then Response false None
  else sample_net k url.

Definition sample_state : state := mkState sample_nodes 0 0 [] [] sample_net.
Definition down_state : state := mkState sample_nodes 0 0 [] [] down_net.
Definition no_author_state : state := mkState sample_nodes 0 0 [] [] no_author_net.

(** The document once the menu is filled and the second user is chosen:
    html > body > (select#selectMenu > (option, option, option),
    main > p.default-text), the first option being the one of the markup,
    [<option>Employees</option>]. *)
Definition menu_nodes : list node :=
  [ elem "html" [CElem 1%nat];
    elem "body" [CElem 2%nat; CElem 3%nat];
    mkNode (Some "select") "selectMenu" None [] None false false
           [CElem 5%nat; CElem 6%nat; CElem 7%nat] [] (Some 7%nat);
    elem "main" [CElem 4%nat];
    mkNode (Some "p") "" None ["default-text"] None false false
           [CText "Select an Employee to display their posts."] [] None;
    elem "option" [CText "Employees"];
    option_node ("1", "Leanne Graham");
    option_node ("2", "Ervin Howell") ].

Definition second_user : value :=
  VObj [("id", VNum (NInt 2)); ("name", VStr "Ervin Howell");
        ("company", VObj [("name", VStr "Deckow-Crist");
                          ("catchPhrase", VStr "Proactive didactic contingency")])].

Definition second_post : value :=
  VObj [("userId", VNum (NInt 2)); ("id", VNum (NInt 11));
        ("title", VStr "et ea vero quia"); ("body", VStr "delectus reiciendis")].

Definition second_comment : value :=
  VObj [("postId", VNum (NInt 11)); ("id", VNum (NInt 51));
        ("name", VStr "molestias et odio"); ("email", VStr "Lurline@marvin.biz");
        ("body", VStr "voluptas sint")].

(** The sample network, serving the second user as well: their one post and
    its one comment. *)
Definition menu_net (k : nat) (url : string) : response :=
  if String.eqb url (api +:+ "/users/2") then Response true (Some second_user)
  else if String.eqb url (api +:+ "/posts?userId=2")
  then Response true (Some (VArr [second_post]))
  else if String.eqb url (api +:+ "/comments?postId=11")
  then Response true (Some (VArr [second_comment]))
  else sample_net k url.

(** A post id that is one line feed. *)
Definition line_break : string := String (ascii_of_nat 10) EmptyString.

Definition menu_state : state := mkState menu_nodes 0 0 [] [] menu_net.
Definition menu_down_state : state := mkState menu_nodes 0 0 [] [] down_net.

(** A document without a [main] element. *)
Definition bare_state : state :=
  mkState [elem "html" [CElem 1%nat]; elem "body" []] 0 0 [] [] sample_net.

(** html > main > article > (button[data-post-id=1], section[data-post-id=1].comments.hide),
    as [createPosts] lays a post out; the button has one click listener. *)
Definition post_nodes (clicks : list listener) : list node :=
  [ elem "html" [CElem 1%nat];
    elem "main" [CElem 2%nat];
    elem "article" [CElem 3%nat; CElem 4%nat];
    mkNode (Some "button") "" (Some "1") [] None false false
           [CText "Show Comments"] clicks None;
    mkNode (Some "section") "" (Some "1") ["comments"; "hide"] None false false [] [] None ].

Definition post_state : state :=
  mkState (post_nodes []) 0 0 [] [] sample_net.

(** The same button, but with the comment section inside it:
    html > main > button[data-post-id=1] > ("Show Comments", section[data-post-id=1].hide) *)
Definition nested_state : state :=
  mkState
    [ elem "html" [CElem 1%nat];
      elem "main" [CElem 2%nat];
      mkNode (Some "button") "" (Some "1") [] None false false
             [CText "Show Comments"; CElem 3%nat] [] None;
      mkNode (Some "section") "" (Some "1") ["hide"] None false false [] [] None ]
    0 0 [] [] sample_net.

(* --------------------------------------------------------------------- *)
(** ** Vocabulary of the further properties                                *)

(** What a fetch function returns and what it logs, by the answer of the
    network. *)
Definition outcome (r : response) : value * list exn :=
  match r with
  | Rejected => (VNull, [FetchRejected])
  | Response false _ => (VNull, [NotOkError])
  | Response true None => (VNull, [JsonError])
  | Response true (Some data) => (data, [])
  end.

(** The state after one request for [url] that the network answered
    with [r]. *)
Definition settled (st : state) (url : string) (r : response) : state :=
  mkState (nodes st) (root st) (next_fn st)
          (requests st ++ [url]) (console st ++ snd (outcome r)) (net st).

(** The computation works on the document only: it issues no request, logs
    nothing and leaves the network and the root as they are. *)
Definition offline {A} (m : M A) : Prop :=
  forall st,
    requests (snd (m st)) = requests st /\
    console (snd (m st)) = console st /\
    net (snd (m st)) = net st /\
    root (snd (m st)) = root st.

(** An element that holds text only, as [createElemWithText] builds it
    without a class name. *)
Definition text_element (name t : string) : node :=
  with_children (blank (Some name)) (if String.eqb t "" then [] else [CText t]).

(** The tokens [createElemWithText] stores for its [className] argument. *)
Definition class_tokens (className : value) : option (list string) :=
  if truthy className then token_set <$> to_string className else Some [].

(** A comment object, with the text of its name and body and the string
    form of its email. *)
Definition is_comment (c : value) (d : string * string * string) : Prop :=
  exists fs, c = VObj fs /\
    to_text (param_default (VStr "") (lookup_field "name" fs)) = Some (fst (fst d)) /\
    to_text (param_default (VStr "") (lookup_field "body" fs)) = Some (snd (fst d)) /\
    to_string (lookup_field "email" fs) = Some (snd d).

(** The four nodes [createComments] allocates for one comment, the article
    standing at index [a]. *)
Definition comment_nodes (a : nat) (d : string * string * string) : list node :=
  [ with_children (blank (Some "article"))
      [CElem (a + 1)%nat; CElem (a + 2)%nat; CElem (a + 3)%nat];
    text_element "h3" (fst (fst d));
    text_element "p" (snd (fst d));
    text_element "p" ("From: " +:+ snd d) ].

Fixpoint comments_nodes (a : nat) (ds : list (string * string * string)) : list node :=
  match ds with
  | [] => []
  | d :: rest => comment_nodes a d ++ comments_nodes (a + 4) rest
  end.

(** The indices of [n] articles allocated four nodes apart from [a] on. *)
Fixpoint article_refs (a n : nat) : list nat :=
  match n with
  | O => []
  | S k => a :: article_refs (a + 4) k
  end.

(** The section [displayComments] builds for the post id that prints as
    [s], holding the articles at [refs]. *)
Definition comment_section (s : string) (refs : list nat) : node :=
  mkNode (Some "section") "" (Some s) ["comments"; "hide"] None false false
         (map CElem refs) [] None.

(** What [createPosts] renders of one post: the texts of the post, the
    string forms of its id and of its user id, the author's name, the
    company's name and catch-phrase, and the comments. *)
Record post_data : Type := mkPostData {
  pd_title : string;
  pd_body : string;
  pd_id : string;
  pd_user : string;
  pd_author : string;
  pd_company : string;
  pd_phrase : string;
  pd_comments : list (string * string * string) }.

(** A post object with an id and a user id. *)
Definition is_post (post : value) (d : post_data) : Prop :=
  exists fs, post = VObj fs /\
    to_text (param_default (VStr "") (lookup_field "title" fs)) = Some (pd_title d) /\
    to_text (param_default (VStr "") (lookup_field "body" fs)) = Some (pd_body d) /\
    lookup_field "id" fs <> VUndefined /\
    to_string (lookup_field "id" fs) = Some (pd_id d) /\
    lookup_field "userId" fs <> VUndefined /\
    to_string (lookup_field "userId" fs) = Some (pd_user d).

(** A user object with a company object. *)
Definition is_author (author : value) (d : post_data) : Prop :=
  exists fs cfs, author = VObj fs /\
    to_string (lookup_field "name" fs) = Some (pd_author d) /\
    lookup_field "company" fs = VObj cfs /\
    to_string (lookup_field "name" cfs) = Some (pd_company d) /\
    to_text (param_default (VStr "") (lookup_field "catchPhrase" cfs)) = Some (pd_phrase d).

(** The two requests [createPosts] issues for a post, in order. *)
Definition post_urls (d : post_data) : list string :=
  [api +:+ "/users/" +:+ pd_user d; api +:+ "/comments?postId=" +:+ pd_id d].

(** From the [k]-th request on the network serves, post by post, the
    author and then the comments. *)
Fixpoint served (answer : nat -> string -> response) (k : nat)
         (posts : list value) (ds : list post_data) : Prop :=
  match posts, ds with
  | [], [] => True
  | post :: posts', d :: ds' =>
      is_post post d /\
      (exists author,
         answer k (api +:+ "/users/" +:+ pd_user d) = Response true (Some author) /\
         is_author author d) /\
      (exists cs,
         answer (S k) (api +:+ "/comments?postId=" +:+ pd_id d)
           = Response true (Some (VArr cs)) /\
         Forall2 is_comment cs (pd_comments d)) /\
      served answer (S (S k)) posts' ds'
  | _, _ => False
  end.

(** The nodes [createPosts] allocates for one post, the article standing at
    index [a]: the article, its six texts and button, the comment section,
    the emptied fragment of the comments and the nodes of the comments. *)
Definition article_nodes (a : nat) (d : post_data) : list node :=
  [ with_children (blank (Some "article"))
      (map CElem [a + 1; a + 2; a + 3; a + 4; a + 5; a + 6; a + 7]%nat);
    text_element "h2" (pd_title d);
    text_element "p" (pd_body d);
    text_element "p" ("Post ID: " +:+ pd_id d);
    text_element "p" ("Author: " +:+ pd_author d +:+ " with " +:+ pd_company d);
    text_element "p" (pd_phrase d);
    with_postId (text_element "button" "Show Comments") (pd_id d);
    comment_section (pd_id d) (article_refs (a + 9) (length (pd_comments d)));
    blank None ]
  ++ comments_nodes (a + 9) (pd_comments d).

Fixpoint posts_nodes (a : nat) (ds : list post_data) : list node :=
  match ds with
  | [] => []
  | d :: rest => article_nodes a d ++ posts_nodes (a + 9 + 4 * length (pd_comments d)) rest
  end.

(** The indices of the articles of the posts. *)
Fixpoint post_refs (a : nat) (ds : list post_data) : list nat :=
  match ds with
  | [] => []
  | d :: rest => a :: post_refs (a + 9 + 4 * length (pd_comments d)) rest
  end.

(** The paragraph [displayPosts] shows when there is no post. *)
Definition default_text : node :=
  with_class (text_element "p" "Select an Employee to display their posts.")
             ["default-text"].

(** The store lists every element before its children, and every child it
    names is in the store.  Documents numbered in tree order are so, and the
    script keeps it so: what it appends to a node it has created after the
    node. *)
Definition ordered (ns : list node) : Prop :=
  forall i n c, ns !! i = Some n -> In c (elem_children (n_children n)) ->
                (i < c < length ns)%nat.


(** The document is ready for a refresh of [main], the element [m]: it is
    numbered in tree order from a root it holds, and its listeners are
    functions created earlier. *)
Definition ready (st : state) (m : nat) : Prop :=
  ordered (nodes st) /\
  (root st < length (nodes st))%nat /\
  listeners_known st /\
  List.find (node_sat (nodes st) (has_tag "main")) (doc_elements st) = Some m.

(* ===================================================================== *)
(** * Properties                                                           *)
(* ===================================================================== *)

(* --------------------------------------------------------------------- *)
(** ** Sample runs                                                         *)

(** The initial load fetches the users and fills the selector. *)
Example initPage_sample :
  let st := snd (initPage sample_state) in
  fst (initPage sample_state) = Ret (VArr [VArr [sample_user]; VNode 2]) /\
  requests st = [api +:+ "/users"] /\
  kids (nodes st) 2 = [5%nat] /\
  nodes st !! 5%nat = Some (option_node ("1", "Leanne Graham")).
Proof. repeat split; vm_compute; reflexivity. Qed.

(** A refresh renders one article per post: title, body, post id, author
    with company, catch-phrase, button and the hidden comment section. *)
Example refreshPosts_sample :
  let st := snd (refreshPosts (VArr [sample_post]) sample_state) in
  fst (refreshPosts (VArr [sample_post]) sample_state) =
    Ret (VArr [VArr []; VNode 3; VNode 5; VArr [VNode 12]]) /\
  requests st = [api +:+ "/users/1"; api +:+ "/comments?postId=1"] /\
  kids (nodes st) 3 = [6%nat] /\
  kids (nodes st) 6 = [7; 8; 9; 10; 11; 12; 13]%nat /\
  map (label st) [7; 8; 9; 10; 11; 12]%nat =
    ["sunt aut facere"; "quia et suscipit"; "Post ID: 1";
     "Author: Leanne Graham with Romaguera-Crona";
     "Multi-layered client-server neural-net"; "Show Comments"] /\
  hidden st 13 = true /\
  label st 13 = "id laborelaudantium enimFrom: Eliseo@gardner.biz".
Proof. repeat split; vm_compute; reflexivity. Qed.

(** One click on the rendered button shows the comments and relabels it. *)
Example click_sample :
  let st := snd (refreshPosts (VArr [sample_post]) sample_state) in
  let st' := snd (click 12 st) in
  hidden st' 13 = false /\ label st' 12 = "Hide Comments" /\
  n_flag <$> nodes st' !! 12%nat = Some true.
Proof. repeat split; vm_compute; reflexivity. Qed.

(** The value of the selector: empty while it has no option, the id of the
    first user once it is filled, the value of the chosen option after a
    choice, the text of the option of the markup while that one is
    selected, as it is again once the chosen option is removed, and empty
    once all options are. *)
Example select_value_samples :
  let value_of (ns : list node) :=
    match ns !! 2%nat with Some n => select_value ns n | None => None end in
  let unchosen :=
    mkNode (Some "select") "selectMenu" None [] None false false
           [CElem 5%nat; CElem 6%nat; CElem 7%nat] [] None in
  value_of sample_nodes = Some "" /\
  value_of (nodes (snd (initPage sample_state))) = Some "1" /\
  value_of menu_nodes = Some "2" /\
  value_of (<[2%nat := unchosen]> menu_nodes) = Some "Employees" /\
  value_of (nodes (snd (removeChild 2 7 menu_state))) = Some "Employees" /\
  value_of (nodes (snd (deleteChildElements (VNode 2) menu_state))) = Some "".
Proof. repeat split; vm_compute; reflexivity. Qed.

(** What [parseInt] reads: white space and text after the digits are
    dropped, a sign and a hexadecimal prefix are read, an integer that no
    double holds is rounded to the nearest one, ties to even, and text
    that starts no number gives NaN. *)
Example parseInt_samples :
  map parseInt ["7"; "  -12px"; "+7"; "0x1F"; "1e3"; "3.9";
                "9007199254740993"; "9007199254740995"; "18446744073709551616"] =
    map NInt [7; -12; 7; 31; 1; 3;
              9007199254740992; 9007199254740996; 18446744073709551616] /\
  map parseInt [""; "undefined"; "Infinity"; "-"; "0x"; ".5"] =
    [NNaN; NNaN; NNaN; NNaN; NNaN; NNaN].
Proof. split; vm_compute; reflexivity. Qed.

(** A change while the option of the markup is selected: its text is no
    number, and the posts of user 1 are requested. *)
Example change_on_markup_option :
  let unchosen :=
    mkNode (Some "select") "selectMenu" None [] None false false
           [CElem 5%nat; CElem 6%nat; CElem 7%nat] [] None in
  let st := set_nodes menu_state (<[2%nat := unchosen]> menu_nodes) in
  requests (snd (selectMenuChangeEventHandler (VObj [("target", VNode 2)]) st)) =
    [api +:+ "/posts?userId=1"; api +:+ "/users/1"; api +:+ "/comments?postId=1"].
Proof. vm_compute. reflexivity. Qed.

(** An event without a target falls back to user 1. *)
Example change_without_target :
  requests (snd (selectMenuChangeEventHandler (VObj []) sample_state)) =
    [api +:+ "/posts?userId=1"; api +:+ "/users/1"; api +:+ "/comments?postId=1"].
Proof. vm_compute. reflexivity. Qed.

(** With no selector in the document [populateSelectMenu] throws. *)
Example populateSelectMenu_without_selector :
  fst (populateSelectMenu (VArr [sample_user]) bare_state) = Throw TypeError.
Proof. vm_compute. reflexivity. Qed.

(* --------------------------------------------------------------------- *)
(** ** Helpers                                                             *)

Lemma set_nodes_same (st : state) : set_nodes st (nodes st) = st.
Proof. destruct st; reflexivity. Qed.

Lemma is_undefined_false (v : value) : v <> VUndefined -> is_undefined v = false.
Proof. destruct v; intros H; try reflexivity; congruence. Qed.

Lemma find_no_match {A} (f : A -> bool) (l : list A) :
  (forall x, In x l -> f x = false) -> List.find f l = None.
Proof.
  induction l as [|a l IH]; intros H; simpl; [reflexivity|].
  rewrite (H a) by (left; reflexivity).
  apply IH. intros x Hx. apply H. right; exact Hx.
Qed.

Lemma querySelector_no_match (st : state) (p : node -> bool) :
  no_match st p -> querySelector p st = (Ret None, st).
Proof.
  intros H. unfold querySelector. rewrite (find_no_match _ _ H). reflexivity.
Qed.

Lemma bind_run {A B} (m : M A) (k : A -> M B) (st st' : state) (a : A) :
  m st = (Ret a, st') -> bind m k st = k a st'.
Proof. intros H. unfold bind. rewrite H. reflexivity. Qed.

Lemma bind_throw {A B} (m : M A) (k : A -> M B) (st st' : state) (e : exn) :
  m st = (Throw e, st') -> bind m k st = (Throw e, st').
Proof. intros H. unfold bind. rewrite H. reflexivity. Qed.

(* --------------------------------------------------------------------- *)
(** ** The API client                                                      *)

Section FailingRequest.
Variable st : state.
Variable url : string.
Hypothesis Hfail : fails (net st (length (requests st)) url) = true.

Lemma request_json_fails :
  request_json url st =
    (Throw (failure_of (net st (length (requests st)) url)), after_request st url).
Proof using Hfail.
  unfold request_json, bind, fetch, after_request.
  destruct (net st (length (requests st)) url) as [|[|] body];
    simpl in *; try reflexivity; discriminate.
Qed.

Lemma caught_request_fails :
  try_catch (request_json url) (fun error => console_error error ;;; ret VNull) st =
    (Ret VNull, after_failure st url (failure_of (net st (length (requests st)) url))).
Proof using Hfail.
  unfold try_catch. rewrite request_json_fails. reflexivity.
Qed.
End FailingRequest.

(** C3. On a failing network interaction (the request rejects or the
    response is not ok) each of the four fetch functions issues its one
    request, logs the caught error to the console's error channel and
    returns null; nothing is thrown to the caller.  For the three functions
    that take an identifier, the identifier is one that is given and has a
    string form. *)
Theorem fetch_failure_returns_null (st : state) :
  let answer url := net st (length (requests st)) url in
  let failure m url :=
    fails (answer url) = true ->
    m st = (Ret VNull, after_failure st url (failure_of (answer url))) in
  failure getUsers (api +:+ "/users") /\
  forall id s, id <> VUndefined -> to_string id = Some s ->
    failure (getUserPosts id) (api +:+ "/posts?userId=" +:+ s) /\
    failure (getUser id) (api +:+ "/users/" +:+ s) /\
    failure (getPostComments id) (api +:+ "/comments?postId=" +:+ s).
Proof.
  cbv zeta. split.
  - intros Hfail. unfold getUsers. apply caught_request_fails, Hfail.
  - intros id s Hid Hs.
    unfold getUserPosts, getUser, getPostComments.
    rewrite (is_undefined_false _ Hid).
    repeat split; intros Hfail;
      unfold try_catch, bind at 1; rewrite Hs; simpl of_option; unfold ret at 1;
      rewrite request_json_fails by exact Hfail; reflexivity.
Qed.

Lemma fetch_failure_returns_null_witness :
  getUsers down_state =
    (Ret VNull, after_failure down_state (api +:+ "/users") FetchRejected) /\
  getUser (VNum (NInt 1)) no_author_state =
    (Ret VNull, after_failure no_author_state (api +:+ "/users/1") NotOkError).
Proof.
  split.
  - apply (fetch_failure_returns_null down_state). reflexivity.
  - destruct (fetch_failure_returns_null no_author_state) as [_ H].
    destruct (H (VNum (NInt 1)) "1") as (_ & Hu & _);
      [discriminate | reflexivity |].
    apply Hu. reflexivity.
Defined.

(** C4 as stated fails for [getUsers]: called with no argument it issues a
    request, and on the sample network it returns the user list. *)
Lemma getUsers_no_argument_counterexample :
  fst (getUsers sample_state) = Ret (VArr [sample_user]) /\
  fst (getUsers sample_state) <> Ret VUndefined /\
  requests (snd (getUsers sample_state)) = [api +:+ "/users"] /\
  requests (snd (getUsers sample_state)) <> requests sample_state.
Proof. repeat split; vm_compute; congruence. Qed.

(** C4, amended. Each fetch function that takes an identifier
    ([getUserPosts], [getUser], [getPostComments]) returns undefined when
    called without it, and the state is untouched: no request is issued.
    [getUsers] takes no identifier and always issues its one request. *)
Theorem fetch_without_identifier (st : state) :
  getUserPosts VUndefined st = (Ret VUndefined, st) /\
  getUser VUndefined st = (Ret VUndefined, st) /\
  getPostComments VUndefined st = (Ret VUndefined, st) /\
  requests (snd (getUsers st)) = requests st ++ [api +:+ "/users"].
Proof.
  repeat split.
  unfold getUsers, try_catch, request_json, bind, fetch.
  destruct (net st (length (requests st)) (api +:+ "/users")) as [|[|] [d|]];
    reflexivity.
Qed.

(* --------------------------------------------------------------------- *)
(** ** Missing anchors                                                     *)

Lemma css_broken_not_plain (s : string) : css_broken s = true -> css_plain s = false.
Proof.
  unfold css_plain. induction s as [|a s IH]; [discriminate|].
  cbn [css_broken all_chars]. intros H.
  destruct (existsb (Nat.eqb (code a)) [10; 12; 13]%nat) eqn:E1.
  - apply andb_false_iff. left. apply negb_false_iff.
    cbn [existsb] in E1 |- *.
    destruct (code a =? 10)%nat, (code a =? 12)%nat, (code a =? 13)%nat;
      try discriminate E1; rewrite ?orb_true_r; reflexivity.
  - destruct (existsb (Nat.eqb (code a)) [39; 92]%nat); [discriminate H|].
    apply andb_false_iff. right. exact (IH H).
Qed.

(** C8 as stated fails for a post id that holds a line break: no section
    and no button of the document carries it, yet the two toggle functions
    do not return null, they throw the SyntaxError of [querySelector]. *)
Lemma line_break_counterexample :
  forallb (fun r => negb (node_sat (nodes sample_state)
                            (fun n => has_post_id "section" line_break n
                                      || has_post_id "button" line_break n) r))
          (seq 0 (length (nodes sample_state))) = true /\
  toggleCommentSection (VStr line_break) sample_state = (Throw SyntaxError, sample_state) /\
  toggleCommentButton (VStr line_break) sample_state = (Throw SyntaxError, sample_state) /\
  fst (toggleCommentSection (VStr line_break) sample_state) <> Ret VNull /\
  fst (toggleCommentButton (VStr line_break) sample_state) <> Ret VNull.
Proof. repeat split; try reflexivity; discriminate. Qed.

(** C8, amended. A missing anchor makes the function return null with the
    state untouched and nothing thrown: [toggleCommentSection] and
    [toggleCommentButton] when a post id is given whose string form holds
    no quote, backslash, line break or NUL and no section (button) of the
    document carries it, [addButtonListeners], [removeButtonListeners] and
    [displayPosts] when the document has no [main] element.  When the
    string form of the post id holds a line break, before any quote or
    backslash, the two toggle functions throw a SyntaxError, whatever the
    document holds. *)
Theorem missing_anchor_returns_null (st : state) :
  (forall postId p,
     postId <> VUndefined -> to_string postId = Some p -> css_plain p = true ->
     (no_match st (has_post_id "section" p) ->
      toggleCommentSection postId st = (Ret VNull, st)) /\
     (no_match st (has_post_id "button" p) ->
      toggleCommentButton postId st = (Ret VNull, st))) /\
  (forall postId p,
     postId <> VUndefined -> to_string postId = Some p -> css_broken p = true ->
     toggleCommentSection postId st = (Throw SyntaxError, st) /\
     toggleCommentButton postId st = (Throw SyntaxError, st)) /\
  (no_match st (has_tag "main") ->
   addButtonListeners st = (Ret VNull, st) /\
   removeButtonListeners st = (Ret VNull, st) /\
   forall posts, displayPosts posts st = (Ret VNull, st)).
Proof.
  split; [|split].
  - intros postId p Hdef Hp Hplain.
    unfold toggleCommentSection, toggleCommentButton, post_id_selector.
    rewrite (is_undefined_false _ Hdef).
    split; intros Hno; unfold bind, of_option; rewrite Hp;
      cbv beta iota delta [ret]; rewrite Hplain;
      rewrite (querySelector_no_match _ _ Hno); reflexivity.
  - intros postId p Hdef Hp Hbroken.
    unfold toggleCommentSection, toggleCommentButton, post_id_selector.
    rewrite (is_undefined_false _ Hdef).
    split; unfold bind, of_option; rewrite Hp;
      cbv beta iota delta [ret]; rewrite (css_broken_not_plain p Hbroken), Hbroken;
      reflexivity.
  - intros Hno.
    unfold addButtonListeners, removeButtonListeners, displayPosts, bind.
    rewrite (querySelector_no_match _ _ Hno). auto.
Qed.

Lemma missing_anchor_returns_null_witness :
  toggleCommentSection (VNum (NInt 7)) sample_state = (Ret VNull, sample_state) /\
  toggleCommentButton (VNum (NInt 7)) sample_state = (Ret VNull, sample_state) /\
  addButtonListeners bare_state = (Ret VNull, bare_state) /\
  removeButtonListeners bare_state = (Ret VNull, bare_state) /\
  displayPosts (VArr [sample_post]) bare_state = (Ret VNull, bare_state).
Proof.
  assert (Hno : forall st p,
             forallb (fun r => negb (node_sat (nodes st) p r)) (doc_elements st) = true ->
             no_match st p).
  { intros st p H r Hr. rewrite forallb_forall in H.
    apply negb_true_iff, H, Hr. }
  destruct (missing_anchor_returns_null sample_state) as [Hpost _].
  destruct (Hpost (VNum (NInt 7)) "7") as [Hs Hb];
    [discriminate | reflexivity | reflexivity |].
  destruct (missing_anchor_returns_null bare_state) as (_ & _ & Hmain).
  destruct Hmain as (Ha & Hr & Hd); [apply Hno; reflexivity|].
  split; [apply Hs, Hno; reflexivity|].
  split; [apply Hb, Hno; reflexivity|].
  split; [exact Ha|]. split; [exact Hr | apply Hd].
Defined.

(* --------------------------------------------------------------------- *)
(** ** refreshPosts on an absent post list                                 *)

(** C9. Called with a falsy argument (the null of a failed
    [getUserPosts], undefined, ...) [refreshPosts] returns undefined and
    the state is the one it started in: no listener is removed, no child of
    [main] is deleted, nothing is appended, nothing is requested. *)
Theorem refreshPosts_absent (st : state) (posts : value) :
  truthy posts = false -> refreshPosts posts st = (Ret VUndefined, st).
Proof. intros H. unfold refreshPosts. rewrite H. reflexivity. Qed.

Lemma refreshPosts_absent_witness :
  getUserPosts (VNum (NInt 1)) down_state =
    (Ret VNull, after_failure down_state (api +:+ "/posts?userId=1") FetchRejected) /\
  refreshPosts VNull post_state = (Ret VUndefined, post_state).
Proof.
  split; [reflexivity|].
  apply (refreshPosts_absent post_state VNull). reflexivity.
Defined.

(* --------------------------------------------------------------------- *)
(** ** deleteChildElements                                                 *)

Lemma with_children_same (n : node) : with_children n (n_children n) = n.
Proof. destruct n; reflexivity. Qed.

Lemma set_nodes_twice (st : state) (a b : list node) :
  set_nodes (set_nodes st a) b = set_nodes st b.
Proof. reflexivity. Qed.

Lemma last_elem_none (cs : list child) :
  last_elem cs = None -> List.filter is_text cs = cs.
Proof.
  induction cs as [|c cs IH]; simpl; [reflexivity|].
  destruct (last_elem cs); [discriminate|].
  destruct c; [|discriminate].
  intros _. simpl. rewrite IH; reflexivity.
Qed.

Lemma last_elem_in (cs : list child) (c : nat) :
  last_elem cs = Some c -> In c (elem_children cs).
Proof.
  induction cs as [|x cs IH]; simpl; [discriminate|].
  destruct (last_elem cs) as [r|].
  - intros H. apply in_or_app. right. apply IH. exact H.
  - destruct x; [discriminate|]. intros [= ->]. left. reflexivity.
Qed.

Lemma remove_elem_texts (c : nat) (cs : list child) :
  List.filter is_text (remove_elem c cs) = List.filter is_text cs.
Proof.
  induction cs as [|x cs IH]; simpl; [reflexivity|].
  destruct x as [s|r]; simpl.
  - rewrite IH. reflexivity.
  - destruct (Nat.eqb r c); simpl; [reflexivity | exact IH].
Qed.

Lemma remove_elem_count (c : nat) (cs : list child) :
  In c (elem_children cs) ->
  S (length (elem_children (remove_elem c cs))) = length (elem_children cs).
Proof.
  induction cs as [|x cs IH]; simpl; [intros []|].
  destruct x as [s|r]; simpl.
  - exact IH.
  - destruct (Nat.eqb_spec r c) as [->|Hne]; [reflexivity|].
    intros [H|H]; [congruence|]. simpl. rewrite IH by exact H. reflexivity.
Qed.

(** The loop ends before its fuel does, leaving the text children. *)
Lemma deleteChildElements_loop_spec (fuel : nat) :
  forall (st : state) (r : nat) (n : node),
    nodes st !! r = Some n ->
    (length (elem_children (n_children n)) < fuel)%nat ->
    deleteChildElements_loop fuel r st =
      (Ret tt,
       set_nodes st (<[r := with_children n (List.filter is_text (n_children n))]> (nodes st))).
Proof.
  induction fuel as [|fuel IH]; intros st r n Hn Hlt; [lia|].
  cbn [deleteChildElements_loop]. unfold bind at 1, get_node at 1. rewrite Hn.
  destruct (last_elem (n_children n)) as [c|] eqn:Hlast.
  - unfold bind at 1, removeChild, modify_node, bind at 1, get_node, put_node.
    rewrite Hn.
    pose proof (lookup_lt_Some _ _ _ Hn) as Hr.
    pose proof (remove_elem_count c _ (last_elem_in _ _ Hlast)) as Hcount.
    erewrite IH; [| cbn [nodes set_nodes]; apply list_lookup_insert_eq, Hr
                   | cbn [n_children with_children]; lia ].
    cbn [nodes set_nodes n_children with_children].
    rewrite set_nodes_twice, list_insert_insert_eq, remove_elem_texts.
    destruct n; reflexivity.
  - rewrite (last_elem_none _ Hlast), with_children_same.
    rewrite (list_insert_id _ _ _ Hn), set_nodes_same. reflexivity.
Qed.

Lemma length_elem_children (cs : list child) :
  (length (elem_children cs) <= length cs)%nat.
Proof.
  induction cs as [|[s|r] cs IH]; simpl; lia.
Qed.

Lemma upper_nonempty (t : string) :
  t <> "" -> String.eqb (map_string upper_ascii t) "" = false.
Proof. destruct t; [congruence | reflexivity]. Qed.

(** C10. For an argument without a [tagName] property (null, undefined, a
    primitive, an array, a plain object without it, a fragment)
    [deleteChildElements] returns undefined and the state is untouched.  For
    an element it returns that same element; in the state it leaves, the
    element's children are exactly its former text children, in place and
    in order, and nothing else has changed. *)
Theorem deleteChildElements_spec (st : state) :
  (forall v, lacks_tagName st v -> deleteChildElements v st = (Ret VUndefined, st)) /\
  (forall r n t,
     nodes st !! r = Some n -> n_tag n = Some t -> t <> "" ->
     deleteChildElements (VNode r) st =
       (Ret (VNode r),
        set_nodes st (<[r := with_children n (List.filter is_text (n_children n))]> (nodes st))) /\
     elem_children (List.filter is_text (n_children n)) = []).
Proof.
  split.
  - intros v Hv. unfold deleteChildElements, get_prop_opt.
    destruct v as [| |b|k|s|items|fs|r]; try reflexivity.
    + simpl in *. unfold bind, get_prop, data_prop. simpl. rewrite Hv. reflexivity.
    + destruct Hv as (n & Hn & Htag). simpl.
      unfold bind, get_prop, bind, get_node. rewrite Hn.
      unfold node_prop. simpl. rewrite Htag. reflexivity.
  - intros r n t Hn Htag Ht. split.
    + unfold deleteChildElements, get_prop_opt. simpl nullish. cbv iota.
      unfold bind at 1, get_prop, bind at 1, get_node at 1. rewrite Hn.
      unfold node_prop. cbn [String.eqb Ascii.eqb Bool.eqb]. rewrite Htag.
      unfold of_option, ret at 1, truthy. rewrite (upper_nonempty _ Ht).
      cbn [negb]. unfold bind at 1, get_node at 1. rewrite Hn.
      unfold bind.
      rewrite (deleteChildElements_loop_spec _ st r n Hn)
        by (pose proof (length_elem_children (n_children n)); lia).
      reflexivity.
    + induction (n_children n) as [|[s|c] cs IH]; simpl; auto.
Qed.

Lemma deleteChildElements_spec_witness :
  deleteChildElements VNull sample_state = (Ret VUndefined, sample_state) /\
  deleteChildElements (VNode 2) nested_state =
    (Ret (VNode 2),
     set_nodes nested_state
       (<[2%nat := mkNode (Some "button") "" (Some "1") [] None false false
                     [CText "Show Comments"] [] None]> (nodes nested_state))).
Proof.
  split.
  - apply (deleteChildElements_spec sample_state). exact I.
  - destruct (deleteChildElements_spec nested_state) as [_ H].
    destruct (H 2%nat
                (mkNode (Some "button") "" (Some "1") [] None false false
                        [CText "Show Comments"; CElem 3%nat] [] None)
                "button") as [Hd _];
      [reflexivity | reflexivity | discriminate | exact Hd].
Defined.

(* --------------------------------------------------------------------- *)
(** ** createSelectOptions                                                 *)

(** Updating the node that was allocated last. *)
Lemma modify_last (st : state) (ns : list node) (x : node) (f : node -> node) :
  modify_node (length ns) f (set_nodes st (ns ++ [x])) =
    (Ret tt, set_nodes st (ns ++ [f x])).
Proof.
  unfold modify_node, bind, get_node, put_node. cbn [nodes set_nodes].
  rewrite list_lookup_middle by reflexivity.
  rewrite set_nodes_twice. cbn [nodes set_nodes].
  rewrite insert_app_r_alt by lia. rewrite Nat.sub_diag. reflexivity.
Qed.

Lemma createSelectOptions_step_spec (st : state) (options : list value)
      (u : value) (d : string * string) :
  is_user u d ->
  createSelectOptions_step options u st =
    (Ret (options ++ [VNode (length (nodes st))]),
     set_nodes st (nodes st ++ [option_node d])).
Proof.
  intros (fs & -> & Hid & Hname).
  unfold createSelectOptions_step.
  unfold bind at 1. change (createElement "option" st)
    with (Ret (length (nodes st)), set_nodes st (nodes st ++ [blank (Some "option")])).
  unfold bind at 1, get_prop, data_prop, ret at 1.
  unfold bind at 1. rewrite Hid. unfold of_option at 1, ret at 1.
  unfold bind at 1. rewrite modify_last.
  unfold bind at 1, ret at 1.
  unfold bind at 1. rewrite Hname. unfold of_option at 1, ret at 1.
  unfold bind at 1, set_textContent. rewrite modify_last.
  reflexivity.
Qed.

Lemma createSelectOptions_loop_spec (us : list value) (ds : list (string * string)) :
  Forall2 is_user us ds ->
  forall (st : state) (options : list value),
    createSelectOptions_loop us options st =
      (Ret (options ++ map VNode (seq (length (nodes st)) (length us))),
       set_nodes st (nodes st ++ map option_node ds)).
Proof.
  induction 1 as [|u d us ds Hu _ IH]; intros st options.
  - simpl. rewrite !app_nil_r, set_nodes_same. reflexivity.
  - cbn [createSelectOptions_loop]. unfold bind.
    rewrite (createSelectOptions_step_spec _ _ _ _ Hu), IH.
    cbn [nodes set_nodes length seq map].
    rewrite length_app, Nat.add_1_r, <- !app_assoc. reflexivity.
Qed.

Lemma option_node_label (ns : list node) (d : string * string) (f : nat) (r : nat) :
  ns !! r = Some (option_node d) -> text_content (S f) ns r = snd d.
Proof.
  intros H. cbn [text_content]. rewrite H. unfold option_node.
  cbn [n_children with_children].
  destruct (String.eqb_spec (snd d) "") as [->|_]; reflexivity.
Qed.

(** C5. [createSelectOptions] returns undefined for undefined and an empty
    array for an empty array; for an array of user objects it allocates one
    [option] element per user, in input order, and returns the array of
    these elements.  The value of the i-th option is the string form of the
    i-th user's id and its label (text content) is that user's name. *)
Theorem createSelectOptions_spec (st : state) :
  createSelectOptions VUndefined st = (Ret VUndefined, st) /\
  createSelectOptions (VArr []) st = (Ret (VArr []), st) /\
  forall us ds, Forall2 is_user us ds ->
    let st' := set_nodes st (nodes st ++ map option_node ds) in
    createSelectOptions (VArr us) st =
      (Ret (VArr (map VNode (seq (length (nodes st)) (length us)))), st') /\
    forall i d, ds !! i = Some d ->
      exists n, nodes st' !! (length (nodes st) + i)%nat = Some n /\
                n_tag n = Some "option" /\
                own_value n = Some (fst d) /\
                label st' (length (nodes st) + i) = snd d.
Proof.
  split; [reflexivity|]. split.
  - unfold createSelectOptions. simpl. unfold bind, iterate, ret.
    simpl. reflexivity.
  - intros us ds H st'. split.
    + unfold createSelectOptions. cbn [truthy negb]. unfold bind, iterate, ret.
      rewrite (createSelectOptions_loop_spec _ _ H). reflexivity.
    + intros i d Hd.
      assert (Hn : nodes st' !! (length (nodes st) + i)%nat = Some (option_node d)).
      { subst st'. cbn [nodes set_nodes].
        rewrite lookup_app_r by lia.
        replace (length (nodes st) + i - length (nodes st))%nat with i by lia.
        rewrite list_lookup_fmap, Hd. reflexivity. }
      exists (option_node d). repeat split; [exact Hn|].
      unfold label.
      pose proof (lookup_lt_Some _ _ _ Hn) as Hlt.
      destruct (length (nodes st')) as [|f] eqn:E; [lia|].
      apply option_node_label, Hn.
Qed.

Lemma createSelectOptions_spec_witness :
  createSelectOptions (VArr [sample_user]) sample_state =
    (Ret (VArr [VNode 5]),
     set_nodes sample_state (sample_nodes ++ [option_node ("1", "Leanne Graham")])).
Proof.
  destruct (createSelectOptions_spec sample_state) as (_ & _ & H).
  destruct (H [sample_user] [("1", "Leanne Graham")]) as [Hrun _];
    [| exact Hrun].
  constructor; [| constructor].
  eexists. repeat split.
Defined.

(* --------------------------------------------------------------------- *)
(** ** Toggling                                                            *)

(** Tree order depends on the element children only. *)
Lemma subtree_ext (ns ns' : list node) :
  (forall i, kids ns' i = kids ns i) ->
  forall fuel r, subtree fuel ns' r = subtree fuel ns r.
Proof.
  intros H. induction fuel as [|fuel IH]; intros r; [reflexivity|].
  cbn [subtree]. rewrite H. f_equal.
  apply flat_map_ext. intros a. apply IH.
Qed.

Lemma find_ext {A} (f g : A -> bool) (l : list A) :
  (forall x, f x = g x) -> List.find f l = List.find g l.
Proof.
  intros H. induction l as [|a l IH]; simpl; [reflexivity|].
  rewrite H, IH. reflexivity.
Qed.

Section Update.
Variable st : state.
Variables (r : nat) (n n' : node).
Hypothesis Hn : nodes st !! r = Some n.

Let st' := set_nodes st (<[r := n']> (nodes st)).

Lemma update_lookup_same : nodes st' !! r = Some n'.
Proof using Hn.
  apply list_lookup_insert_eq, (lookup_lt_Some _ _ _ Hn).
Qed.

Lemma update_lookup_other (i : nat) : i <> r -> nodes st' !! i = nodes st !! i.
Proof. intros H. apply list_lookup_insert_ne. congruence. Qed.

Lemma update_kids :
  elem_children (n_children n') = elem_children (n_children n) ->
  forall i, kids (nodes st') i = kids (nodes st) i.
Proof using Hn.
  intros H i. unfold kids. destruct (Nat.eq_dec i r) as [->|Hne].
  - rewrite update_lookup_same, Hn. exact H.
  - rewrite update_lookup_other by exact Hne. reflexivity.
Qed.

Lemma update_doc_elements :
  elem_children (n_children n') = elem_children (n_children n) ->
  doc_elements st' = doc_elements st.
Proof using Hn.
  intros H. unfold doc_elements. cbn [nodes root set_nodes st'].
  rewrite length_insert. apply subtree_ext, update_kids, H.
Qed.

Lemma update_node_sat (p : node -> bool) :
  p n' = p n -> forall i, node_sat (nodes st') p i = node_sat (nodes st) p i.
Proof using Hn.
  intros H i. unfold node_sat. destruct (Nat.eq_dec i r) as [->|Hne].
  - rewrite update_lookup_same, Hn. exact H.
  - rewrite update_lookup_other by exact Hne. reflexivity.
Qed.

(** An update that keeps a node's tag, post id and element children
    keeps the answer of every selector of the script. *)
Lemma update_querySelector (p : node -> bool) :
  elem_children (n_children n') = elem_children (n_children n) ->
  p n' = p n ->
  List.find (node_sat (nodes st') p) (doc_elements st') =
  List.find (node_sat (nodes st) p) (doc_elements st).
Proof using Hn.
  intros Hk Hp. rewrite (update_doc_elements Hk).
  apply find_ext, update_node_sat, Hp.
Qed.
End Update.

Lemma text_content_own (ns : list node) (r : nat) (n : node) (f : nat) :
  ns !! r = Some n -> elem_children (n_children n) = [] ->
  text_content (S f) ns r = own_text n.
Proof.
  intros Hn Hk. cbn [text_content]. rewrite Hn. unfold own_text. f_equal.
  induction (n_children n) as [|[s|c] cs IH]; simpl in *;
    [reflexivity | rewrite IH by exact Hk; reflexivity | discriminate].
Qed.

Lemma label_own (st : state) (r : nat) (n : node) :
  nodes st !! r = Some n -> elem_children (n_children n) = [] ->
  label st r = own_text n.
Proof.
  intros Hn Hk. unfold label.
  pose proof (lookup_lt_Some _ _ _ Hn) as Hlt.
  destruct (length (nodes st)) as [|f]; [lia|].
  apply text_content_own; assumption.
Qed.

Lemma toggleCommentSection_found (st : state) (postId : value) (p : string)
      (s : nat) (nS : node) :
  postId <> VUndefined -> to_string postId = Some p -> css_plain p = true ->
  List.find (node_sat (nodes st) (has_post_id "section" p)) (doc_elements st) = Some s ->
  nodes st !! s = Some nS ->
  toggleCommentSection postId st =
    (Ret (VNode s),
     set_nodes st (<[s := with_class nS (toggle_token "hide" (n_class nS))]> (nodes st))).
Proof.
  intros Hdef Hp Hplain Hfind Hs.
  unfold toggleCommentSection, post_id_selector.
  rewrite (is_undefined_false _ Hdef).
  unfold bind at 1, bind at 1, of_option; rewrite Hp.
  cbv beta iota delta [ret]. rewrite Hplain.
  unfold bind at 1, querySelector. rewrite Hfind.
  unfold bind, classList_toggle, modify_node, bind, get_node, put_node.
  rewrite Hs. reflexivity.
Qed.

Lemma toggleCommentButton_found (st : state) (postId : value) (p : string)
      (b : nat) (nB : node) :
  postId <> VUndefined -> to_string postId = Some p -> css_plain p = true ->
  List.find (node_sat (nodes st) (has_post_id "button" p)) (doc_elements st) = Some b ->
  nodes st !! b = Some nB ->
  toggleCommentButton postId st =
    (Ret (VNode b),
     set_nodes st (<[b := with_children nB [CText (flip_label (label st b))]]> (nodes st))).
Proof.
  intros Hdef Hp Hplain Hfind Hb.
  unfold toggleCommentButton, post_id_selector.
  rewrite (is_undefined_false _ Hdef).
  unfold bind at 1, bind at 1, of_option; rewrite Hp.
  cbv beta iota delta [ret]. rewrite Hplain.
  unfold bind at 1, querySelector. rewrite Hfind.
  unfold bind, get_textContent, set_textContent, modify_node, bind, get_node, put_node.
  rewrite Hb. fold (label st b). unfold flip_label.
  destruct (String.eqb (label st b) "Show Comments"); reflexivity.
Qed.

Lemma find_sat (st : state) (p : node -> bool) (r : nat) :
  List.find (node_sat (nodes st) p) (doc_elements st) = Some r ->
  exists n, nodes st !! r = Some n /\ p n = true.
Proof.
  intros H. apply find_some in H as [_ H]. unfold node_sat in H.
  destruct (nodes st !! r) as [n|]; [eauto | discriminate].
Qed.

Lemma toggle_token_twice (t : string) (cl : list string) :
  has_token t (toggle_token t (toggle_token t cl)) = has_token t cl.
Proof.
  assert (Hrm : forall l, has_token t (remove_token t l) = false).
  { intros l. unfold has_token, remove_token.
    induction l as [|c l IH]; simpl; [reflexivity|].
    destruct (String.eqb t c) eqn:E; simpl; [exact IH | rewrite E; exact IH]. }
  assert (Hadd : forall l, has_token t (l ++ [t]) = true).
  { intros l. unfold has_token. rewrite existsb_app. simpl.
    rewrite String.eqb_refl. apply orb_true_iff. right. reflexivity. }
  unfold toggle_token at 2. destruct (has_token t cl) eqn:E.
  - unfold toggle_token. rewrite Hrm. apply Hadd.
  - unfold toggle_token. rewrite Hadd. apply Hrm.
Qed.

Lemma flip_label_twice (s : string) :
  s = "Show Comments" \/ s = "Hide Comments" -> flip_label (flip_label s) = s.
Proof. intros [-> | ->]; reflexivity. Qed.

Lemma find_app {A} (f : A -> bool) (l1 l2 : list A) :
  List.find f (l1 ++ l2) =
    match List.find f l1 with Some x => Some x | None => List.find f l2 end.
Proof.
  induction l1 as [|a l1 IH]; simpl; [reflexivity|].
  destruct (f a); [reflexivity | exact IH].
Qed.

Lemma subtree_mono (ns : list node) (x : nat) :
  forall f f' r, (f <= f')%nat -> In x (subtree f ns r) -> In x (subtree f' ns r).
Proof.
  induction f as [|f IH]; intros f' r Hle Hin; [destruct Hin|].
  destruct f' as [|f']; [lia|].
  cbn [subtree] in *. destruct Hin as [->|Hin]; [left; reflexivity|].
  right. apply in_flat_map in Hin as (k & Hk & Hin).
  apply in_flat_map. exists k. split; [exact Hk|].
  apply IH; [lia | exact Hin].
Qed.

Lemma text_content_ext (ns ns' : list node) :
  (forall i, n_children <$> ns' !! i = n_children <$> ns !! i) ->
  forall fuel r, text_content fuel ns' r = text_content fuel ns r.
Proof.
  intros H. induction fuel as [|fuel IH]; intros r; [reflexivity|].
  cbn [text_content]. specialize (H r).
  destruct (ns' !! r) as [n'|], (ns !! r) as [n|]; cbn in H; try congruence.
  injection H as ->. f_equal. apply map_ext. intros [s|c]; [reflexivity | apply IH].
Qed.

(** Replacing the content of one node by text prunes the tree below it. *)
Section Prune.
Variable st : state.
Variables (b : nat) (nB nB' : node).
Hypothesis HnB : nodes st !! b = Some nB.
Hypothesis Htext : elem_children (n_children nB') = [].
Variable q : node -> bool.
Hypothesis Hq : q nB' = q nB.

Let st' := set_nodes st (<[b := nB']> (nodes st)).
Let p := node_sat (nodes st) q.

Lemma prune_kids (r : nat) :
  kids (nodes st') r = if Nat.eqb r b then [] else kids (nodes st) r.
Proof using HnB Htext.
  unfold kids. destruct (Nat.eqb_spec r b) as [->|Hne].
  - unfold st'. rewrite (update_lookup_same st b nB nB' HnB). exact Htext.
  - unfold st'. rewrite update_lookup_other by exact Hne. reflexivity.
Qed.

Lemma prune_sat (r : nat) : node_sat (nodes st') q r = p r.
Proof using HnB Hq. apply (update_node_sat st b nB nB' HnB q Hq). Qed.

Lemma prune_find_none :
  forall f r, List.find p (subtree f (nodes st) r) = None ->
              List.find (node_sat (nodes st') q) (subtree f (nodes st') r) = None.
Proof using HnB Htext Hq.
  induction f as [|f IH]; intros r H; [reflexivity|].
  cbn [subtree List.find] in *. rewrite prune_sat, prune_kids.
  destruct (p r); [discriminate|].
  destruct (Nat.eqb r b); [reflexivity|].
  induction (kids (nodes st) r) as [|k ks IHk]; [reflexivity|].
  cbn [flat_map] in *. rewrite find_app in *.
  destruct (List.find p (subtree f (nodes st) k)) eqn:E; [discriminate|].
  rewrite (IH k E). apply IHk, H.
Qed.

(** The first match is kept if it is the pruned node itself or is not
    below it. *)
Lemma prune_find_some (F x : nat) :
  (x = b /\ p b = true) \/ ~ In x (flat_map (subtree F (nodes st)) (kids (nodes st) b)) ->
  forall f r, (f <= S F)%nat ->
    List.find p (subtree f (nodes st) r) = Some x ->
    List.find (node_sat (nodes st') q) (subtree f (nodes st') r) = Some x.
Proof using HnB Htext Hq.
  intros Hx. induction f as [|f IH]; intros r Hle H; [discriminate|].
  cbn [subtree List.find] in *. rewrite prune_sat, prune_kids.
  destruct (p r) eqn:Hpr; [exact H|].
  destruct (Nat.eqb_spec r b) as [->|Hne].
  - exfalso. destruct Hx as [[_ Hpb]|Hx]; [congruence|].
    apply Hx. apply find_some in H as [Hin _].
    apply in_flat_map in Hin as (k & Hk & Hin). apply in_flat_map.
    exists k. split; [exact Hk|]. apply (subtree_mono _ _ f); [lia | exact Hin].
  - induction (kids (nodes st) r) as [|k ks IHk]; [discriminate|].
    cbn [flat_map] in *. rewrite find_app in *.
    destruct (List.find p (subtree f (nodes st) k)) eqn:E.
    + injection H as ->. rewrite (IH k ltac:(lia) E). reflexivity.
    + rewrite (prune_find_none f k E). apply IHk, H.
Qed.

Lemma prune_querySelector (x : nat) :
  (x = b /\ p b = true) \/ ~ In x (descendants (nodes st) b) ->
  List.find p (doc_elements st) = Some x ->
  List.find (node_sat (nodes st') q) (doc_elements st') = Some x.
Proof using HnB Htext Hq.
  intros Hx H. unfold doc_elements in *. cbn [nodes root set_nodes st'].
  rewrite length_insert.
  destruct (length (nodes st)) as [|F] eqn:E; [discriminate|].
  apply (prune_find_some F); [| lia | exact H].
  destruct Hx as [Hx|Hx]; [left; exact Hx | right].
  unfold descendants in Hx. rewrite E in Hx. exact Hx.
Qed.
End Prune.

(** C6 as stated fails when the comment section lies inside the button: the
    first toggle replaces the button's content, which removes the section
    from the document, so the second toggle does not find it and the
    section stays shown. *)
Lemma toggle_twice_counterexample :
  querySelector (has_post_id "section" "1") nested_state = (Ret (Some 3%nat), nested_state) /\
  querySelector (has_post_id "button" "1") nested_state = (Ret (Some 2%nat), nested_state) /\
  label nested_state 2 = "Show Comments" /\
  hidden nested_state 3 = true /\
  hidden (snd ((toggle (VNum (NInt 1)) ;;; toggle (VNum (NInt 1))) nested_state)) 3 = false.
Proof. repeat split; reflexivity. Qed.

(** C6, amended. Let a post id be given whose comment section and button
    exist in the document, the section not lying inside the button, and the
    button's label being one of the two fixed strings.  Then two toggles
    (each [toggleCommentSection] followed by [toggleCommentButton]) complete,
    both finding the same section and button, and restore the section's
    hidden/shown state and the button's label. *)
Theorem toggle_twice_restores (st : state) (postId : value) (p : string) (s b : nat) :
  postId <> VUndefined -> to_string postId = Some p -> css_plain p = true ->
  querySelector (has_post_id "section" p) st = (Ret (Some s), st) ->
  querySelector (has_post_id "button" p) st = (Ret (Some b), st) ->
  ~ In s (descendants (nodes st) b) ->
  label st b = "Show Comments" \/ label st b = "Hide Comments" ->
  exists st2,
    (toggle postId ;;; toggle postId) st = (Ret (VArr [VNode s; VNode b]), st2) /\
    hidden st2 s = hidden st s /\
    label st2 b = label st b.
Proof.
  intros Hdef Hp Hplain Hqs Hqb Hout Hlabel.
  assert (Hfs : List.find (node_sat (nodes st) (has_post_id "section" p))
                          (doc_elements st) = Some s)
    by (unfold querySelector in Hqs; congruence).
  assert (Hfb : List.find (node_sat (nodes st) (has_post_id "button" p))
                          (doc_elements st) = Some b)
    by (unfold querySelector in Hqb; congruence).
  clear Hqs Hqb.
  destruct (find_sat _ _ _ Hfs) as (nS & HnS & HsatS).
  destruct (find_sat _ _ _ Hfb) as (nB & HnB & HsatB).
  assert (Hsb : s <> b).
  { intros ->. rewrite HnS in HnB. injection HnB as ->.
    unfold has_post_id, has_tag in HsatS, HsatB.
    destruct (n_tag nB) as [t|]; [|discriminate].
    apply andb_true_iff in HsatS as [HS _], HsatB as [HB _].
    apply String.eqb_eq in HS, HB. congruence. }
  (* first toggle: the section *)
  set (nS1 := with_class nS (toggle_token "hide" (n_class nS))).
  set (st1 := set_nodes st (<[s := nS1]> (nodes st))).
  assert (H1 : toggleCommentSection postId st = (Ret (VNode s), st1))
    by (apply (toggleCommentSection_found st postId p); assumption).
  assert (Hfb1 : List.find (node_sat (nodes st1) (has_post_id "button" p))
                           (doc_elements st1) = Some b).
  { unfold st1. rewrite (update_querySelector st s nS nS1 HnS); auto. }
  assert (Hfs1 : List.find (node_sat (nodes st1) (has_post_id "section" p))
                           (doc_elements st1) = Some s).
  { unfold st1. rewrite (update_querySelector st s nS nS1 HnS); auto. }
  assert (HnB1 : nodes st1 !! b = Some nB).
  { unfold st1. rewrite update_lookup_other by congruence. exact HnB. }
  assert (HnS1 : nodes st1 !! s = Some nS1)
    by (apply (update_lookup_same st s nS nS1 HnS)).
  assert (Hl1 : label st1 b = label st b).
  { unfold label, st1. cbn [nodes set_nodes]. rewrite length_insert.
    apply text_content_ext. intros i. destruct (Nat.eq_dec i s) as [->|Hi].
    - rewrite list_lookup_insert_eq by (apply (lookup_lt_Some _ _ _ HnS)).
      rewrite HnS. reflexivity.
    - rewrite list_lookup_insert_ne by congruence. reflexivity. }
  assert (Hout1 : ~ In s (descendants (nodes st1) b)).
  { unfold descendants, st1. cbn [nodes set_nodes]. rewrite length_insert.
    rewrite (subtree_ext (nodes st)); [exact Hout|].
    apply (update_kids st s nS nS1 HnS). reflexivity. }
  (* first toggle: the button; its former content leaves the document *)
  set (nB2 := with_children nB [CText (flip_label (label st1 b))]).
  set (st2 := set_nodes st1 (<[b := nB2]> (nodes st1))).
  assert (H2 : toggleCommentButton postId st1 = (Ret (VNode b), st2))
    by (apply (toggleCommentButton_found st1 postId p); assumption).
  assert (Hfs2 : List.find (node_sat (nodes st2) (has_post_id "section" p))
                           (doc_elements st2) = Some s).
  { apply (prune_querySelector st1 b nB nB2 HnB1 eq_refl
             (has_post_id "section" p) eq_refl s);
      [right; exact Hout1 | exact Hfs1]. }
  assert (Hfb2 : List.find (node_sat (nodes st2) (has_post_id "button" p))
                           (doc_elements st2) = Some b).
  { apply (prune_querySelector st1 b nB nB2 HnB1 eq_refl
             (has_post_id "button" p) eq_refl b);
      [left; split; [reflexivity|] | exact Hfb1].
    unfold node_sat. rewrite HnB1. exact HsatB. }
  assert (HnS2 : nodes st2 !! s = Some nS1).
  { unfold st2. rewrite update_lookup_other by congruence. exact HnS1. }
  assert (HnB2 : nodes st2 !! b = Some nB2)
    by (apply (update_lookup_same st1 b nB nB2 HnB1)).
  (* second toggle: the section *)
  set (nS3 := with_class nS1 (toggle_token "hide" (n_class nS1))).
  set (st3 := set_nodes st2 (<[s := nS3]> (nodes st2))).
  assert (H3 : toggleCommentSection postId st2 = (Ret (VNode s), st3))
    by (apply (toggleCommentSection_found st2 postId p); assumption).
  assert (Hfb3 : List.find (node_sat (nodes st3) (has_post_id "button" p))
                           (doc_elements st3) = Some b).
  { unfold st3. rewrite (update_querySelector st2 s nS1 nS3 HnS2); auto. }
  assert (HnB3 : nodes st3 !! b = Some nB2).
  { unfold st3. rewrite update_lookup_other by congruence. exact HnB2. }
  assert (HnS3 : nodes st3 !! s = Some nS3)
    by (apply (update_lookup_same st2 s nS1 nS3 HnS2)).
  (* second toggle: the button *)
  set (nB4 := with_children nB2 [CText (flip_label (label st3 b))]).
  set (st4 := set_nodes st3 (<[b := nB4]> (nodes st3))).
  assert (H4 : toggleCommentButton postId st3 = (Ret (VNode b), st4))
    by (apply (toggleCommentButton_found st3 postId p); assumption).
  assert (Hl3 : label st3 b = flip_label (label st b)).
  { rewrite (label_own st3 b nB2 HnB3 eq_refl).
    unfold own_text, nB2. cbn [n_children with_children map String.concat].
    rewrite Hl1. reflexivity. }
  exists st4. split; [|split].
  - unfold toggle, bind. rewrite H1, H2. unfold ret at 1. rewrite H3, H4. reflexivity.
  - unfold hidden, node_sat.
    assert (HnS4 : nodes st4 !! s = Some nS3).
    { unfold st4. rewrite update_lookup_other by congruence. exact HnS3. }
    rewrite HnS4, HnS. unfold nS3, nS1. cbn [n_class with_class].
    apply toggle_token_twice.
  - assert (HnB4 : nodes st4 !! b = Some nB4)
      by (apply (update_lookup_same st3 b nB2 nB4 HnB3)).
    rewrite (label_own st4 b nB4 HnB4 eq_refl).
    unfold own_text, nB4. cbn [n_children with_children map String.concat].
    rewrite Hl3. apply flip_label_twice, Hlabel.
Qed.

Lemma toggle_twice_restores_witness :
  exists st2,
    (toggle (VNum (NInt 1)) ;;; toggle (VNum (NInt 1))) post_state =
      (Ret (VArr [VNode 4; VNode 3]), st2) /\
    hidden st2 4 = hidden post_state 4 /\
    label st2 3 = label post_state 3.
Proof.
  apply (toggle_twice_restores post_state (VNum (NInt 1)) "1" 4 3);
    try reflexivity; [discriminate | | left; reflexivity].
  vm_compute. intros [].
Defined.


(* --------------------------------------------------------------------- *)
(** ** The request log only grows                                          *)

Lemma keeps_same {A} (m : M A) :
  (forall st, requests (snd (m st)) = requests st) -> keeps_requests m.
Proof. intros H st. exists []. rewrite app_nil_r. apply H. Qed.

Lemma keeps_ret {A} (a : A) : keeps_requests (ret a).
Proof. apply keeps_same. reflexivity. Qed.

Lemma keeps_throw {A} (e : exn) : keeps_requests (@throw A e).
Proof. apply keeps_same. reflexivity. Qed.

Lemma keeps_unmodelled {A} : keeps_requests (@unmodelled A).
Proof. apply keeps_same. reflexivity. Qed.

Lemma keeps_bind {A B} (m : M A) (k : A -> M B) :
  keeps_requests m -> (forall a, keeps_requests (k a)) -> keeps_requests (bind m k).
Proof.
  intros Hm Hk st. unfold bind. destruct (Hm st) as [l1 H1].
  destruct (m st) as [[a|e|] st1]; simpl in *; eauto.
  destruct (Hk a st1) as [l2 H2]. exists (l1 ++ l2).
  rewrite H2, H1, app_assoc. reflexivity.
Qed.

Lemma keeps_try_catch {A} (m : M A) (h : exn -> M A) :
  keeps_requests m -> (forall e, keeps_requests (h e)) -> keeps_requests (try_catch m h).
Proof.
  intros Hm Hh st. unfold try_catch. destruct (Hm st) as [l1 H1].
  destruct (m st) as [[a|e|] st1]; simpl in *; eauto.
  destruct (Hh e st1) as [l2 H2]. exists (l1 ++ l2).
  rewrite H2, H1, app_assoc. reflexivity.
Qed.

Lemma keeps_of_option {A} (o : option A) : keeps_requests (of_option o).
Proof. destruct o; [apply keeps_ret | apply keeps_unmodelled]. Qed.

Lemma keeps_for_each {A} (items : list A) (body : A -> M unit) :
  (forall x, keeps_requests (body x)) -> keeps_requests (for_each items body).
Proof.
  intros H. induction items as [|x items IH]; cbn [for_each].
  - apply keeps_ret.
  - apply keeps_bind; [apply H | intros _; exact IH].
Qed.

Lemma keeps_get_node (r : nat) : keeps_requests (get_node r).
Proof.
  apply keeps_same. intros st. unfold get_node.
  destruct (nodes st !! r); reflexivity.
Qed.

Lemma keeps_put_node (r : nat) (n : node) : keeps_requests (put_node r n).
Proof. apply keeps_same. reflexivity. Qed.

Lemma keeps_alloc (n : node) : keeps_requests (alloc n).
Proof. apply keeps_same. reflexivity. Qed.

Lemma keeps_querySelector (p : node -> bool) : keeps_requests (querySelector p).
Proof. apply keeps_same. reflexivity. Qed.

Lemma keeps_querySelectorAll (r : nat) (p : node -> bool) :
  keeps_requests (querySelectorAll r p).
Proof. apply keeps_same. reflexivity. Qed.

Lemma keeps_get_textContent (r : nat) : keeps_requests (get_textContent r).
Proof. apply keeps_same. reflexivity. Qed.

Lemma keeps_fresh_fn : keeps_requests fresh_fn.
Proof. apply keeps_same. reflexivity. Qed.

Lemma keeps_console_error (e : exn) : keeps_requests (console_error e).
Proof. apply keeps_same. reflexivity. Qed.

Lemma keeps_fetch (url : string) : keeps_requests (fetch url).
Proof.
  intros st. exists [url]. unfold fetch.
  destruct (net st (length (requests st)) url); reflexivity.
Qed.

Create HintDb requests discriminated.
#[local] Hint Resolve keeps_ret keeps_throw keeps_unmodelled keeps_of_option
  keeps_get_node keeps_put_node keeps_alloc keeps_querySelector
  keeps_querySelectorAll keeps_get_textContent keeps_fresh_fn
  keeps_console_error keeps_fetch : requests.

(** Goes through a definition built from [bind], [try_catch], [for_each],
    [if] and [match], closing the leaves from the hint database. *)
Ltac keeps :=
  repeat first
    [ progress auto with requests
    | apply keeps_bind; [| intros ?]
    | apply keeps_try_catch; [| intros ?]
    | apply keeps_for_each; intros ?
    | match goal with
      | |- keeps_requests (if ?b then _ else _) => destruct b
      | |- keeps_requests (match ?x with _ => _ end) => destruct x
      end ].

Lemma keeps_modify_node (r : nat) (f : node -> node) : keeps_requests (modify_node r f).
Proof. unfold modify_node. keeps. Qed.
#[local] Hint Resolve keeps_modify_node : requests.

Lemma keeps_createElement (name : string) : keeps_requests (createElement name).
Proof. unfold createElement. keeps. Qed.

Lemma keeps_appendChild (parent : nat) (c : value) : keeps_requests (appendChild parent c).
Proof. unfold appendChild. keeps. Qed.

Lemma keeps_get_value (n : node) : keeps_requests (get_value n).
Proof.
  apply keeps_same. intros st. unfold get_value.
  destruct (value_prop (nodes st) n); reflexivity.
Qed.
#[local] Hint Resolve keeps_get_value : requests.

Lemma keeps_get_prop (v : value) (k : string) : keeps_requests (get_prop v k).
Proof. unfold get_prop. keeps. Qed.

Lemma keeps_set_flag (v : value) (k : string) (b : bool) : keeps_requests (set_flag v k b).
Proof. unfold set_flag, set_disabled. keeps. Qed.
#[local] Hint Resolve keeps_createElement keeps_appendChild keeps_get_prop
  keeps_set_flag : requests.

Lemma keeps_createElemWithText (elem text className : value) :
  keeps_requests (createElemWithText elem text className).
Proof.
  unfold createElemWithText, set_textContent, set_className. cbv zeta. keeps.
Qed.

Lemma keeps_request_json (url : string) : keeps_requests (request_json url).
Proof. unfold request_json. keeps. Qed.
#[local] Hint Resolve keeps_createElemWithText keeps_request_json : requests.

Lemma keeps_getUser (userId : value) : keeps_requests (getUser userId).
Proof. unfold getUser. keeps. Qed.

Lemma keeps_getPostComments (postId : value) : keeps_requests (getPostComments postId).
Proof. unfold getPostComments. keeps. Qed.

Lemma keeps_createComments (comments : value) : keeps_requests (createComments comments).
Proof.
  unfold createComments, createComments_step, createDocumentFragment, iterate. keeps.
Qed.
#[local] Hint Resolve keeps_getUser keeps_getPostComments keeps_createComments : requests.

Lemma keeps_displayComments (postId : value) : keeps_requests (displayComments postId).
Proof.
  unfold displayComments, set_dataset_postId, classList_add. keeps.
Qed.
#[local] Hint Resolve keeps_displayComments : requests.

Lemma keeps_createPosts (posts : value) : keeps_requests (createPosts posts).
Proof.
  unfold createPosts, createPosts_step, createDocumentFragment, iterate,
    node_of, set_dataset_postId.
  keeps.
Qed.
#[local] Hint Resolve keeps_createPosts : requests.

Lemma keeps_displayPosts (posts : value) : keeps_requests (displayPosts posts).
Proof. unfold displayPosts. keeps. Qed.

Lemma keeps_deleteChildElements_loop (fuel parent : nat) :
  keeps_requests (deleteChildElements_loop fuel parent).
Proof.
  induction fuel as [|fuel IH]; cbn [deleteChildElements_loop]; [keeps|].
  unfold removeChild. keeps.
Qed.
#[local] Hint Resolve keeps_displayPosts keeps_deleteChildElements_loop : requests.

Lemma keeps_deleteChildElements (v : value) : keeps_requests (deleteChildElements v).
Proof. unfold deleteChildElements, get_prop_opt. keeps. Qed.

Lemma keeps_addButtonListeners : keeps_requests addButtonListeners.
Proof. unfold addButtonListeners, dataset_postId, addEventListener. keeps. Qed.

Lemma keeps_removeButtonListeners : keeps_requests removeButtonListeners.
Proof. unfold removeButtonListeners, dataset_postId, removeEventListener. keeps. Qed.
#[local] Hint Resolve keeps_deleteChildElements keeps_addButtonListeners
  keeps_removeButtonListeners : requests.

Lemma keeps_refreshPosts (posts : value) : keeps_requests (refreshPosts posts).
Proof. unfold refreshPosts. keeps. Qed.

(* --------------------------------------------------------------------- *)
(** ** parseInt on what a selector holds                                   *)

Lemma append_cons (a : ascii) (s t : string) : String a s +:+ t = String a (s +:+ t).
Proof. reflexivity. Qed.

Lemma append_empty (s : string) : s +:+ "" = s.
Proof. induction s as [|a s IH]; [reflexivity|]. rewrite append_cons, IH. reflexivity. Qed.

Lemma skip_space_app (ws s : string) :
  all_chars is_space ws = true -> skip_space (ws +:+ s) = skip_space s.
Proof.
  induction ws as [|a ws IH]; intros H; [reflexivity|].
  cbn [all_chars] in H. apply andb_true_iff in H as [Ha Hws].
  rewrite append_cons. cbn [skip_space]. rewrite Ha. exact (IH Hws).
Qed.

(** Leading white space is skipped. *)
Lemma parseInt_skip (ws s : string) :
  all_chars is_space ws = true -> parseInt (ws +:+ s) = parseInt s.
Proof. intros H. unfold parseInt. rewrite (skip_space_app ws s H). reflexivity. Qed.

(** What follows the digits is not read. *)
Lemma digits_stop (rest : string) (acc : option Z) :
  ends_number rest = true -> digits 10 rest acc = acc.
Proof.
  destruct rest as [|a rest]; [reflexivity|]. intros H.
  destruct a as [[] [] [] [] [] [] [] []]; try discriminate H; reflexivity.
Qed.

Lemma digits_hex_stop (rest : string) (acc : option Z) :
  ends_hex rest = true -> digits 16 rest acc = acc.
Proof.
  destruct rest as [|a rest]; [reflexivity|]. cbn [ends_hex digits].
  destruct (digit_val a) as [d|]; [|reflexivity].
  intros H. apply Z.leb_le in H.
  destruct (Z.ltb_spec d 16); [lia | reflexivity].
Qed.

Lemma digits_decimal_pos (d : Decimal.uint) (rest : string) :
  forall acc : positive,
    digits 10 (NilEmpty.string_of_uint d +:+ rest) (Some (Z.pos acc)) =
      digits 10 rest (Some (Z.pos (Pos.of_uint_acc d acc))).
Proof.
  induction d; intros acc; cbn [NilEmpty.string_of_uint Pos.of_uint_acc];
    [reflexivity | ..]; rewrite append_cons;
    cbn [digits]; cbv [digit_val nat_of_ascii]; cbn;
    rewrite <- IHd; f_equal; f_equal; lia.
Qed.

Lemma digits_decimal_zero (d : Decimal.uint) (rest : string) :
  digits 10 (NilEmpty.string_of_uint d +:+ rest) (Some 0) =
    digits 10 rest (Some (Z.of_N (Pos.of_uint d))).
Proof.
  induction d; cbn [NilEmpty.string_of_uint Pos.of_uint];
    [reflexivity | ..]; rewrite append_cons; [exact IHd | ..];
    cbn [digits]; cbv [digit_val nat_of_ascii]; cbn;
    apply (digits_decimal_pos d).
Qed.

Lemma digits_decimal (d : Decimal.uint) (rest : string) :
  d <> Decimal.Nil ->
  digits 10 (NilEmpty.string_of_uint d +:+ rest) None =
    digits 10 rest (Some (Z.of_N (Pos.of_uint d))).
Proof.
  destruct d; intros Hd; [congruence | ..];
    cbn [NilEmpty.string_of_uint Pos.of_uint]; rewrite append_cons;
    cbn [digits]; cbv [digit_val nat_of_ascii]; cbn;
    first [apply digits_decimal_zero | apply (digits_decimal_pos d)].
Qed.

Lemma digits_hex_pos (d : Hexadecimal.uint) (rest : string) :
  forall acc : positive,
    digits 16 (HexadecimalString.NilEmpty.string_of_uint d +:+ rest) (Some (Z.pos acc)) =
      digits 16 rest (Some (Z.pos (Pos.of_hex_uint_acc d acc))).
Proof.
  induction d; intros acc;
    cbn [HexadecimalString.NilEmpty.string_of_uint Pos.of_hex_uint_acc];
    [reflexivity | ..]; rewrite append_cons;
    cbn [digits]; cbv [digit_val nat_of_ascii]; cbn;
    rewrite <- IHd; f_equal; f_equal; lia.
Qed.

Lemma digits_hex_zero (d : Hexadecimal.uint) (rest : string) :
  digits 16 (HexadecimalString.NilEmpty.string_of_uint d +:+ rest) (Some 0) =
    digits 16 rest (Some (Z.of_N (Pos.of_hex_uint d))).
Proof.
  induction d; cbn [HexadecimalString.NilEmpty.string_of_uint Pos.of_hex_uint];
    [reflexivity | ..]; rewrite append_cons; [exact IHd | ..];
    cbn [digits]; cbv [digit_val nat_of_ascii]; cbn;
    apply (digits_hex_pos d).
Qed.

Lemma digits_hex (d : Hexadecimal.uint) (rest : string) :
  d <> Hexadecimal.Nil ->
  digits 16 (HexadecimalString.NilEmpty.string_of_uint d +:+ rest) None =
    digits 16 rest (Some (Z.of_N (Pos.of_hex_uint d))).
Proof.
  destruct d; intros Hd; [congruence | ..];
    cbn [HexadecimalString.NilEmpty.string_of_uint Pos.of_hex_uint]; rewrite append_cons;
    cbn [digits]; cbv [digit_val nat_of_ascii]; cbn;
    first [apply digits_hex_zero | apply (digits_hex_pos d)].
Qed.

(** A string of decimal digits, after white space and before what ends a
    number, has no sign or hex prefix to strip. *)
Lemma parseInt_digits (ws rest : string) (d : Decimal.uint) :
  all_chars is_space ws = true -> ends_number rest = true ->
  d <> Decimal.Nil ->
  parseInt (ws +:+ NilEmpty.string_of_uint d +:+ rest) =
    match digits 10 (NilEmpty.string_of_uint d +:+ rest) None with
    | Some m => round_double m
    | None => NNaN
    end /\
  parseInt (ws +:+ String "-" (NilEmpty.string_of_uint d +:+ rest)) =
    match digits 10 (NilEmpty.string_of_uint d +:+ rest) None with
    | Some m => round_double (- m)
    | None => NNaN
    end.
Proof.
  intros Hws Hrest Hd. unfold parseInt. rewrite !(skip_space_app ws) by exact Hws.
  destruct d as [|d|d|d|d|d|d|d|d|d|d]; [congruence | ..];
    cbn [NilEmpty.string_of_uint]; rewrite append_cons;
    try (split; reflexivity).
  destruct d; cbn [NilEmpty.string_of_uint]; rewrite ?append_cons;
    try (split; reflexivity).
  destruct rest as [|a rest]; [split; reflexivity|].
  change ("" +:+ String a rest) with (String a rest).
  destruct a as [[] [] [] [] [] [] [] []]; try discriminate Hrest; split; reflexivity.
Qed.

Lemma to_uint_not_nil (p : positive) : Pos.to_uint p <> Decimal.Nil.
Proof.
  intros H. pose proof (DecimalPos.Unsigned.of_to p) as E.
  rewrite H in E. discriminate E.
Qed.

Lemma to_hex_uint_not_nil (p : positive) : Pos.to_hex_uint p <> Hexadecimal.Nil.
Proof.
  intros H. pose proof (HexadecimalPos.Unsigned.of_to p) as E.
  rewrite H in E. discriminate E.
Qed.

(** [parseInt] reads an integer from its decimal digits, whatever white
    space comes before and whatever text that ends a number comes after. *)
Lemma parseInt_number (ws rest : string) (z : Z) :
  all_chars is_space ws = true -> ends_number rest = true ->
  parseInt (ws +:+ decimal z +:+ rest) = round_double z.
Proof.
  assert (Hstr : forall d, d <> Decimal.Nil ->
                   NilZero.string_of_uint d = NilEmpty.string_of_uint d)
    by (intros [] H; congruence || reflexivity).
  intros Hws Hrest.
  destruct z as [|p|p]; unfold decimal; cbn [Z.to_int NilZero.string_of_int].
  - destruct (parseInt_digits ws rest (Decimal.D0 Decimal.Nil) Hws Hrest) as [H _];
      [discriminate|].
    cbn [Pos.to_uint NilZero.string_of_uint NilEmpty.string_of_uint] in *.
    rewrite H. change (digits 10 ("0" +:+ rest) None) with (digits 10 rest (Some 0)).
    rewrite (digits_stop rest _ Hrest). reflexivity.
  - pose proof (to_uint_not_nil p) as Hp. rewrite (Hstr _ Hp).
    destruct (parseInt_digits ws rest _ Hws Hrest Hp) as [H _]. rewrite H.
    rewrite (digits_decimal _ _ Hp), (digits_stop rest _ Hrest),
      DecimalPos.Unsigned.of_to. reflexivity.
  - pose proof (to_uint_not_nil p) as Hp. rewrite (Hstr _ Hp).
    rewrite append_cons.
    destruct (parseInt_digits ws rest _ Hws Hrest Hp) as [_ H]. rewrite H.
    rewrite (digits_decimal _ _ Hp), (digits_stop rest _ Hrest),
      DecimalPos.Unsigned.of_to. reflexivity.
Qed.

Lemma decimal_starts (z : Z) :
  0 <= z -> exists a s, decimal z = String a s /\ is_digit a = true.
Proof.
  intros Hz. destruct z as [|p|p]; [eexists _, _; split; reflexivity | | lia].
  unfold decimal. cbn [Z.to_int NilZero.string_of_int].
  pose proof (to_uint_not_nil p) as Hp.
  destruct (Pos.to_uint p); [congruence | ..]; eexists _, _; split; reflexivity.
Qed.

(** A plus sign before the digits is skipped. *)
Lemma parseInt_plus (ws rest : string) (z : Z) :
  all_chars is_space ws = true -> ends_number rest = true -> 0 <= z ->
  parseInt (ws +:+ String "+" (decimal z +:+ rest)) = round_double z.
Proof.
  intros Hws Hrest Hz. rewrite (parseInt_skip ws _ Hws).
  rewrite <- (parseInt_number "" rest z eq_refl Hrest).
  change ("" +:+ decimal z +:+ rest) with (decimal z +:+ rest).
  destruct (decimal_starts z Hz) as (a & s & -> & Ha). rewrite append_cons.
  destruct a as [[] [] [] [] [] [] [] []]; try discriminate Ha; reflexivity.
Qed.

(** [parseInt] reads the hexadecimal digits after a [0x] or [0X]. *)
Lemma parseInt_hex (ws rest : string) (x : ascii) (z : Z) :
  all_chars is_space ws = true -> ends_hex rest = true ->
  x = "x"%char \/ x = "X"%char -> 0 <= z ->
  parseInt (ws +:+ String "0" (String x (hexadecimal z +:+ rest))) = round_double z.
Proof.
  intros Hws Hrest Hx Hz. rewrite (parseInt_skip ws _ Hws).
  assert (Hrun : digits 16 (hexadecimal z +:+ rest) None = Some z).
  { unfold hexadecimal. destruct z as [|p|p]; [| |lia].
    - change (digits 16 rest (Some 0) = Some 0).
      apply digits_hex_stop, Hrest.
    - cbn [Z.to_N N.to_hex_uint].
      pose proof (to_hex_uint_not_nil p) as Hp.
      assert (Hstr : HexadecimalString.NilZero.string_of_uint (Pos.to_hex_uint p) =
                     HexadecimalString.NilEmpty.string_of_uint (Pos.to_hex_uint p))
        by (destruct (Pos.to_hex_uint p); congruence || reflexivity).
      rewrite Hstr, (digits_hex _ _ Hp), (digits_hex_stop rest _ Hrest),
        HexadecimalPos.Unsigned.of_to. reflexivity. }
  assert (Hread : forall s, parseInt (String "0" (String x s)) =
                    match digits 16 s None with
                    | Some m => round_double m
                    | None => NNaN
                    end)
    by (destruct Hx as [-> | ->]; reflexivity).
  rewrite Hread, Hrun. reflexivity.
Qed.

(** Text that starts no number parses to NaN. *)
Lemma parseInt_no_number (ws rest : string) :
  all_chars is_space ws = true -> starts_no_number rest = true ->
  parseInt (ws +:+ rest) = NNaN.
Proof.
  intros Hws Hrest. rewrite (parseInt_skip ws _ Hws). unfold parseInt.
  destruct rest as [|a rest]; [reflexivity|].
  destruct a as [[] [] [] [] [] [] [] []]; try discriminate Hrest; reflexivity.
Qed.

Lemma round_double_small (z : Z) : Z.abs z < 2 ^ 53 -> round_double z = NInt z.
Proof.
  intros H. unfold round_double. apply Z.ltb_lt in H. rewrite H. reflexivity.
Qed.

(** A number too large for a double rounds to an infinity. *)
Lemma round_double_large (z : Z) :
  2 ^ 1024 <= Z.abs z -> exists neg, round_double z = NInf neg.
Proof.
  intros Hz. unfold round_double. cbv zeta.
  assert (H53 : 2 ^ 53 <= Z.abs z)
    by (transitivity (2 ^ 1024); [vm_compute; discriminate | exact Hz]).
  destruct (Z.ltb_spec (Z.abs z) (2 ^ 53)) as [Hlt|_]; [lia|].
  set (a := Z.abs z) in *.
  assert (Ha : 0 < a) by lia.
  destruct (Z.log2_spec a Ha) as [Hlo Hhi].
  assert (Hlog : 1024 <= Z.log2 a).
  { apply Z.log2_le_pow2; [exact Ha | exact Hz]. }
  set (e := Z.log2 a - 52) in *.
  assert (He : 0 <= e) by lia.
  assert (Hpow : 2 ^ Z.log2 a = 2 ^ 52 * 2 ^ e).
  { unfold e. rewrite <- Z.pow_add_r by lia. f_equal. lia. }
  assert (Hq : 2 ^ 52 <= a / 2 ^ e).
  { apply Z.div_le_lower_bound; [apply Z.pow_pos_nonneg; lia|]. lia. }
  match goal with
  | |- context [if ?c then _ else _] =>
      match c with
      | (2 ^ 1024 <=? ?m) => assert (Hm : 2 ^ 1024 <= m)
      end
  end.
  { transitivity (2 ^ 52 * 2 ^ e).
    - rewrite <- Hpow. apply Z.pow_le_mono_r; lia.
    - apply Z.mul_le_mono_nonneg_r; [apply Z.pow_nonneg; lia|].
      destruct (_ || _); lia. }
  apply Z.leb_le in Hm. rewrite Hm. eexists. reflexivity.
Qed.

(** The integers a double represents exactly are read back from their
    decimal form. *)
Lemma parseInt_decimal (z : Z) : Z.abs z < 2 ^ 53 -> parseInt (decimal z) = NInt z.
Proof.
  intros Hz.
  rewrite <- (round_double_small z Hz), <- (parseInt_number "" "" z eq_refl eq_refl).
  rewrite append_empty. reflexivity.
Qed.

(* --------------------------------------------------------------------- *)
(** ** The change handler                                                  *)

(** [getUserPosts] with an identifier always completes, after exactly one
    request. *)
Lemma getUserPosts_requests (st : state) (userId : value) (id : string) :
  userId <> VUndefined -> to_string userId = Some id ->
  exists posts st2,
    getUserPosts userId st = (Ret posts, st2) /\
    requests st2 = requests st ++ [api +:+ "/posts?userId=" +:+ id].
Proof.
  intros Hdef Hid. unfold getUserPosts. rewrite (is_undefined_false _ Hdef).
  unfold try_catch, bind at 1. rewrite Hid. cbv beta iota delta [of_option ret].
  unfold request_json, bind, fetch.
  destruct (net st (length (requests st)) (api +:+ "/posts?userId=" +:+ id))
    as [|[|] [d|]]; cbn; eauto.
Qed.

Lemma forallb_same {A} (f g : A -> bool) (l : list A) :
  (forall x, f x = g x) -> forallb f l = forallb g l.
Proof.
  intros H. induction l as [|a l IH]; [reflexivity|].
  cbn [forallb]. rewrite H, IH. reflexivity.
Qed.

Lemma select_not_option (n : node) : n_tag n = Some "select" -> has_tag "option" n = false.
Proof. intros H. unfold has_tag. rewrite H. reflexivity. Qed.

(** Disabling or enabling the selector does not change its value. *)
Lemma select_value_disabled (ns : list node) (sel : nat) (n : node) (b : bool) :
  ns !! sel = Some n -> n_tag n = Some "select" ->
  select_value (<[sel := with_disabled n b]> ns) (with_disabled n b) = select_value ns n.
Proof.
  intros Hn Htag. pose proof (lookup_lt_Some _ _ _ Hn) as Hlt.
  assert (Hsat : forall p, p (with_disabled n b) = p n ->
            forall r, node_sat (<[sel := with_disabled n b]> ns) p r = node_sat ns p r).
  { intros p Hp r. unfold node_sat. destruct (Nat.eq_dec r sel) as [->|Hne].
    - rewrite list_lookup_insert_eq by exact Hlt. rewrite Hn. exact Hp.
    - rewrite list_lookup_insert_ne by congruence. reflexivity. }
  assert (Hown : forall o,
            match <[sel := with_disabled n b]> ns !! o with
            | Some no => own_value no
            | None => None
            end = match ns !! o with Some no => own_value no | None => None end).
  { intros o. destruct (Nat.eq_dec o sel) as [->|Hne].
    - rewrite list_lookup_insert_eq by exact Hlt. rewrite Hn. reflexivity.
    - rewrite list_lookup_insert_ne by congruence. reflexivity. }
  assert (Hchoice : forall r, is_choice (<[sel := with_disabled n b]> ns) r = is_choice ns r).
  { apply Hsat. pose proof (select_not_option n Htag) as Hno.
    change (has_tag "option" (with_disabled n b)) with (has_tag "option" n).
    rewrite Hno. reflexivity. }
  unfold select_value, selected_of. cbn [n_children n_chosen with_disabled].
  rewrite (forallb_same _ _ _ (Hsat (has_tag "option") eq_refl)).
  rewrite (find_ext _ _ _ Hchoice).
  destruct (forallb _ _); [|reflexivity].
  destruct (n_chosen n) as [o|]; [destruct (existsb _ _)|];
    repeat match goal with
           | |- context [List.find ?f ?l] => destruct (List.find f l)
           end; rewrite ?Hown; reflexivity.
Qed.

Lemma parse_target_value_select (st : state) (fs : list (string * value))
      (sel : nat) (n : node) (v : string) :
  lookup_field "target" fs = VNode sel ->
  nodes st !! sel = Some n -> n_tag n = Some "select" ->
  select_value (nodes st) n = Some v ->
  parse_target_value (VObj fs) st = (Ret (parseInt v), st).
Proof.
  intros Ht Hn Htag Hv. unfold parse_target_value, get_prop_opt.
  cbn [nullish]. unfold bind at 1, get_prop, data_prop, ret at 1. rewrite Ht.
  cbn [nullish]. unfold bind at 1, bind at 1, get_node. rewrite Hn.
  cbn [String.eqb Ascii.eqb Bool.eqb]. unfold get_value, value_prop.
  rewrite Htag. cbn [String.eqb Ascii.eqb Bool.eqb]. rewrite Hv.
  reflexivity.
Qed.

Lemma set_disabled_at (st : state) (r : nat) (n : node) (b : bool) :
  nodes st !! r = Some n -> has_tag "option" n = false ->
  set_disabled r b st = (Ret tt, set_nodes st (<[r := with_disabled n b]> (nodes st))).
Proof.
  intros Hn Ho. unfold set_disabled, bind, get_node. rewrite Hn, Ho. reflexivity.
Qed.

(** The handler up to the request: the selector is disabled and the user
    id resolved. *)
Lemma change_handler_start (st : state) (fs : list (string * value))
      (sel : nat) (n : node) (v : string) :
  lookup_field "target" fs = VNode sel ->
  nodes st !! sel = Some n -> n_tag n = Some "select" ->
  select_value (nodes st) n = Some v ->
  selectMenuChangeEventHandler (VObj fs) st =
    (posts <- getUserPosts (VNum (resolve_user_id v)) ;;
     refreshPostsArray <- refreshPosts posts ;;
     set_flag (VNode sel) "disabled" false ;;;
     ret (VArr [VNum (resolve_user_id v); posts; refreshPostsArray]))
      (set_nodes st (<[sel := with_disabled n true]> (nodes st))).
Proof.
  intros Ht Hn Htag Hv.
  assert (Hparse : parse_target_value (VObj fs)
                     (set_nodes st (<[sel := with_disabled n true]> (nodes st))) =
                   (Ret (parseInt v),
                    set_nodes st (<[sel := with_disabled n true]> (nodes st)))).
  { apply (parse_target_value_select _ fs sel (with_disabled n true));
      [ exact Ht
      | cbn [nodes set_nodes]; apply list_lookup_insert_eq; eapply lookup_lt_Some; exact Hn
      | exact Htag
      | cbn [nodes set_nodes]; rewrite (select_value_disabled _ _ _ _ Hn Htag); exact Hv ]. }
  unfold selectMenuChangeEventHandler. cbn [truthy negb].
  erewrite bind_run by (cbn [get_prop data_prop]; rewrite Ht; reflexivity).
  cbn [truthy].
  erewrite bind_run
    by (cbn [set_flag String.eqb Ascii.eqb Bool.eqb];
        exact (set_disabled_at st sel n true Hn (select_not_option n Htag))).
  erewrite bind_run by exact Hparse.
  unfold resolve_user_id.
  destruct (parseInt v) as [|neg|z]; cbn [isInteger].
  - erewrite bind_run by reflexivity. reflexivity.
  - erewrite bind_run by reflexivity. reflexivity.
  - erewrite bind_run by exact Hparse. reflexivity.
Qed.

(** Once the value of the selector parses to [u], or to no integer and [u]
    is 1, the handler resolves [u]. *)
Lemma change_handler_resolves (st : state) (fs : list (string * value))
      (sel : nat) (n : node) (v : string) (u : Z) :
  lookup_field "target" fs = VNode sel ->
  nodes st !! sel = Some n -> n_tag n = Some "select" ->
  select_value (nodes st) n = Some v ->
  resolve_user_id v = NInt u -> Z.abs u < 2 ^ 53 ->
  resolves (VObj fs) st (set_nodes st (<[sel := with_disabled n true]> (nodes st))) u.
Proof.
  intros Ht Hn Htag Hv Hu Hsmall. unfold resolves. cbv zeta.
  rewrite (change_handler_start st fs sel n v Ht Hn Htag Hv), Hu.
  set (disabled := set_nodes st (<[sel := with_disabled n true]> (nodes st))).
  destruct (getUserPosts_requests disabled (VNum (NInt u)) (decimal u))
    as (posts & st2 & Hget & Hreq);
    [ discriminate
    | cbn [to_string number_to_string]; apply Z.ltb_lt in Hsmall; rewrite Hsmall; reflexivity
    | ].
  rewrite (bind_run _ _ _ _ _ Hget), Hget. split.
  - assert (Hrest : keeps_requests
              (refreshPostsArray <- refreshPosts posts ;;
               set_flag (VNode sel) "disabled" false ;;;
               ret (VArr [VNum (NInt u); posts; refreshPostsArray]))).
    { apply keeps_bind; [apply keeps_refreshPosts | intros a].
      apply keeps_bind; [apply keeps_set_flag | intros _; apply keeps_ret]. }
    destruct (Hrest st2) as [more Hmore]. exists more.
    rewrite Hmore, Hreq, <- app_assoc. reflexivity.
  - intros r Hr. exists posts. cbn [fst]. unfold bind in Hr.
    destruct (refreshPosts posts st2) as [[refreshed|e|] st3]; try discriminate Hr.
    destruct (set_flag (VNode sel) "disabled" false st3) as [[[]|e|] st4];
      try discriminate Hr.
    exists refreshed. split; [reflexivity|]. cbn in Hr. congruence.
Qed.

(** C7. On a change event whose target is the selector, the handler
    resolves a user id from the selector's value: its first request is the
    one for that user's posts, and when it returns, the first component of
    its result is that id and the second is what [getUserPosts] returned for
    it.  The id is the integer [parseInt] reads from the value, when it
    reads one that a double holds exactly: decimal digits, maybe signed,
    or hexadecimal digits behind [0x], after any white space and before any
    text that ends the number.  It is 1 when [parseInt] reads no integer:
    from a value that starts no number, and from digits of a number too
    large for a double, which reads as Infinity. *)
Theorem change_handler_resolves_user_id (st : state) (fs : list (string * value))
        (sel : nat) (n : node) (v : string) :
  lookup_field "target" fs = VNode sel ->
  nodes st !! sel = Some n -> n_tag n = Some "select" ->
  select_value (nodes st) n = Some v ->
  let resolved :=
    resolves (VObj fs) st (set_nodes st (<[sel := with_disabled n true]> (nodes st))) in
  (forall z, parseInt v = NInt z -> Z.abs z < 2 ^ 53 -> resolved z) /\
  (isInteger (parseInt v) = false -> resolved 1) /\
  (forall z, Z.abs z < 2 ^ 53 -> v = decimal z -> resolved z) /\
  (forall ws z rest,
     all_chars is_space ws = true -> ends_number rest = true -> Z.abs z < 2 ^ 53 ->
     v = ws +:+ decimal z +:+ rest \/
     (0 <= z /\ v = ws +:+ String "+" (decimal z +:+ rest)) ->
     resolved z) /\
  (forall ws z rest x,
     all_chars is_space ws = true -> ends_hex rest = true -> 0 <= z < 2 ^ 53 ->
     x = "x"%char \/ x = "X"%char ->
     v = ws +:+ String "0" (String x (hexadecimal z +:+ rest)) ->
     resolved z) /\
  (forall ws rest,
     all_chars is_space ws = true -> starts_no_number rest = true ->
     v = ws +:+ rest -> resolved 1) /\
  (forall z, 2 ^ 1024 <= Z.abs z -> v = decimal z -> resolved 1).
Proof.
  intros Ht Hn Htag Hv resolved.
  assert (Hint : forall z, parseInt v = NInt z -> Z.abs z < 2 ^ 53 -> resolved z).
  { intros z Hz Hsmall.
    apply (change_handler_resolves st fs sel n v z Ht Hn Htag Hv); [|exact Hsmall].
    unfold resolve_user_id. rewrite Hz. reflexivity. }
  assert (Hnone : isInteger (parseInt v) = false -> resolved 1).
  { intros Hz.
    apply (change_handler_resolves st fs sel n v 1 Ht Hn Htag Hv); [|reflexivity].
    unfold resolve_user_id. destruct (parseInt v); [reflexivity | reflexivity | discriminate Hz]. }
  split; [exact Hint|]. split; [exact Hnone|].
  split; [|split; [|split; [|split]]].
  - intros z Hsmall ->. apply Hint; [apply parseInt_decimal, Hsmall | exact Hsmall].
  - intros ws z rest Hws Hrest Hsmall [-> | [Hz ->]]; (apply Hint; [|exact Hsmall]).
    + rewrite (parseInt_number ws rest z Hws Hrest). apply round_double_small, Hsmall.
    + rewrite (parseInt_plus ws rest z Hws Hrest Hz). apply round_double_small, Hsmall.
  - intros ws z rest x Hws Hrest Hz Hx ->. apply Hint; [|lia].
    rewrite (parseInt_hex ws rest x z Hws Hrest Hx) by lia.
    apply round_double_small. lia.
  - intros ws rest Hws Hrest ->. apply Hnone.
    rewrite (parseInt_no_number ws rest Hws Hrest). reflexivity.
  - intros z Hz ->. apply Hnone.
    rewrite <- (append_empty (decimal z)).
    change (decimal z +:+ "") with ("" +:+ decimal z +:+ "").
    rewrite (parseInt_number "" "" z eq_refl eq_refl).
    destruct (round_double_large z Hz) as [neg ->]. reflexivity.
Qed.

Lemma change_handler_resolves_user_id_witness :
  exists more,
    requests (snd (selectMenuChangeEventHandler (VObj [("target", VNode 2)]) menu_state)) =
      requests menu_state ++ [api +:+ "/posts?userId=" +:+ "2"] ++ more.
Proof.
  destruct (change_handler_resolves_user_id menu_state [("target", VNode 2)] 2
              (mkNode (Some "select") "selectMenu" None [] None false false
                      [CElem 5%nat; CElem 6%nat; CElem 7%nat] [] (Some 7%nat)) "2")
    as (_ & _ & H & _); [reflexivity .. |].
  destruct (H 2) as [Hreq _]; [reflexivity | reflexivity | exact Hreq].
Defined.

(* --------------------------------------------------------------------- *)
(** ** Button listeners                                                    *)

Lemma listeners_known_more (k : nat) (st : state) :
  listeners_known st -> listeners_known (more_functions k st).
Proof.
  intros H r n l Hn Hl. specialize (H r n l Hn Hl). cbn [next_fn more_functions]. lia.
Qed.

Lemma filter_keeps_known (ls : list listener) (fn : nat) :
  (forall l, In l ls -> (l_fn l < fn)%nat) ->
  List.filter (fun l' => negb (Nat.eqb (l_fn l') fn)) ls = ls.
Proof.
  induction ls as [|l ls IH]; intros H; simpl; [reflexivity|].
  destruct (Nat.eqb_spec (l_fn l) fn) as [E|_].
  - specialize (H l (or_introl eq_refl)). lia.
  - simpl. rewrite IH; [reflexivity|]. intros l' Hl'. apply H. right. exact Hl'.
Qed.

(** One turn of the [forEach] of [removeButtonListeners]: the function it
    passes to [removeEventListener] is new, so no listener is removed. *)
Lemma remove_turn_keeps (st : state) (button : nat) :
  listeners_known st ->
  exists k,
    snd ((postId <- dataset_postId button ;;
          if truthy postId
          then fn <- fresh_fn ;; removeEventListener button fn
          else ret tt) st) = more_functions k st.
Proof.
  intros Hknown. unfold dataset_postId, bind at 1, bind at 1, get_node at 1.
  destruct (nodes st !! button) as [n|] eqn:Hn;
    [| exists 0%nat; destruct st; reflexivity].
  unfold ret at 1.
  destruct (truthy _); [| exists 0%nat; destruct st; reflexivity].
  exists 1%nat.
  unfold bind, fresh_fn, removeEventListener, modify_node, bind, get_node, put_node.
  cbn [nodes]. rewrite Hn.
  rewrite filter_keeps_known by (intros l Hl; apply (Hknown button n l Hn Hl)).
  cbn [snd set_nodes nodes root next_fn requests console net].
  replace (with_click n (n_click n)) with n by (destruct n; reflexivity).
  rewrite (list_insert_id _ _ _ Hn). reflexivity.
Qed.

Lemma more_functions_add (j k : nat) (st : state) :
  more_functions j (more_functions k st) = more_functions (j + k) st.
Proof. unfold more_functions. cbn. f_equal. lia. Qed.

Lemma remove_turns_keep (buttons : list nat) :
  forall st, listeners_known st ->
  exists k,
    snd (for_each buttons (fun button =>
           postId <- dataset_postId button ;;
           if truthy postId
           then fn <- fresh_fn ;; removeEventListener button fn
           else ret tt) st) = more_functions k st.
Proof.
  induction buttons as [|b buttons IH]; intros st Hknown.
  - exists 0%nat. destruct st; reflexivity.
  - cbn [for_each]. destruct (remove_turn_keeps st b Hknown) as [k Hk].
    unfold bind at 1.
    destruct ((postId <- dataset_postId b ;; _) st) as [[[]|e|] st1] eqn:E;
      cbn [snd] in Hk; subst st1; eauto.
    destruct (IH (more_functions k st) (listeners_known_more k st Hknown)) as [j Hj].
    exists (j + k)%nat. rewrite Hj. apply more_functions_add.
Qed.

(** [removeButtonListeners] changes no node, whatever the document: every
    listener that was registered is still registered afterwards. *)
Lemma removeButtonListeners_keeps_nodes (st : state) :
  listeners_known st -> nodes (snd (removeButtonListeners st)) = nodes st.
Proof.
  intros Hknown. unfold removeButtonListeners, bind at 1, querySelector at 1.
  destruct (List.find _ _) as [m|]; [|reflexivity].
  unfold bind at 1, querySelectorAll. unfold bind at 1.
  destruct (remove_turns_keep
              (List.filter (node_sat (nodes st) (has_tag "button")) (descendants (nodes st) m))
              st Hknown) as [k Hk].
  destruct (for_each _ _ st) as [[[]|e|] st1]; cbn [snd] in *; subst st1; reflexivity.
Qed.

(** C1. The code at the failing input.  After a first [refreshPosts] on the
    sample document the post's button (node 12) holds one click listener.
    [removeButtonListeners], the first step of the second refresh, visits
    that button and leaves the listener in place; the second refresh ends
    with the old button detached but still bound, and with a new button
    (node 26) bound once.  Called on its own between two
    [addButtonListeners], it leaves the button with two listeners, so that
    one click toggles twice and the section stays hidden. *)
Theorem removeButtonListeners_removes_nothing :
  let posts := VArr [sample_post] in
  let once := snd (refreshPosts posts sample_state) in
  let twice := snd (refreshPosts posts once) in
  let bound := snd ((addButtonListeners ;;; removeButtonListeners ;;; addButtonListeners)
                      post_state) in
  clicks_of once 12 = Some [mkListener 0 (VStr "1")] /\
  removeButtonListeners once =
    (Ret (VArr [VNode 12]), more_functions 1 once) /\
  fst (refreshPosts posts once) =
    Ret (VArr [VArr [VNode 12]; VNode 3; VNode 19; VArr [VNode 26]]) /\
  clicks_of twice 12 = Some [mkListener 0 (VStr "1")] /\
  clicks_of twice 26 = Some [mkListener 2 (VStr "1")] /\
  clicks_of bound 3 = Some [mkListener 0 (VStr "1"); mkListener 2 (VStr "1")] /\
  hidden bound 4 = true /\
  hidden (snd (click 3 bound)) 4 = true.
Proof. repeat split; vm_compute; reflexivity. Qed.

(* --------------------------------------------------------------------- *)
(** ** Failures that reach the caller                                      *)

(** A new element with its text. *)
Lemma createElemWithText_spec (st : state) (tag name : string) (text : value) (t : string) :
  element_name tag = Some name ->
  to_text (param_default (VStr "") text) = Some t ->
  createElemWithText (VStr tag) text VUndefined st =
    (Ret (VNode (length (nodes st))),
     set_nodes st (nodes st ++
       [with_children (blank (Some name)) (if String.eqb t "" then [] else [CText t])])).
Proof.
  intros Hname Ht. unfold createElemWithText. cbn [param_default is_undefined to_string].
  cbv zeta. unfold of_option at 1, bind at 1, ret at 1.
  unfold bind at 1, createElement. rewrite Hname. unfold alloc.
  unfold bind at 1. rewrite Ht. unfold of_option at 1, ret at 1.
  unfold bind at 1, set_textContent. rewrite modify_last.
  reflexivity.
Qed.

(** Whenever the request for the comments fails, [displayComments] throws:
    [createComments] answers the null of [getPostComments] with undefined,
    which is not a node to append. *)
Lemma displayComments_throws (st : state) (postId : value) (s : string) :
  postId <> VUndefined -> to_string postId = Some s ->
  fails (net st (length (requests st)) (api +:+ "/comments?postId=" +:+ s)) = true ->
  fst (displayComments postId st) = Throw TypeError.
Proof.
  intros Hdef Hs Hfail. unfold displayComments.
  rewrite (is_undefined_false _ Hdef).
  unfold bind at 1.
  change (createElement "section" st)
    with (Ret (length (nodes st)), set_nodes st (nodes st ++ [blank (Some "section")])).
  unfold bind at 1, set_dataset_postId, bind at 1. rewrite Hs.
  unfold of_option at 1, ret at 1. rewrite modify_last.
  unfold bind at 1, classList_add. rewrite modify_last.
  unfold bind at 1, getPostComments. rewrite (is_undefined_false _ Hdef).
  unfold try_catch, bind at 1. rewrite Hs. unfold of_option at 1, ret at 1.
  rewrite request_json_fails by exact Hfail.
  reflexivity.
Qed.

Lemma lt_one_nonempty (x : value) (l : list value) :
  lt_one (data_prop (VArr (x :: l)) "length") = Some false.
Proof.
  change (Some (Z.of_nat (length (x :: l)) <? 1) = Some false).
  f_equal. apply Z.ltb_ge. cbn [length]. lia.
Qed.

(** Whenever the request for the author of the first post fails,
    [createPosts] throws at [author.name]. *)
Lemma createPosts_throws (st : state) (fs : list (string * value)) (rest : list value)
      (title body id user : string) :
  to_text (param_default (VStr "") (lookup_field "title" fs)) = Some title ->
  to_text (param_default (VStr "") (lookup_field "body" fs)) = Some body ->
  to_string (lookup_field "id" fs) = Some id ->
  lookup_field "userId" fs <> VUndefined ->
  to_string (lookup_field "userId" fs) = Some user ->
  fails (net st (length (requests st)) (api +:+ "/users/" +:+ user)) = true ->
  fst (createPosts (VArr (VObj fs :: rest)) st) = Throw TypeError.
Proof.
  intros Htitle Hbody Hid Hdef Huser Hfail.
  unfold createPosts. cbn [truthy negb].
  erewrite bind_run by reflexivity.
  erewrite bind_run by (rewrite lt_one_nonempty; reflexivity).
  cbv beta iota.
  erewrite bind_run by reflexivity.
  erewrite bind_run by reflexivity.
  erewrite bind_throw; [reflexivity|].
  cbn [for_each]. erewrite bind_throw; [reflexivity|].
  unfold createPosts_step.
  erewrite bind_run by reflexivity.
  erewrite bind_run by reflexivity.
  erewrite bind_run by (eapply createElemWithText_spec; [reflexivity | exact Htitle]).
  erewrite bind_run by reflexivity.
  erewrite bind_run by (eapply createElemWithText_spec; [reflexivity | exact Hbody]).
  erewrite bind_run by reflexivity.
  erewrite bind_run by (cbn [data_prop]; rewrite Hid; reflexivity).
  erewrite bind_run by (eapply createElemWithText_spec; reflexivity).
  erewrite bind_run by reflexivity.
  erewrite bind_run.
  2:{ unfold getUser. cbn [data_prop]. rewrite (is_undefined_false _ Hdef).
      unfold try_catch, bind at 1. cbn [data_prop]. rewrite Huser. unfold of_option at 1, ret at 1.
      rewrite request_json_fails by exact Hfail. reflexivity. }
  reflexivity.
Qed.

(** C2. The code at the failing inputs.  When the comments request fails,
    [getPostComments] returns null, [createComments] returns undefined for
    it and [displayComments] throws a TypeError at [appendChild].  When the
    request for the author fails, [getUser] returns null and [createPosts]
    throws a TypeError at [author.name]; the exception passes through
    [refreshPosts] and the change handler, which leaves the selector
    disabled. *)
Theorem failures_reach_the_caller :
  let posts := VArr [sample_post] in
  let change := selectMenuChangeEventHandler (VObj [("target", VNode 2)]) no_author_state in
  fst (getPostComments (VNum (NInt 1)) down_state) = Ret VNull /\
  fst (displayComments (VNum (NInt 1)) down_state) = Throw TypeError /\
  fst (getUser (VNum (NInt 1)) no_author_state) = Ret VNull /\
  fst (createPosts posts no_author_state) = Throw TypeError /\
  fst (displayPosts posts no_author_state) = Throw TypeError /\
  fst (refreshPosts posts no_author_state) = Throw TypeError /\
  fst change = Throw TypeError /\
  n_disabled <$> nodes (snd change) !! 2%nat = Some true.
Proof. repeat split; vm_compute; reflexivity. Qed.

(* ===================================================================== *)
(** * Further properties                                                   *)
(* ===================================================================== *)

(* --------------------------------------------------------------------- *)
(** ** The API client, whatever the network answers                        *)

Lemma caught_request_settles (st : state) (url : string) :
  try_catch (request_json url) (fun error => console_error error ;;; ret VNull) st =
    (Ret (fst (outcome (net st (length (requests st)) url))),
     settled st url (net st (length (requests st)) url)).
Proof.
  unfold try_catch, request_json, bind, fetch, settled.
  destruct (net st (length (requests st)) url) as [|[|] [d|]]; cbn;
    rewrite ?app_nil_r; reflexivity.
Qed.

(** X1. Whatever the network answers, each fetch function completes
    without throwing after exactly one request.  It returns the parsed
    payload of an ok response and logs nothing; it returns null and logs one
    error when the request rejects, when the response is not ok and when the
    body of an ok response is not JSON. *)
Theorem fetch_settles (st : state) :
  let settle m url :=
    m st = (Ret (fst (outcome (net st (length (requests st)) url))),
            settled st url (net st (length (requests st)) url)) in
  settle getUsers (api +:+ "/users") /\
  forall id s, id <> VUndefined -> to_string id = Some s ->
    settle (getUserPosts id) (api +:+ "/posts?userId=" +:+ s) /\
    settle (getUser id) (api +:+ "/users/" +:+ s) /\
    settle (getPostComments id) (api +:+ "/comments?postId=" +:+ s).
Proof.
  cbv zeta. split; [apply caught_request_settles|].
  intros id s Hid Hs. unfold getUserPosts, getUser, getPostComments.
  rewrite (is_undefined_false _ Hid).
  repeat split;
    rewrite <- caught_request_settles; unfold try_catch, bind at 1 3;
    rewrite Hs; reflexivity.
Qed.

Lemma fetch_settles_witness :
  getUser (VNum (NInt 1)) sample_state =
    (Ret sample_user,
     settled sample_state (api +:+ "/users/1") (Response true (Some sample_user))) /\
  getPostComments (VNum (NInt 9)) (mkState [] 0 0 [] [] (fun _ _ => Response true None)) =
    (Ret VNull,
     mkState [] 0 0 [api +:+ "/comments?postId=9"] [JsonError] (fun _ _ => Response true None)).
Proof.
  split.
  - destruct (fetch_settles sample_state) as [_ H].
    destruct (H (VNum (NInt 1)) "1") as (_ & Hu & _);
      [discriminate | reflexivity | exact Hu].
  - destruct (fetch_settles (mkState [] 0 0 [] [] (fun _ _ => Response true None)))
      as [_ H].
    destruct (H (VNum (NInt 9)) "9") as (_ & _ & Hc);
      [discriminate | reflexivity | exact Hc].
Defined.

(* --------------------------------------------------------------------- *)
(** ** What never touches the network                                      *)

Lemma offline_same {A} (m : M A) :
  (forall st, exists ns fn, snd (m st) =
     mkState ns (root st) fn (requests st) (console st) (net st)) ->
  offline m.
Proof. intros H st. destruct (H st) as (ns & fn & ->). repeat split. Qed.

Lemma offline_ret {A} (a : A) : offline (ret a).
Proof. intros st. repeat split. Qed.

Lemma offline_throw {A} (e : exn) : offline (@throw A e).
Proof. intros st. repeat split. Qed.

Lemma offline_unmodelled {A} : offline (@unmodelled A).
Proof. intros st. repeat split. Qed.

Lemma offline_bind {A B} (m : M A) (k : A -> M B) :
  offline m -> (forall a, offline (k a)) -> offline (bind m k).
Proof.
  intros Hm Hk st. unfold bind. destruct (Hm st) as (H1 & H2 & H3 & H4).
  destruct (m st) as [[a|e|] st1]; cbn [snd] in *; auto.
  destruct (Hk a st1) as (K1 & K2 & K3 & K4).
  repeat split; congruence.
Qed.

Lemma offline_try_catch {A} (m : M A) (h : exn -> M A) :
  offline m -> (forall e, offline (h e)) -> offline (try_catch m h).
Proof.
  intros Hm Hh st. unfold try_catch. destruct (Hm st) as (H1 & H2 & H3 & H4).
  destruct (m st) as [[a|e|] st1]; cbn [snd] in *; auto.
  destruct (Hh e st1) as (K1 & K2 & K3 & K4).
  repeat split; congruence.
Qed.

Lemma offline_of_option {A} (o : option A) : offline (of_option o).
Proof. destruct o; [apply offline_ret | apply offline_unmodelled]. Qed.

Lemma offline_for_each {A} (items : list A) (body : A -> M unit) :
  (forall x, offline (body x)) -> offline (for_each items body).
Proof.
  intros H. induction items as [|x items IH]; cbn [for_each].
  - apply offline_ret.
  - apply offline_bind; [apply H | intros _; exact IH].
Qed.

Lemma offline_get_node (r : nat) : offline (get_node r).
Proof. intros st. unfold get_node. destruct (nodes st !! r); repeat split. Qed.

Lemma offline_put_node (r : nat) (n : node) : offline (put_node r n).
Proof. intros st. repeat split. Qed.

Lemma offline_alloc (n : node) : offline (alloc n).
Proof. intros st. repeat split. Qed.

Lemma offline_querySelector (p : node -> bool) : offline (querySelector p).
Proof. intros st. repeat split. Qed.

Lemma offline_querySelectorAll (r : nat) (p : node -> bool) :
  offline (querySelectorAll r p).
Proof. intros st. repeat split. Qed.

Lemma offline_get_textContent (r : nat) : offline (get_textContent r).
Proof. intros st. repeat split. Qed.

Lemma offline_fresh_fn : offline fresh_fn.
Proof. intros st. repeat split. Qed.

Create HintDb offline discriminated.
#[local] Hint Resolve offline_ret offline_throw offline_unmodelled
  offline_of_option offline_get_node offline_put_node offline_alloc
  offline_querySelector offline_querySelectorAll offline_get_textContent
  offline_fresh_fn : offline.

Ltac offline :=
  repeat first
    [ progress auto with offline
    | apply offline_bind; [| intros ?]
    | apply offline_try_catch; [| intros ?]
    | apply offline_for_each; intros ?
    | match goal with
      | |- offline (if ?b then _ else _) => destruct b
      | |- offline (match ?x with _ => _ end) => destruct x
      end ].

Lemma offline_modify_node (r : nat) (f : node -> node) : offline (modify_node r f).
Proof. unfold modify_node. offline. Qed.
#[local] Hint Resolve offline_modify_node : offline.

Lemma offline_createElement (name : string) : offline (createElement name).
Proof. unfold createElement. offline. Qed.

Lemma offline_appendChild (parent : nat) (c : value) : offline (appendChild parent c).
Proof. unfold appendChild. offline. Qed.

Lemma offline_get_value (n : node) : offline (get_value n).
Proof.
  intros st. unfold get_value. destruct (value_prop (nodes st) n); repeat split.
Qed.
#[local] Hint Resolve offline_get_value : offline.

Lemma offline_get_prop (v : value) (k : string) : offline (get_prop v k).
Proof. unfold get_prop. offline. Qed.

Lemma offline_set_flag (v : value) (k : string) (b : bool) : offline (set_flag v k b).
Proof. unfold set_flag, set_disabled. offline. Qed.
#[local] Hint Resolve offline_createElement offline_appendChild offline_get_prop
  offline_set_flag : offline.

Lemma offline_createElemWithText (elem text className : value) :
  offline (createElemWithText elem text className).
Proof.
  unfold createElemWithText, set_textContent, set_className. cbv zeta. offline.
Qed.

Lemma offline_createSelectOptions (users : value) : offline (createSelectOptions users).
Proof.
  assert (Hloop : forall us options, offline (createSelectOptions_loop us options)).
  { induction us as [|u us IH]; intros options; cbn [createSelectOptions_loop];
      [offline|].
    unfold createSelectOptions_step, set_textContent. offline. }
  unfold createSelectOptions, iterate. offline.
Qed.

Lemma offline_toggleCommentSection (postId : value) :
  offline (toggleCommentSection postId).
Proof. unfold toggleCommentSection, post_id_selector, classList_toggle. offline. Qed.

Lemma offline_toggleCommentButton (postId : value) :
  offline (toggleCommentButton postId).
Proof. unfold toggleCommentButton, post_id_selector, set_textContent. offline. Qed.

Lemma offline_deleteChildElements (v : value) : offline (deleteChildElements v).
Proof.
  assert (Hloop : forall fuel parent, offline (deleteChildElements_loop fuel parent)).
  { induction fuel as [|fuel IH]; intros parent; cbn [deleteChildElements_loop];
      [offline|].
    unfold removeChild. offline. }
  unfold deleteChildElements, get_prop_opt. offline.
Qed.

Lemma offline_addButtonListeners : offline addButtonListeners.
Proof. unfold addButtonListeners, dataset_postId, addEventListener. offline. Qed.

Lemma offline_removeButtonListeners : offline removeButtonListeners.
Proof. unfold removeButtonListeners, dataset_postId, removeEventListener. offline. Qed.

Lemma offline_createComments (comments : value) : offline (createComments comments).
Proof.
  unfold createComments, createComments_step, createDocumentFragment, iterate.
  offline; apply offline_createElemWithText.
Qed.
#[local] Hint Resolve offline_createElemWithText offline_createSelectOptions
  offline_toggleCommentSection offline_toggleCommentButton : offline.

Lemma offline_populateSelectMenu (users : value) : offline (populateSelectMenu users).
Proof.
  unfold populateSelectMenu, getElementById, iterate, call_appendChild. offline.
Qed.

Lemma offline_toggleComments (event postId : value) :
  offline (toggleComments event postId).
Proof. unfold toggleComments. offline. Qed.

(** X2. The functions that build or change the document without fetching
    work offline: whatever their arguments and whatever the document, they
    issue no request, write nothing to the console's error channel and leave
    the network and the document's root untouched, also when they throw. *)
Theorem document_functions_work_offline :
  (forall elem text className, offline (createElemWithText elem text className)) /\
  (forall users, offline (createSelectOptions users)) /\
  (forall postId, offline (toggleCommentSection postId)) /\
  (forall postId, offline (toggleCommentButton postId)) /\
  (forall parentElement, offline (deleteChildElements parentElement)) /\
  offline addButtonListeners /\
  offline removeButtonListeners /\
  (forall comments, offline (createComments comments)) /\
  (forall users, offline (populateSelectMenu users)) /\
  (forall event postId, offline (toggleComments event postId)) /\
  (forall button, offline (click button)).
Proof.
  split; [exact offline_createElemWithText|].
  split; [exact offline_createSelectOptions|].
  split; [exact offline_toggleCommentSection|].
  split; [exact offline_toggleCommentButton|].
  split; [exact offline_deleteChildElements|].
  split; [exact offline_addButtonListeners|].
  split; [exact offline_removeButtonListeners|].
  split; [exact offline_createComments|].
  split; [exact offline_populateSelectMenu|].
  split; [exact offline_toggleComments|].
  intros button. unfold click. offline; apply offline_toggleComments.
Qed.

(* --------------------------------------------------------------------- *)
(** ** The store while fresh nodes are built                               *)

(** The store is [ns] followed by the nodes [ext] allocated since. *)
Lemma alloc_at (st : state) (ns ext : list node) (n : node) :
  nodes st = ns ++ ext ->
  alloc n st = (Ret (length ns + length ext)%nat, set_nodes st (ns ++ (ext ++ [n]))).
Proof.
  intros H. unfold alloc. rewrite H, length_app, <- app_assoc. reflexivity.
Qed.

Lemma get_node_at (st : state) (ns ext : list node) (r i : nat) (n : node) :
  nodes st = ns ++ ext -> r = (length ns + i)%nat -> ext !! i = Some n ->
  get_node r st = (Ret n, st).
Proof.
  intros H -> Hi. unfold get_node. rewrite H, lookup_app_r by lia.
  replace (length ns + i - length ns)%nat with i by lia. rewrite Hi. reflexivity.
Qed.

Lemma modify_node_at (st : state) (ns ext : list node) (r i : nat) (n : node)
      (f : node -> node) :
  nodes st = ns ++ ext -> r = (length ns + i)%nat -> ext !! i = Some n ->
  modify_node r f st = (Ret tt, set_nodes st (ns ++ <[i := f n]> ext)).
Proof.
  intros H Hr Hi. unfold modify_node.
  rewrite (bind_run _ _ _ _ _ (get_node_at st ns ext r i n H Hr Hi)).
  unfold put_node. rewrite H, Hr, insert_app_r. reflexivity.
Qed.

Lemma modify_node_old (st : state) (r : nat) (n : node) (f : node -> node) :
  nodes st !! r = Some n ->
  modify_node r f st = (Ret tt, set_nodes st (<[r := f n]> (nodes st))).
Proof.
  intros H. unfold modify_node, bind, get_node, put_node. rewrite H. reflexivity.
Qed.

Lemma createElemWithText_at (st : state) (ns ext : list node)
      (tag name : string) (text : value) (t : string) :
  nodes st = ns ++ ext ->
  element_name tag = Some name ->
  to_text (param_default (VStr "") text) = Some t ->
  createElemWithText (VStr tag) text VUndefined st =
    (Ret (VNode (length ns + length ext)),
     set_nodes st (ns ++ (ext ++ [text_element name t]))).
Proof.
  intros H Hname Ht.
  rewrite (createElemWithText_spec st tag name text t Hname Ht).
  rewrite H, length_app, <- app_assoc. reflexivity.
Qed.

(** [parent.appendChild(child)] for two elements allocated since. *)
Lemma appendChild_at (st : state) (ns ext : list node) (p c i j : nat) (np nc : node) :
  nodes st = ns ++ ext ->
  p = (length ns + i)%nat -> c = (length ns + j)%nat ->
  ext !! i = Some np -> ext !! j = Some nc -> n_tag nc <> None ->
  appendChild p (VNode c) st =
    (Ret tt,
     set_nodes st (ns ++ <[i := with_children np (n_children np ++ [CElem c])]> ext)).
Proof.
  intros H Hp Hc Hi Hj Htag. unfold appendChild.
  rewrite (bind_run _ _ _ _ _ (get_node_at st ns ext c j nc H Hc Hj)).
  destruct (n_tag nc); [|congruence].
  exact (modify_node_at st ns ext p i np
           (fun q => with_children q (n_children q ++ [CElem c])) H Hp Hi).
Qed.

(** [parent.appendChild(fragment)]: the children move to the parent. *)
Lemma appendChild_fragment_at (st : state) (ns ext : list node) (p c i j : nat)
      (np nc : node) :
  nodes st = ns ++ ext ->
  p = (length ns + i)%nat -> c = (length ns + j)%nat ->
  ext !! i = Some np -> ext !! j = Some nc -> n_tag nc = None -> i <> j ->
  appendChild p (VNode c) st =
    (Ret tt,
     set_nodes st
       (ns ++ <[j := with_children nc []]>
                (<[i := with_children np (n_children np ++ n_children nc)]> ext))).
Proof.
  intros H Hp Hc Hi Hj Htag Hij. unfold appendChild.
  rewrite (bind_run _ _ _ _ _ (get_node_at st ns ext c j nc H Hc Hj)).
  rewrite Htag.
  erewrite bind_run
    by (exact (modify_node_at st ns ext p i np
                 (fun q => with_children q (n_children q ++ n_children nc)) H Hp Hi)).
  erewrite (modify_node_at _ ns _ c j nc (fun n0 => with_children n0 []));
    [reflexivity | reflexivity | exact Hc |].
  rewrite list_lookup_insert_ne by congruence. exact Hj.
Qed.

Lemma set_dataset_postId_at (st : state) (ns ext : list node) (r i : nat) (n : node)
      (v : value) (s : string) :
  nodes st = ns ++ ext -> r = (length ns + i)%nat -> ext !! i = Some n ->
  to_string v = Some s ->
  set_dataset_postId r v st =
    (Ret tt, set_nodes st (ns ++ <[i := with_postId n s]> ext)).
Proof.
  intros H Hr Hi Hs. unfold set_dataset_postId.
  erewrite bind_run by (rewrite Hs; reflexivity).
  exact (modify_node_at st ns ext r i n (fun n0 => with_postId n0 s) H Hr Hi).
Qed.

(* --------------------------------------------------------------------- *)
(** ** createComments                                                      *)

(** One turn of the loop: four new nodes, and the article appended to the
    fragment. *)
Lemma createComments_step_spec (st : state) (f : nat) (F : node) (c : value)
      (d : string * string * string) :
  nodes st !! f = Some F -> is_comment c d ->
  createComments_step f c st =
    (Ret tt,
     set_nodes st
       (<[f := with_children F (n_children F ++ [CElem (length (nodes st))])]> (nodes st)
        ++ comment_nodes (length (nodes st)) d)).
Proof.
  intros HF (fs & -> & Hname & Hbody & Hemail).
  pose proof (lookup_lt_Some _ _ _ HF) as Hlt.
  unfold createComments_step.
  erewrite bind_run
    by (exact (alloc_at st (nodes st) [] _ (eq_sym (app_nil_r _)))).
  erewrite bind_run by reflexivity.
  erewrite bind_run
    by (eapply (createElemWithText_at _ (nodes st));
        [reflexivity | reflexivity | exact Hname]).
  erewrite bind_run by reflexivity.
  erewrite bind_run
    by (eapply (createElemWithText_at _ (nodes st));
        [reflexivity | reflexivity | exact Hbody]).
  erewrite bind_run by reflexivity.
  erewrite bind_run by (cbn [data_prop]; rewrite Hemail; reflexivity).
  erewrite bind_run
    by (eapply (createElemWithText_at _ (nodes st)); reflexivity).
  cbn [length app Nat.add].
  erewrite bind_run
    by (eapply (appendChild_at _ (nodes st) _ _ _ 0 1);
        [reflexivity | reflexivity | lia | reflexivity | reflexivity | discriminate]).
  erewrite bind_run
    by (eapply (appendChild_at _ (nodes st) _ _ _ 0 2);
        [reflexivity | reflexivity | lia | reflexivity | reflexivity | discriminate]).
  erewrite bind_run
    by (eapply (appendChild_at _ (nodes st) _ _ _ 0 3);
        [reflexivity | reflexivity | lia | reflexivity | reflexivity | discriminate]).
  unfold appendChild.
  erewrite bind_run
    by (eapply (get_node_at _ (nodes st) _ _ 0); reflexivity).
  cbn [n_tag with_children blank list_insert insert].
  erewrite modify_node_old
    by (cbn [nodes set_nodes]; rewrite lookup_app_l by exact Hlt; exact HF).
  cbn [nodes set_nodes]. rewrite insert_app_l by exact Hlt.
  rewrite !Nat.add_0_r. reflexivity.
Qed.

Lemma with_children_twice (n : node) (a b : list child) :
  with_children (with_children n a) b = with_children n b.
Proof. reflexivity. Qed.

Lemma comment_nodes_length (a : nat) (d : string * string * string) :
  length (comment_nodes a d) = 4%nat.
Proof. reflexivity. Qed.

Lemma createComments_loop_spec (cs : list value) (ds : list (string * string * string)) :
  Forall2 is_comment cs ds ->
  forall (st : state) (f : nat) (F : node),
    nodes st !! f = Some F ->
    for_each cs (createComments_step f) st =
      (Ret tt,
       set_nodes st
         (<[f := with_children F
                   (n_children F ++
                    map CElem (article_refs (length (nodes st)) (length cs)))]> (nodes st)
          ++ comments_nodes (length (nodes st)) ds)).
Proof.
  induction 1 as [|c d cs ds Hc _ IH]; intros st f F HF.
  - cbn [for_each length article_refs map comments_nodes].
    rewrite !app_nil_r, with_children_same, (list_insert_id _ _ _ HF), set_nodes_same.
    reflexivity.
  - pose proof (lookup_lt_Some _ _ _ HF) as Hlt.
    cbn [for_each].
    erewrite bind_run by (apply (createComments_step_spec st f F c d HF Hc)).
    erewrite IH.
    2:{ cbn [nodes set_nodes]. rewrite lookup_app_l by (rewrite length_insert; exact Hlt).
        apply list_lookup_insert_eq, Hlt. }
    cbn [nodes set_nodes length article_refs map comments_nodes n_children with_children].
    rewrite length_app, length_insert, comment_nodes_length.
    rewrite insert_app_l by (rewrite length_insert; exact Hlt).
    rewrite list_insert_insert_eq, <- !app_assoc.
    reflexivity.
Qed.

Lemma createComments_array (st : state) (cs : list value)
      (ds : list (string * string * string)) :
  Forall2 is_comment cs ds ->
  createComments (VArr cs) st =
    (Ret (VNode (length (nodes st))),
     set_nodes st
       (nodes st ++
        with_children (blank None)
          (map CElem (article_refs (S (length (nodes st))) (length cs)))
        :: comments_nodes (S (length (nodes st))) ds)).
Proof.
  intros H. unfold createComments. cbn [truthy negb].
  erewrite bind_run by reflexivity.
  erewrite bind_run by reflexivity.
  erewrite bind_run.
  2:{ eapply (createComments_loop_spec cs ds H _ (length (nodes st)) (blank None)).
      cbn [nodes set_nodes]. apply list_lookup_middle. reflexivity. }
  cbn [nodes set_nodes n_children blank app].
  rewrite length_app, Nat.add_1_r.
  replace (<[length (nodes st) := _]> (nodes st ++ [blank None]))
    with (nodes st ++ [with_children (blank None)
            (map CElem (article_refs (S (length (nodes st))) (length cs)))]).
  2:{ rewrite insert_app_r_alt by lia. rewrite Nat.sub_diag. reflexivity. }
  rewrite <- app_assoc. reflexivity.
Qed.

(** X3. [createComments] returns undefined for every falsy argument and
    leaves the state as it is.  For an array of comment objects it returns a
    new fragment that holds one article per comment, in order; each article
    holds an [h3] with the comment's name, a [p] with its body and a [p]
    with "From: " and its email.  The nodes are new: those the store held
    before are unchanged.  For a truthy value that cannot be iterated (a
    number, a plain object) it throws a TypeError. *)
Theorem createComments_builds (st : state) :
  (forall comments, truthy comments = false ->
     createComments comments st = (Ret VUndefined, st)) /\
  (forall cs ds, Forall2 is_comment cs ds ->
     createComments (VArr cs) st =
       (Ret (VNode (length (nodes st))),
        set_nodes st
          (nodes st ++
           with_children (blank None)
             (map CElem (article_refs (S (length (nodes st))) (length cs)))
           :: comments_nodes (S (length (nodes st))) ds))) /\
  (forall fs, fst (createComments (VObj fs) st) = Throw TypeError) /\
  (forall z, z <> 0 -> fst (createComments (VNum (NInt z)) st) = Throw TypeError).
Proof.
  split; [|split; [|split]].
  - intros comments H. unfold createComments. rewrite H. reflexivity.
  - apply createComments_array.
  - reflexivity.
  - intros z Hz. unfold createComments. cbn [truthy].
    destruct (Z.eqb_spec z 0); [contradiction | reflexivity].
Qed.

Lemma createComments_builds_witness :
  createComments VNull sample_state = (Ret VUndefined, sample_state) /\
  createComments (VArr [sample_comment]) sample_state =
    (Ret (VNode 5),
     set_nodes sample_state
       (sample_nodes ++
        with_children (blank None) [CElem 6%nat]
        :: comment_nodes 6 ("id labore", "laudantium enim", "Eliseo@gardner.biz"))) /\
  fst (createComments (VNum (NInt 3)) sample_state) = Throw TypeError.
Proof.
  destruct (createComments_builds sample_state) as (Habsent & Harray & _ & Hnum).
  split; [apply Habsent; reflexivity|].
  split; [|apply Hnum; discriminate].
  apply (Harray [sample_comment] [("id labore", "laudantium enim", "Eliseo@gardner.biz")]).
  constructor; [|constructor].
  eexists. repeat split.
Defined.

(* --------------------------------------------------------------------- *)
(** ** createElemWithText                                                  *)

Lemma text_element_label (ns : list node) (r f : nat) (name t : string)
      (cl : list string) :
  ns !! r = Some (with_class (text_element name t) cl) ->
  text_content (S f) ns r = t.
Proof.
  intros H. cbn [text_content]. rewrite H. unfold text_element.
  cbn [n_children with_children with_class].
  destruct (String.eqb_spec t "") as [->|_]; reflexivity.
Qed.

(** The call in full: the element, its text and its class list. *)
Lemma createElemWithText_class (st : state) (elem text className : value)
      (tag name t : string) (cl : list string) :
  to_string (param_default (VStr "p") elem) = Some tag ->
  element_name tag = Some name ->
  to_text (param_default (VStr "") text) = Some t ->
  class_tokens className = Some cl ->
  createElemWithText elem text className st =
    (Ret (VNode (length (nodes st))),
     set_nodes st (nodes st ++ [with_class (text_element name t) cl])).
Proof.
  intros Htag Hname Ht Hcl.
  unfold createElemWithText. cbv zeta.
  erewrite bind_run by (rewrite Htag; reflexivity).
  erewrite bind_run by (unfold createElement; rewrite Hname; reflexivity).
  erewrite bind_run by (rewrite Ht; reflexivity).
  unfold set_textContent. erewrite bind_run by apply modify_last.
  unfold class_tokens in Hcl. destruct (truthy className).
  - destruct (to_string className) as [c|]; [|discriminate].
    injection Hcl as <-.
    erewrite bind_run
      by (erewrite bind_run by reflexivity; unfold set_className; apply modify_last).
    reflexivity.
  - injection Hcl as <-. reflexivity.
Qed.

(** X4. [createElemWithText] allocates one new element and returns it:
    its name is the lower-cased [elem] ("p" when [elem] is undefined), its
    text content is the text form of [text] (empty when [text] is undefined
    or null), and its class list holds the tokens of [className] when that
    is truthy and is empty otherwise.  Every node the store held before is
    unchanged and the element is attached to nothing. *)
Theorem createElemWithText_builds (st : state) (elem text className : value)
        (tag name t : string) (cl : list string) :
  to_string (param_default (VStr "p") elem) = Some tag ->
  element_name tag = Some name ->
  to_text (param_default (VStr "") text) = Some t ->
  class_tokens className = Some cl ->
  let st' := set_nodes st (nodes st ++ [with_class (text_element name t) cl]) in
  createElemWithText elem text className st = (Ret (VNode (length (nodes st))), st') /\
  label st' (length (nodes st)) = t.
Proof.
  intros Htag Hname Ht Hcl st'. split.
  - exact (createElemWithText_class st elem text className tag name t cl Htag Hname Ht Hcl).
  - unfold label. subst st'. cbn [nodes set_nodes].
    rewrite length_app, Nat.add_1_r.
    apply (text_element_label _ _ _ name t cl).
    apply list_lookup_middle. reflexivity.
Qed.

Lemma createElemWithText_builds_witness :
  createElemWithText VUndefined VUndefined VUndefined bare_state =
    (Ret (VNode 2), set_nodes bare_state (nodes bare_state ++ [elem "p" []])) /\
  createElemWithText (VStr "H2") (VNum (NInt 7)) (VStr "a  b a") bare_state =
    (Ret (VNode 2),
     set_nodes bare_state
       (nodes bare_state ++
        [mkNode (Some "h2") "" None ["a"; "b"] None false false [CText "7"] [] None])).
Proof.
  split.
  - apply (createElemWithText_builds bare_state VUndefined VUndefined VUndefined
             "p" "p" "" []); reflexivity.
  - apply (createElemWithText_builds bare_state (VStr "H2") (VNum (NInt 7)) (VStr "a  b a")
             "H2" "h2" "7" ["a"; "b"]); reflexivity.
Defined.

(* --------------------------------------------------------------------- *)
(** ** displayComments                                                     *)

Lemma getPostComments_settles (st : state) (postId : value) (s : string) :
  postId <> VUndefined -> to_string postId = Some s ->
  getPostComments postId st =
    (Ret (fst (outcome (net st (length (requests st)) (api +:+ "/comments?postId=" +:+ s)))),
     settled st (api +:+ "/comments?postId=" +:+ s)
       (net st (length (requests st)) (api +:+ "/comments?postId=" +:+ s))).
Proof.
  intros Hdef Hs. unfold getPostComments. rewrite (is_undefined_false _ Hdef).
  rewrite <- caught_request_settles. unfold try_catch, bind at 1 3.
  rewrite Hs. reflexivity.
Qed.

Lemma getUser_settles (st : state) (userId : value) (s : string) :
  userId <> VUndefined -> to_string userId = Some s ->
  getUser userId st =
    (Ret (fst (outcome (net st (length (requests st)) (api +:+ "/users/" +:+ s)))),
     settled st (api +:+ "/users/" +:+ s)
       (net st (length (requests st)) (api +:+ "/users/" +:+ s))).
Proof.
  intros Hdef Hs. unfold getUser. rewrite (is_undefined_false _ Hdef).
  rewrite <- caught_request_settles. unfold try_catch, bind at 1 3.
  rewrite Hs. reflexivity.
Qed.

Lemma elem_children_map (l : list nat) : elem_children (map CElem l) = l.
Proof.
  induction l as [|x l IH]; [reflexivity|].
  cbn [map]. unfold elem_children in *. cbn [flat_map app]. f_equal. exact IH.
Qed.

Lemma article_refs_length (a n : nat) : length (article_refs a n) = n.
Proof. revert a. induction n as [|n IH]; intros a; cbn; [reflexivity | rewrite IH; reflexivity]. Qed.

Lemma displayComments_served (st : state) (postId : value) (s : string)
      (cs : list value) (ds : list (string * string * string)) :
  postId <> VUndefined -> to_string postId = Some s ->
  net st (length (requests st)) (api +:+ "/comments?postId=" +:+ s) =
    Response true (Some (VArr cs)) ->
  Forall2 is_comment cs ds ->
  displayComments postId st =
    (Ret (VNode (length (nodes st))),
     mkState
       (nodes st ++
        comment_section s (article_refs (length (nodes st) + 2) (length cs))
        :: blank None
        :: comments_nodes (length (nodes st) + 2) ds)
       (root st) (next_fn st)
       (requests st ++ [api +:+ "/comments?postId=" +:+ s]) (console st) (net st)).
Proof.
  intros Hdef Hs Hnet Hcs. unfold displayComments.
  rewrite (is_undefined_false _ Hdef).
  erewrite bind_run by reflexivity.
  unfold set_dataset_postId.
  erewrite bind_run
    by (erewrite bind_run by (rewrite Hs; reflexivity); apply modify_last).
  unfold classList_add. erewrite bind_run by apply modify_last.
  erewrite bind_run by (apply (getPostComments_settles _ postId s Hdef Hs)).
  cbn [nodes requests net set_nodes]. rewrite Hnet. cbn [outcome fst].
  erewrite bind_run by (apply (createComments_array _ cs ds Hcs)).
  unfold settled. cbn [nodes set_nodes root next_fn requests console net outcome snd].
  rewrite length_app, Nat.add_1_r, <- app_assoc. cbn [app].
  erewrite bind_run
    by (eapply (appendChild_fragment_at _ (nodes st) _ _ _ 0 1);
        [reflexivity | lia | lia | reflexivity | reflexivity | reflexivity | lia]).
  unfold ret. cbn. rewrite app_nil_r.
  replace (S (S (length (nodes st)))) with (length (nodes st) + 2)%nat by lia.
  reflexivity.
Qed.

(** X5. When the request for a post's comments is answered with an array
    of comment objects, [displayComments] returns a new section that carries
    the post id in [data-post-id], has the classes [comments] and [hide] (it
    is hidden) and holds one article per comment, in order.  It issues that
    one request, logs nothing and changes no node the store held before. *)
Theorem displayComments_builds (st : state) (postId : value) (s : string)
        (cs : list value) (ds : list (string * string * string)) :
  postId <> VUndefined -> to_string postId = Some s ->
  net st (length (requests st)) (api +:+ "/comments?postId=" +:+ s) =
    Response true (Some (VArr cs)) ->
  Forall2 is_comment cs ds ->
  let section := length (nodes st) in
  let st' :=
    mkState
      (nodes st ++
       comment_section s (article_refs (section + 2) (length cs))
       :: blank None
       :: comments_nodes (section + 2) ds)
      (root st) (next_fn st)
      (requests st ++ [api +:+ "/comments?postId=" +:+ s]) (console st) (net st) in
  displayComments postId st = (Ret (VNode section), st') /\
  hidden st' section = true /\
  length (kids (nodes st') section) = length cs.
Proof.
  intros Hdef Hs Hnet Hcs section st'.
  split; [apply displayComments_served; assumption|].
  assert (Hsec : nodes st' !! section =
                   Some (comment_section s (article_refs (section + 2) (length cs))))
    by (apply list_lookup_middle; reflexivity).
  split.
  - unfold hidden, node_sat. rewrite Hsec. reflexivity.
  - unfold kids. rewrite Hsec. unfold comment_section. cbn [n_children].
    rewrite elem_children_map. apply article_refs_length.
Qed.

Lemma displayComments_builds_witness :
  displayComments (VNum (NInt 1)) sample_state =
    (Ret (VNode 5),
     mkState
       (sample_nodes ++
        comment_section "1" [7%nat]
        :: blank None
        :: comment_nodes 7 ("id labore", "laudantium enim", "Eliseo@gardner.biz"))
       0 0 [api +:+ "/comments?postId=1"] [] sample_net).
Proof.
  apply (displayComments_builds sample_state (VNum (NInt 1)) "1" [sample_comment]
           [("id labore", "laudantium enim", "Eliseo@gardner.biz")]);
    [discriminate | reflexivity | reflexivity |].
  constructor; [|constructor]. eexists. repeat split.
Defined.

(* --------------------------------------------------------------------- *)
(** ** createPosts                                                         *)

Lemma comments_nodes_length (a : nat) (ds : list (string * string * string)) :
  length (comments_nodes a ds) = (4 * length ds)%nat.
Proof.
  revert a. induction ds as [|d ds IH]; intros a; [reflexivity|].
  cbn [comments_nodes]. rewrite length_app, IH. cbn [length comment_nodes]. lia.
Qed.

Lemma article_nodes_length (a : nat) (d : post_data) :
  length (article_nodes a d) = (9 + 4 * length (pd_comments d))%nat.
Proof. unfold article_nodes. rewrite length_app, comments_nodes_length. reflexivity. Qed.

Lemma set_nodes_settled (st : state) (url : string) (r : response) (ns : list node) :
  set_nodes (settled st url r) ns = settled (set_nodes st ns) url r.
Proof. reflexivity. Qed.

(** Brings a state built by one more update into the form
    [settled (set_nodes st ns) url r]. *)
Lemma n_children_with_children (n : node) (a : list child) :
  n_children (with_children n a) = a.
Proof. reflexivity. Qed.

Lemma n_children_blank (t : option string) : n_children (blank t) = [].
Proof. reflexivity. Qed.

Ltac flat_state :=
  rewrite ?set_nodes_settled, ?set_nodes_twice;
  cbn [length app Nat.add list_insert insert];
  rewrite ?n_children_with_children, ?n_children_blank, ?with_children_twice;
  cbn [app].

Lemma displayComments_at (st : state) (ns ext : list node) (postId : value) (s : string)
      (cs : list value) (ds : list (string * string * string)) :
  nodes st = ns ++ ext ->
  postId <> VUndefined -> to_string postId = Some s ->
  net st (length (requests st)) (api +:+ "/comments?postId=" +:+ s) =
    Response true (Some (VArr cs)) ->
  Forall2 is_comment cs ds ->
  displayComments postId st =
    (Ret (VNode (length ns + length ext)),
     mkState
       (ns ++ ext ++
        comment_section s (article_refs (length ns + length ext + 2) (length cs))
        :: blank None
        :: comments_nodes (length ns + length ext + 2) ds)
       (root st) (next_fn st)
       (requests st ++ [api +:+ "/comments?postId=" +:+ s]) (console st) (net st)).
Proof.
  intros H Hdef Hs Hnet Hcs.
  rewrite (displayComments_served st postId s cs ds Hdef Hs Hnet Hcs).
  rewrite H, length_app, <- app_assoc. reflexivity.
Qed.

Lemma appendChild_old (st : state) (ns ext : list node) (p c j : nat) (np nc : node) :
  nodes st = ns ++ ext ->
  ns !! p = Some np -> c = (length ns + j)%nat -> ext !! j = Some nc ->
  n_tag nc <> None ->
  appendChild p (VNode c) st =
    (Ret tt,
     set_nodes st (<[p := with_children np (n_children np ++ [CElem c])]> ns ++ ext)).
Proof.
  intros H Hp Hc Hj Htag. unfold appendChild.
  rewrite (bind_run _ _ _ _ _ (get_node_at st ns ext c j nc H Hc Hj)).
  destruct (n_tag nc); [|congruence].
  rewrite (modify_node_old st p np), H.
  - rewrite insert_app_l by (eapply lookup_lt_Some; exact Hp). reflexivity.
  - rewrite H. apply lookup_app_l_Some. exact Hp.
Qed.


(** Runs the first computation of a [bind] with the lemma that [tac]
    supplies. *)
Ltac run_with tac := erewrite bind_run by tac; flat_state.
Ltac run_refl := erewrite bind_run by reflexivity; flat_state.

Lemma getUser_served (st : state) (userId : value) (s : string) (author : value) :
  userId <> VUndefined -> to_string userId = Some s ->
  net st (length (requests st)) (api +:+ "/users/" +:+ s) = Response true (Some author) ->
  getUser userId st =
    (Ret author, settled st (api +:+ "/users/" +:+ s) (Response true (Some author))).
Proof.
  intros Hdef Hs Hnet. rewrite (getUser_settles st userId s Hdef Hs), Hnet. reflexivity.
Qed.

(** One turn of the loop of [createPosts] on a served post. *)
Lemma createPosts_step_spec (st : state) (f : nat) (F : node) (post author : value)
      (cs : list value) (d : post_data) :
  nodes st !! f = Some F ->
  is_post post d ->
  net st (length (requests st)) (api +:+ "/users/" +:+ pd_user d)
    = Response true (Some author) ->
  is_author author d ->
  net st (S (length (requests st))) (api +:+ "/comments?postId=" +:+ pd_id d)
    = Response true (Some (VArr cs)) ->
  Forall2 is_comment cs (pd_comments d) ->
  createPosts_step f post st =
    (Ret tt,
     mkState
       (<[f := with_children F (n_children F ++ [CElem (length (nodes st))])]> (nodes st)
        ++ article_nodes (length (nodes st)) d)
       (root st) (next_fn st) (requests st ++ post_urls d) (console st) (net st)).
Proof.
  intros HF (fs & -> & Htitle & Hbody & Hiddef & Hid & Hudef & Huser)
         Huserreq (afs & cfs & -> & Haname & Hcompany & Hcname & Hphrase)
         Hcomreq Hcs.
  pose proof (lookup_lt_Some _ _ _ HF) as Hlt.
  unfold createPosts_step.
  run_with ltac:(exact (alloc_at st (nodes st) [] _ (eq_sym (app_nil_r _)))).
  run_refl.
  run_with ltac:(eapply (createElemWithText_at _ (nodes st));
                 [reflexivity | reflexivity | exact Htitle]).
  run_refl.
  run_with ltac:(eapply (createElemWithText_at _ (nodes st));
                 [reflexivity | reflexivity | exact Hbody]).
  run_refl.
  run_with ltac:(cbn [data_prop]; rewrite Hid; reflexivity).
  run_with ltac:(eapply (createElemWithText_at _ (nodes st)); reflexivity).
  run_refl.
  run_with ltac:(cbn [data_prop];
                 apply (getUser_served _ _ (pd_user d) _ Hudef Huser); exact Huserreq).
  run_refl.
  run_with ltac:(cbn [data_prop]; rewrite Haname; reflexivity).
  run_refl.
  cbn [data_prop]. rewrite Hcompany.
  run_refl.
  run_with ltac:(cbn [data_prop]; rewrite Hcname; reflexivity).
  run_with ltac:(eapply (createElemWithText_at _ (nodes st)); reflexivity).
  run_refl.
  run_with ltac:(cbn [data_prop]; rewrite Hcompany; reflexivity).
  run_with ltac:(eapply (createElemWithText_at _ (nodes st));
                 [reflexivity | reflexivity | exact Hphrase]).
  run_with ltac:(eapply (createElemWithText_at _ (nodes st)); reflexivity).
  run_refl.
  run_refl.
  run_with ltac:(eapply (set_dataset_postId_at _ (nodes st) _ _ 6);
                 [reflexivity | lia | reflexivity | cbn [data_prop]; exact Hid]).
  do 6 (run_with ltac:(eapply (appendChild_at _ (nodes st) _ _ _ 0);
                       [reflexivity | reflexivity | reflexivity | reflexivity
                       | reflexivity | discriminate])).
  run_refl.
  run_with ltac:(eapply (displayComments_at _ (nodes st) _ _ (pd_id d) cs (pd_comments d));
                 [ reflexivity | exact Hiddef | exact Hid
                 | unfold settled, set_nodes; cbn [requests net];
                   rewrite length_app, Nat.add_1_r; exact Hcomreq
                 | exact Hcs ]).
  unfold settled at 1 2 3 4 5, set_nodes at 1 2 3 4 5.
  cbn [root next_fn requests console net outcome snd length Nat.add].
  run_with ltac:(eapply (appendChild_at _ (nodes st) _ _ _ 0 7);
                 [reflexivity | reflexivity | reflexivity | reflexivity
                 | reflexivity | discriminate]).
  erewrite (appendChild_old _ (nodes st) _ f _ 0 F);
    [ | reflexivity | exact HF | reflexivity | reflexivity | discriminate ].
  flat_state.
  unfold set_nodes, settled.
  cbn [nodes root next_fn requests console net outcome snd].
  rewrite (Forall2_length _ _ _ Hcs), Nat.add_0_r, <- !app_assoc, app_nil_r.
  replace (length (nodes st) + 7 + 2)%nat with (length (nodes st) + 9)%nat by lia.
  reflexivity.
Qed.

Lemma createPosts_loop_spec (posts : list value) :
  forall (ds : list post_data) (st : state) (f : nat) (F : node),
    nodes st !! f = Some F ->
    served (net st) (length (requests st)) posts ds ->
    for_each posts (createPosts_step f) st =
      (Ret tt,
       mkState
         (<[f := with_children F
                   (n_children F ++ map CElem (post_refs (length (nodes st)) ds))]>
            (nodes st)
          ++ posts_nodes (length (nodes st)) ds)
         (root st) (next_fn st) (requests st ++ flat_map post_urls ds)
         (console st) (net st)).
Proof.
  induction posts as [|post posts IH]; intros [|d ds] st f F HF Hserved;
    try contradiction.
  - cbn [for_each post_refs map posts_nodes flat_map].
    rewrite !app_nil_r, with_children_same, (list_insert_id _ _ _ HF).
    destruct st; reflexivity.
  - destruct Hserved as (Hpost & (author & Hareq & Hauthor) & (cs & Hcreq & Hcs) & Hrest).
    pose proof (lookup_lt_Some _ _ _ HF) as Hlt.
    cbn [for_each].
    erewrite bind_run
      by (apply (createPosts_step_spec st f F post author cs d HF Hpost Hareq Hauthor Hcreq Hcs)).
    erewrite IH with (ds := ds).
    2:{ cbn [nodes]. rewrite lookup_app_l by (rewrite length_insert; exact Hlt).
        apply list_lookup_insert_eq, Hlt. }
    2:{ cbn [net requests]. rewrite length_app. cbn [post_urls length].
        rewrite Nat.add_comm. exact Hrest. }
    cbn [nodes root next_fn requests console net post_refs map posts_nodes flat_map
         n_children with_children].
    rewrite length_app, length_insert, article_nodes_length, Nat.add_assoc.
    rewrite insert_app_l by (rewrite length_insert; exact Hlt).
    rewrite list_insert_insert_eq, <- !app_assoc.
    reflexivity.
Qed.

Lemma createPosts_array (st : state) (posts : list value) (ds : list post_data) :
  posts <> [] ->
  served (net st) (length (requests st)) posts ds ->
  createPosts (VArr posts) st =
    (Ret (VNode (length (nodes st))),
     mkState
       (nodes st ++
        with_children (blank None)
          (map CElem (post_refs (S (length (nodes st))) ds))
        :: posts_nodes (S (length (nodes st))) ds)
       (root st) (next_fn st) (requests st ++ flat_map post_urls ds)
       (console st) (net st)).
Proof.
  intros Hne H. unfold createPosts. cbn [truthy negb].
  erewrite bind_run by reflexivity.
  erewrite bind_run with (a := false).
  2:{ destruct posts as [|p ps]; [contradiction|].
      unfold of_option. cbn [data_prop String.eqb Ascii.eqb Bool.eqb length lt_one].
      rewrite Nat2Z.inj_succ.
      replace (Z.succ (Z.of_nat (length ps)) <? 1) with false by (symmetry; apply Z.ltb_ge; lia).
      reflexivity. }
  cbv iota.
  erewrite bind_run by reflexivity.
  erewrite bind_run by reflexivity.
  erewrite bind_run.
  2:{ eapply (createPosts_loop_spec posts ds _ (length (nodes st)) (blank None)).
      - cbn [nodes set_nodes]. apply list_lookup_middle. reflexivity.
      - exact H. }
  cbn [nodes root next_fn requests console net set_nodes n_children blank app].
  rewrite length_app, Nat.add_1_r.
  replace (<[length (nodes st) := _]> (nodes st ++ [blank None]))
    with (nodes st ++ [with_children (blank None)
            (map CElem (post_refs (S (length (nodes st))) ds))]).
  2:{ rewrite insert_app_r_alt by lia. rewrite Nat.sub_diag. reflexivity. }
  rewrite <- app_assoc. reflexivity.
Qed.

(** X6. [createPosts] returns undefined, and creates nothing, for every
    falsy argument and for the empty array.  For a non-empty array of post
    objects, on a network that serves each post's author and comments, it
    returns a new fragment holding one article per post, in order.  Each
    article holds an [h2] with the title, a [p] with the body, a [p] with
    "Post ID: " and the id, a [p] with the author's and the company's name, a
    [p] with the catch-phrase, a button labelled "Show Comments" that carries
    the post id, and the hidden comment section of the post.  It issues two
    requests per post, for the author and then for the comments, logs
    nothing and leaves every node the store held before as it was. *)
Theorem createPosts_builds (st : state) :
  (forall posts, truthy posts = false ->
     createPosts posts st = (Ret VUndefined, st)) /\
  createPosts (VArr []) st = (Ret VUndefined, st) /\
  (forall posts ds, posts <> [] ->
     served (net st) (length (requests st)) posts ds ->
     createPosts (VArr posts) st =
       (Ret (VNode (length (nodes st))),
        mkState
          (nodes st ++
           with_children (blank None)
             (map CElem (post_refs (S (length (nodes st))) ds))
           :: posts_nodes (S (length (nodes st))) ds)
          (root st) (next_fn st) (requests st ++ flat_map post_urls ds)
          (console st) (net st))).
Proof.
  split; [|split].
  - intros posts H. unfold createPosts. rewrite H. reflexivity.
  - reflexivity.
  - intros posts ds Hne H. exact (createPosts_array st posts ds Hne H).
Qed.

Lemma createPosts_builds_witness :
  createPosts VNull sample_state = (Ret VUndefined, sample_state) /\
  createPosts (VArr [sample_post]) sample_state =
    (Ret (VNode 5),
     mkState
       (sample_nodes ++
        with_children (blank None) [CElem 6%nat]
        :: article_nodes 6
             (mkPostData "sunt aut facere" "quia et suscipit" "1" "1"
                "Leanne Graham" "Romaguera-Crona"
                "Multi-layered client-server neural-net"
                [("id labore", "laudantium enim", "Eliseo@gardner.biz")]))
       0 0 [api +:+ "/users/1"; api +:+ "/comments?postId=1"] [] sample_net).
Proof.
  destruct (createPosts_builds sample_state) as (Habsent & _ & Harray).
  split; [apply Habsent; reflexivity|].
  rewrite (Harray [sample_post]
             [mkPostData "sunt aut facere" "quia et suscipit" "1" "1"
                "Leanne Graham" "Romaguera-Crona"
                "Multi-layered client-server neural-net"
                [("id labore", "laudantium enim", "Eliseo@gardner.biz")]]).
  - cbn [posts_nodes]. rewrite app_nil_r. reflexivity.
  - discriminate.
  - cbn [served]. split; [|split; [|split; [|exact I]]].
    + eexists. split; [reflexivity|]. repeat split; discriminate.
    + exists sample_user. split; [reflexivity|].
      eexists _, _. repeat split.
    + exists [sample_comment]. split; [reflexivity|].
      constructor; [|constructor]. eexists. repeat split.
Defined.

(* --------------------------------------------------------------------- *)
(** ** displayPosts                                                        *)

(** [parent.appendChild(fragment)] for a parent the store held before and a
    fragment allocated since. *)
Lemma appendChild_fragment_old (st : state) (ns ext : list node) (p c j : nat)
      (np nc : node) :
  nodes st = ns ++ ext ->
  ns !! p = Some np -> c = (length ns + j)%nat -> ext !! j = Some nc ->
  n_tag nc = None ->
  appendChild p (VNode c) st =
    (Ret tt,
     set_nodes st
       (<[p := with_children np (n_children np ++ n_children nc)]> ns
        ++ <[j := with_children nc []]> ext)).
Proof.
  intros H Hp Hc Hj Htag. unfold appendChild.
  pose proof (lookup_lt_Some _ _ _ Hp) as Hlt.
  rewrite (bind_run _ _ _ _ _ (get_node_at st ns ext c j nc H Hc Hj)).
  rewrite Htag.
  erewrite bind_run.
  2:{ apply (modify_node_old st p np). rewrite H. apply lookup_app_l_Some. exact Hp. }
  erewrite (modify_node_at _ (<[p := with_children np (n_children np ++ n_children nc)]> ns)
              ext c j nc).
  - rewrite set_nodes_twice. reflexivity.
  - cbn [nodes set_nodes]. rewrite H. apply insert_app_l. exact Hlt.
  - rewrite length_insert. exact Hc.
  - exact Hj.
Qed.

Lemma displayPosts_default (st : state) (m : nat) (M : node) (posts : value) :
  List.find (node_sat (nodes st) (has_tag "main")) (doc_elements st) = Some m ->
  nodes st !! m = Some M ->
  truthy posts = false \/ posts = VArr [] ->
  displayPosts posts st =
    (Ret (VNode (length (nodes st))),
     set_nodes st
       (<[m := with_children M (n_children M ++ [CElem (length (nodes st))])]> (nodes st)
        ++ [default_text])).
Proof.
  intros Hmain HM Hposts. unfold displayPosts.
  erewrite bind_run by (unfold querySelector; rewrite Hmain; reflexivity).
  cbv beta iota.
  erewrite bind_run with (a := VUndefined) (st' := st).
  2:{ destruct Hposts as [H | ->]; [|reflexivity].
      unfold createPosts. rewrite H. reflexivity. }
  cbn [truthy negb].
  erewrite bind_run by reflexivity.
  erewrite bind_run
    by (apply (createElemWithText_class st _ _ _ "p" "p"
                 "Select an Employee to display their posts." ["default-text"]);
        reflexivity).
  erewrite bind_run.
  2:{ eapply (appendChild_old _ (nodes st) [default_text] m _ 0 M);
        [reflexivity | exact HM | symmetry; apply Nat.add_0_r | reflexivity | discriminate]. }
  rewrite set_nodes_twice. reflexivity.
Qed.

Lemma post_refs_length (a : nat) (ds : list post_data) :
  length (post_refs a ds) = length ds.
Proof.
  revert a. induction ds as [|d ds IH]; intros a; [reflexivity|].
  cbn [post_refs length]. rewrite IH. reflexivity.
Qed.

Lemma served_length (answer : nat -> string -> response) (posts : list value) :
  forall (k : nat) (ds : list post_data),
    served answer k posts ds -> length ds = length posts.
Proof.
  induction posts as [|p posts IH]; intros k [|d ds] H; try contradiction; [reflexivity|].
  destruct H as (_ & _ & _ & H). cbn [length]. rewrite (IH _ _ H). reflexivity.
Qed.

Lemma displayPosts_served (st : state) (m : nat) (M : node) (posts : list value)
      (ds : list post_data) :
  List.find (node_sat (nodes st) (has_tag "main")) (doc_elements st) = Some m ->
  nodes st !! m = Some M ->
  posts <> [] ->
  served (net st) (length (requests st)) posts ds ->
  displayPosts (VArr posts) st =
    (Ret (VNode (length (nodes st))),
     mkState
       (<[m := with_children M
                 (n_children M ++ map CElem (post_refs (S (length (nodes st))) ds))]>
          (nodes st)
        ++ blank None :: posts_nodes (S (length (nodes st))) ds)
       (root st) (next_fn st) (requests st ++ flat_map post_urls ds)
       (console st) (net st)).
Proof.
  intros Hmain HM Hne Hserved. unfold displayPosts.
  erewrite bind_run by (unfold querySelector; rewrite Hmain; reflexivity).
  cbv beta iota.
  erewrite bind_run by (apply (createPosts_array st posts ds Hne Hserved)).
  cbn [truthy negb].
  erewrite bind_run with (a := false).
  2:{ erewrite bind_run.
      2:{ unfold get_prop. erewrite bind_run.
          2:{ unfold get_node. cbn [nodes]. rewrite list_lookup_middle by reflexivity.
              reflexivity. }
          reflexivity. }
      cbn [n_children with_children]. rewrite elem_children_map, post_refs_length.
      rewrite (served_length _ _ _ _ Hserved).
      destruct posts as [|p ps]; [contradiction|].
      unfold of_option. cbn [length lt_one]. rewrite Nat2Z.inj_succ.
      replace (Z.succ (Z.of_nat (length ps)) <? 1) with false
        by (symmetry; apply Z.ltb_ge; lia).
      reflexivity. }
  cbv iota.
  erewrite bind_run by reflexivity.
  erewrite bind_run.
  2:{ eapply (appendChild_fragment_old _ (nodes st) _ m _ 0 M);
        [reflexivity | exact HM | symmetry; apply Nat.add_0_r | reflexivity | reflexivity]. }
  reflexivity.
Qed.

(** X7. In a document with a [main] element, [displayPosts] appends to it
    and returns what it appended.  For a falsy argument and for the empty
    array that is one new paragraph of class [default-text] reading
    "Select an Employee to display their posts."; no request is issued.  For
    a non-empty array of post objects, on a network that serves them, the
    articles of the posts move from the fragment into [main], after the
    children [main] already has, and the emptied fragment is returned. *)
Theorem displayPosts_builds (st : state) (m : nat) (M : node) :
  List.find (node_sat (nodes st) (has_tag "main")) (doc_elements st) = Some m ->
  nodes st !! m = Some M ->
  (forall posts, truthy posts = false \/ posts = VArr [] ->
     displayPosts posts st =
       (Ret (VNode (length (nodes st))),
        set_nodes st
          (<[m := with_children M (n_children M ++ [CElem (length (nodes st))])]>
             (nodes st)
           ++ [default_text]))) /\
  (forall posts ds, posts <> [] ->
     served (net st) (length (requests st)) posts ds ->
     displayPosts (VArr posts) st =
       (Ret (VNode (length (nodes st))),
        mkState
          (<[m := with_children M
                    (n_children M ++ map CElem (post_refs (S (length (nodes st))) ds))]>
             (nodes st)
           ++ blank None :: posts_nodes (S (length (nodes st))) ds)
          (root st) (next_fn st) (requests st ++ flat_map post_urls ds)
          (console st) (net st))).
Proof.
  intros Hmain HM. split.
  - intros posts H. exact (displayPosts_default st m M posts Hmain HM H).
  - intros posts ds Hne H. exact (displayPosts_served st m M posts ds Hmain HM Hne H).
Qed.

Lemma displayPosts_builds_witness :
  displayPosts (VArr []) sample_state =
    (Ret (VNode 5),
     set_nodes sample_state
       (<[3%nat := elem "main" [CElem 4%nat; CElem 5%nat]]> sample_nodes
        ++ [default_text])).
Proof.
  apply (displayPosts_builds sample_state 3 (elem "main" [CElem 4%nat])).
  - reflexivity.
  - reflexivity.
  - right. reflexivity.
Defined.

(* --------------------------------------------------------------------- *)
(** ** populateSelectMenu                                                  *)

Lemma createSelectOptions_array (st : state) (us : list value)
      (ds : list (string * string)) :
  Forall2 is_user us ds ->
  createSelectOptions (VArr us) st =
    (Ret (VArr (map VNode (seq (length (nodes st)) (length us)))),
     set_nodes st (nodes st ++ map option_node ds)).
Proof.
  intros H. unfold createSelectOptions. cbn [truthy negb]. unfold bind, iterate, ret.
  rewrite (createSelectOptions_loop_spec _ _ H). reflexivity.
Qed.

(** The [forEach] of [populateSelectMenu]: [k] elements allocated since,
    from the [i]-th on, are appended to a node the store held before. *)
Lemma append_each (ext : list node) (k : nat) :
  Forall (fun n => n_tag n <> None) ext ->
  forall (i : nat) (st : state) (ns : list node) (s : nat) (S0 : node),
    nodes st = ns ++ ext ->
    ns !! s = Some S0 ->
    (i + k <= length ext)%nat ->
    for_each (map VNode (seq (length ns + i) k))
             (fun option => call_appendChild (VNode s) option) st =
      (Ret tt,
       set_nodes st
         (<[s := with_children S0
                   (n_children S0 ++ map CElem (seq (length ns + i) k))]> ns ++ ext)).
Proof.
  intros Hext. induction k as [|k IH]; intros i st ns s S0 H HS Hle.
  - cbn [seq map for_each].
    rewrite app_nil_r, with_children_same, (list_insert_id _ _ _ HS), <- H, set_nodes_same.
    reflexivity.
  - pose proof (lookup_lt_Some _ _ _ HS) as Hlt.
    destruct (lookup_lt_is_Some_2 ext i) as [nc Hnc]; [lia|].
    cbn [seq map for_each].
    erewrite bind_run.
    2:{ apply (appendChild_old st ns ext s _ i S0 nc H HS eq_refl Hnc).
        exact (proj1 (Forall_lookup _ _) Hext i nc Hnc). }
    pose (S1 := with_children S0 (n_children S0 ++ [CElem (length ns + i)%nat])).
    pose proof (IH (S i) (set_nodes st (<[s := S1]> ns ++ ext)) (<[s := S1]> ns) s S1
                  eq_refl (list_lookup_insert_eq ns s S1 Hlt)) as Hrec.
    subst S1.
    rewrite length_insert in Hrec.
    replace (length ns + S i)%nat with (S (length ns + i)) in Hrec by lia.
    rewrite Hrec by lia.
    rewrite set_nodes_twice, list_insert_insert_eq.
    cbn [n_children with_children]. rewrite with_children_twice, <- app_assoc.
    reflexivity.
Qed.

Lemma option_nodes_tagged (ds : list (string * string)) :
  Forall (fun n => n_tag n <> None) (map option_node ds).
Proof. induction ds as [|d ds IH]; cbn [map]; constructor; [discriminate | exact IH]. Qed.

Lemma find_app_first {A} (f : A -> bool) (l1 l2 : list A) :
  List.find f (l1 ++ l2) =
    match List.find f l1 with Some x => Some x | None => List.find f l2 end.
Proof.
  induction l1 as [|a l1 IH]; [reflexivity|].
  cbn [app List.find]. destruct (f a); [reflexivity | exact IH].
Qed.

Lemma find_same {A} (f g : A -> bool) (l : list A) :
  (forall x, In x l -> f x = g x) -> List.find f l = List.find g l.
Proof.
  induction l as [|a l IH]; intros H; [reflexivity|].
  cbn [List.find]. rewrite (H a (or_introl eq_refl)), IH; [reflexivity|].
  intros x Hx. apply H. right. exact Hx.
Qed.

Lemma existsb_none {A} (f : A -> bool) (l : list A) :
  (forall x, In x l -> f x = false) -> existsb f l = false.
Proof.
  induction l as [|a l IH]; intros H; [reflexivity|].
  cbn [existsb]. rewrite (H a (or_introl eq_refl)), IH; [reflexivity|].
  intros x Hx. apply H. right. exact Hx.
Qed.

(** The value of the menu once the options of the users are appended: the
    id of the first user when no option was selected, and the value it had
    otherwise. *)
Lemma select_value_filled (ns : list node) (s : nat) (S0 : node)
      (ds : list (string * string)) (v : string) :
  ns !! s = Some S0 -> n_tag S0 = Some "select" ->
  (forall c, n_chosen S0 = Some c -> (c < length ns)%nat) ->
  select_value ns S0 = Some v ->
  let S1 := with_children S0 (n_children S0 ++ map CElem (seq (length ns) (length ds))) in
  select_value (<[s := S1]> ns ++ map option_node ds) S1 =
    Some (match selected_of ns S0, ds with
          | None, d :: _ => fst d
          | _, _ => v
          end).
Proof.
  intros HS Htag Hchosen Hv S1.
  set (kids := elem_children (n_children S0)).
  set (refs := seq (length ns) (length ds)).
  set (ns' := <[s := S1]> ns ++ map option_node ds).
  pose proof (lookup_lt_Some _ _ _ HS) as Hs.
  assert (Hkids : forall r, In r kids -> is_option ns r = true).
  { unfold select_value in Hv. fold kids in Hv.
    destruct (forallb (is_option ns) kids) eqn:E; [|discriminate Hv].
    intros r Hr. exact (proj1 (forallb_forall _ _) E r Hr). }
  assert (Hold : forall r, In r kids -> ns' !! r = ns !! r /\ (r < length ns)%nat).
  { intros r Hr. pose proof (Hkids r Hr) as Ho. unfold is_option, node_sat in Ho.
    destruct (ns !! r) as [nr|] eqn:E; [|discriminate Ho].
    pose proof (lookup_lt_Some _ _ _ E) as Hlt.
    assert (r <> s).
    { intros ->. rewrite HS in E. injection E as <-.
      rewrite (select_not_option S0 Htag) in Ho. discriminate Ho. }
    split; [|exact Hlt]. unfold ns'.
    rewrite lookup_app_l by (rewrite length_insert; exact Hlt).
    rewrite list_lookup_insert_ne by congruence. exact E. }
  assert (Hnew : forall i d, ds !! i = Some d ->
            ns' !! (length ns + i)%nat = Some (option_node d)).
  { intros i d Hd. unfold ns'. rewrite lookup_app_r by (rewrite length_insert; lia).
    rewrite length_insert.
    replace (length ns + i - length ns)%nat with i by lia.
    rewrite list_lookup_fmap, Hd. reflexivity. }
  assert (Hsat : forall p r, In r kids -> node_sat ns' p r = node_sat ns p r).
  { intros p r Hr. unfold node_sat. rewrite (proj1 (Hold r Hr)). reflexivity. }
  assert (Hoptions : forallb (is_option ns') (kids ++ refs) = true).
  { rewrite forallb_app. apply andb_true_iff. split; apply forallb_forall; intros r Hr.
    - unfold is_option. rewrite (Hsat _ r Hr). exact (Hkids r Hr).
    - apply in_seq in Hr as [Hlo Hhi].
      destruct (lookup_lt_is_Some_2 ds (r - length ns)) as [d Hd]; [lia|].
      pose proof (Hnew _ d Hd) as E.
      replace (length ns + (r - length ns))%nat with r in E by lia.
      unfold is_option, node_sat. rewrite E. reflexivity. }
  assert (Hfind : List.find (is_choice ns') (kids ++ refs) =
                  match List.find (is_choice ns) kids with
                  | Some o => Some o
                  | None => match ds with [] => None | _ :: _ => Some (length ns) end
                  end).
  { rewrite find_app_first.
    rewrite (find_same (is_choice ns') (is_choice ns) kids)
      by (intros r Hr; apply (Hsat _ r Hr)).
    destruct (List.find (is_choice ns) kids); [reflexivity|].
    unfold refs. destruct ds as [|d ds']; [reflexivity|].
    cbn [length seq List.find]. unfold is_choice, node_sat.
    pose proof (Hnew 0%nat d eq_refl) as E. rewrite Nat.add_0_r in E. rewrite E.
    reflexivity. }
  assert (Hvalue : forall o, In o kids ->
            match ns' !! o with Some no => own_value no | None => None end =
            match ns !! o with Some no => own_value no | None => None end).
  { intros o Ho. rewrite (proj1 (Hold o Ho)). reflexivity. }
  assert (Hfallback :
            List.find (is_choice ns) kids = selected_of ns S0 ->
            match List.find (is_choice ns') (kids ++ refs) with
            | Some o => match ns' !! o with Some no => own_value no | None => None end
            | None => Some ""
            end =
            Some (match selected_of ns S0, ds with
                  | None, d :: _ => fst d
                  | _, _ => v
                  end)).
  { intros Hsel. rewrite Hfind. unfold select_value in Hv. fold kids in Hv.
    destruct (forallb (is_option ns) kids); [|discriminate Hv].
    rewrite <- Hsel in *.
    destruct (List.find (is_choice ns) kids) as [o|] eqn:E.
    - apply find_some in E as [Ho _]. rewrite (Hvalue o Ho). exact Hv.
    - destruct ds as [|d ds']; [exact Hv|].
      pose proof (Hnew 0%nat d eq_refl) as E'. rewrite Nat.add_0_r in E'. rewrite E'.
      reflexivity. }
  assert (Hall : elem_children (n_children S1) = kids ++ refs).
  { change (n_children S1) with (n_children S0 ++ map CElem refs).
    unfold elem_children at 1. rewrite flat_map_app.
    change (flat_map _ (map CElem refs)) with (elem_children (map CElem refs)).
    rewrite elem_children_map. reflexivity. }
  unfold select_value at 1, selected_of at 1. rewrite Hall, Hoptions.
  change (n_chosen S1) with (n_chosen S0).
  destruct (n_chosen S0) as [c|] eqn:Ec.
  - rewrite existsb_app.
    rewrite (existsb_none (Nat.eqb c) refs).
    2:{ intros x Hx. apply in_seq in Hx. apply Nat.eqb_neq.
        pose proof (Hchosen c eq_refl). lia. }
    rewrite orb_false_r.
    destruct (existsb (Nat.eqb c) kids) eqn:Ex.
    + assert (Hc : In c kids).
      { apply existsb_exists in Ex as (x & Hx & Hcx). apply Nat.eqb_eq in Hcx. subst x.
        exact Hx. }
      rewrite (Hvalue c Hc).
      assert (Hsel : selected_of ns S0 = Some c)
        by (unfold selected_of; fold kids; rewrite Ec, Ex; reflexivity).
      unfold select_value in Hv. fold kids in Hv. rewrite Hsel in Hv |- *.
      destruct (forallb (is_option ns) kids); [exact Hv | discriminate Hv].
    + apply Hfallback. unfold selected_of. fold kids. rewrite Ec, Ex. reflexivity.
  - apply Hfallback. unfold selected_of. fold kids. rewrite Ec. reflexivity.
Qed.

Lemma populateSelectMenu_fills (st : state) (s : nat) (S0 : node) (us : list value)
      (ds : list (string * string)) :
  List.find (node_sat (nodes st) (has_id "selectMenu")) (doc_elements st) = Some s ->
  nodes st !! s = Some S0 ->
  Forall2 is_user us ds ->
  populateSelectMenu (VArr us) st =
    (Ret (VNode s),
     set_nodes st
       (<[s := with_children S0
                 (n_children S0 ++ map CElem (seq (length (nodes st)) (length us)))]>
          (nodes st)
        ++ map option_node ds)).
Proof.
  intros Hfind HS Hus. unfold populateSelectMenu.
  erewrite bind_run by (unfold getElementById, querySelector; rewrite Hfind; reflexivity).
  cbn [truthy negb of_ref].
  erewrite bind_run by (apply (createSelectOptions_array st us ds Hus)).
  erewrite bind_run by reflexivity.
  erewrite bind_run.
  2:{ pose proof (append_each (map option_node ds) (length us) (option_nodes_tagged ds)
                    0 (set_nodes st (nodes st ++ map option_node ds)) (nodes st) s S0
                    eq_refl HS) as Hloop.
      rewrite Nat.add_0_r in Hloop. apply Hloop.
      rewrite length_map, (Forall2_length _ _ _ Hus). lia. }
  rewrite set_nodes_twice. reflexivity.
Qed.

Lemma populateSelectMenu_no_select (st : state) (u : value) (us : list value)
      (ds : list (string * string)) :
  List.find (node_sat (nodes st) (has_id "selectMenu")) (doc_elements st) = None ->
  Forall2 is_user (u :: us) ds ->
  fst (populateSelectMenu (VArr (u :: us)) st) = Throw TypeError.
Proof.
  intros Hfind Hus. unfold populateSelectMenu.
  erewrite bind_run by (unfold getElementById, querySelector; rewrite Hfind; reflexivity).
  cbn [truthy negb of_ref].
  erewrite bind_run by (apply (createSelectOptions_array st (u :: us) ds Hus)).
  erewrite bind_run by reflexivity.
  reflexivity.
Qed.

(** X8. [populateSelectMenu] returns undefined for every falsy argument
    and changes nothing.  For an array of user objects, in a document that
    has the element [#selectMenu], it creates one option per user, appends
    them in order after the children the menu already has, and returns the
    menu.  When the menu is a [select] that had a value, it then has the id
    of the first user as its value if none of its options was selected, and
    the value it had otherwise.  Without that element the function throws a
    TypeError on the first option, as [selectMenu] is null there. *)
Theorem populateSelectMenu_spec (st : state) :
  (forall users, truthy users = false ->
     populateSelectMenu users st = (Ret VUndefined, st)) /\
  (forall s S0 us ds,
     List.find (node_sat (nodes st) (has_id "selectMenu")) (doc_elements st) = Some s ->
     nodes st !! s = Some S0 ->
     Forall2 is_user us ds ->
     let S1 :=
       with_children S0 (n_children S0 ++ map CElem (seq (length (nodes st)) (length us))) in
     let ns' := <[s := S1]> (nodes st) ++ map option_node ds in
     populateSelectMenu (VArr us) st = (Ret (VNode s), set_nodes st ns') /\
     forall v,
       n_tag S0 = Some "select" ->
       (forall c, n_chosen S0 = Some c -> (c < length (nodes st))%nat) ->
       select_value (nodes st) S0 = Some v ->
       select_value ns' S1 =
         Some (match selected_of (nodes st) S0, ds with
               | None, d :: _ => fst d
               | _, _ => v
               end)) /\
  (forall u us ds,
     List.find (node_sat (nodes st) (has_id "selectMenu")) (doc_elements st) = None ->
     Forall2 is_user (u :: us) ds ->
     fst (populateSelectMenu (VArr (u :: us)) st) = Throw TypeError).
Proof.
  split; [|split].
  - intros users H. unfold populateSelectMenu, bind, getElementById, querySelector.
    rewrite H. reflexivity.
  - intros s S0 us ds Hfind HS Hus S1 ns'. split.
    + apply populateSelectMenu_fills; assumption.
    + intros v Htag Hchosen Hv. unfold ns', S1.
      rewrite (Forall2_length _ _ _ Hus).
      apply select_value_filled; assumption.
  - intros u us ds. apply populateSelectMenu_no_select.
Qed.

Lemma populateSelectMenu_spec_witness :
  populateSelectMenu VNull sample_state = (Ret VUndefined, sample_state) /\
  populateSelectMenu (VArr [sample_user]) sample_state =
    (Ret (VNode 2),
     set_nodes sample_state
       (<[2%nat := mkNode (Some "select") "selectMenu" None [] None false false
                     [CElem 5%nat] [] None]> sample_nodes
        ++ [option_node ("1", "Leanne Graham")])) /\
  select_value
    (<[2%nat := mkNode (Some "select") "selectMenu" None [] None false false
                  [CElem 5%nat] [] None]> sample_nodes
     ++ [option_node ("1", "Leanne Graham")])
    (mkNode (Some "select") "selectMenu" None [] None false false [CElem 5%nat] [] None)
    = Some "1" /\
  fst (populateSelectMenu (VArr [sample_user]) bare_state) = Throw TypeError.
Proof.
  destruct (populateSelectMenu_spec sample_state) as (Hguard & H & Hnone).
  destruct (H 2%nat (mkNode (Some "select") "selectMenu" None [] None false false [] [] None)
              [sample_user] [("1", "Leanne Graham")]) as [Hrun Hvalue].
  { reflexivity. }
  { reflexivity. }
  { constructor; [|constructor]. eexists. repeat split. }
  split; [|split; [|split]].
  - apply Hguard. reflexivity.
  - exact Hrun.
  - apply (Hvalue ""); [reflexivity | discriminate | reflexivity].
  - destruct (populateSelectMenu_spec bare_state) as (_ & _ & Hbare).
    apply (Hbare sample_user [] [("1", "Leanne Graham")]).
    + reflexivity.
    + constructor; [|constructor]. eexists. repeat split.
Defined.

(* --------------------------------------------------------------------- *)
(** ** initPage                                                            *)

Lemma getUsers_settles (st : state) :
  getUsers st =
    (Ret (fst (outcome (net st (length (requests st)) (api +:+ "/users")))),
     settled st (api +:+ "/users") (net st (length (requests st)) (api +:+ "/users"))).
Proof. apply caught_request_settles. Qed.

(** X9. [initPage] issues the one request for the users.  When that gives
    null (the request fails or the body is not JSON), it returns
    [[null, undefined]] and leaves the document as it is.  When it gives an
    array of user objects and the document has the element [#selectMenu],
    it returns the users and the menu, which then holds one more option per
    user, and logs nothing; when the menu is a [select] that had a value, it
    then has the id of the first user as its value if none of its options
    was selected, and the value it had otherwise. *)
Theorem initPage_spec (st : state) (r : response) :
  net st (length (requests st)) (api +:+ "/users") = r ->
  (fst (outcome r) = VNull ->
   initPage st = (Ret (VArr [VNull; VUndefined]), settled st (api +:+ "/users") r)) /\
  (forall s S0 us ds,
     r = Response true (Some (VArr us)) ->
     List.find (node_sat (nodes st) (has_id "selectMenu")) (doc_elements st) = Some s ->
     nodes st !! s = Some S0 ->
     Forall2 is_user us ds ->
     let S1 :=
       with_children S0 (n_children S0 ++ map CElem (seq (length (nodes st)) (length us))) in
     let ns' := <[s := S1]> (nodes st) ++ map option_node ds in
     initPage st =
       (Ret (VArr [VArr us; VNode s]),
        mkState ns' (root st) (next_fn st) (requests st ++ [api +:+ "/users"])
                (console st) (net st)) /\
     forall v,
       n_tag S0 = Some "select" ->
       (forall c, n_chosen S0 = Some c -> (c < length (nodes st))%nat) ->
       select_value (nodes st) S0 = Some v ->
       select_value ns' S1 =
         Some (match selected_of (nodes st) S0, ds with
               | None, d :: _ => fst d
               | _, _ => v
               end)).
Proof.
  intros Hr. split.
  - intros Hnull. unfold initPage.
    erewrite bind_run by apply getUsers_settles.
    rewrite Hr, Hnull. reflexivity.
  - intros s S0 us ds -> Hfind HS Hus S1 ns'. split.
    2:{ intros v Htag Hchosen Hv. unfold ns', S1.
        rewrite (Forall2_length _ _ _ Hus).
        apply select_value_filled; assumption. }
    unfold initPage.
    erewrite bind_run by apply getUsers_settles.
    rewrite Hr. cbn [outcome fst].
    erewrite bind_run
      by (apply (populateSelectMenu_fills
                   (settled st (api +:+ "/users") (Response true (Some (VArr us))))
                   s S0 us ds Hfind HS Hus)).
    unfold set_nodes, settled. cbn [nodes root next_fn requests console net outcome snd].
    rewrite app_nil_r. reflexivity.
Qed.

Lemma initPage_spec_witness :
  initPage down_state =
    (Ret (VArr [VNull; VUndefined]), settled down_state (api +:+ "/users") Rejected) /\
  initPage sample_state =
    (Ret (VArr [VArr [sample_user]; VNode 2]),
     mkState
       (<[2%nat := mkNode (Some "select") "selectMenu" None [] None false false
                     [CElem 5%nat] [] None]> sample_nodes
        ++ [option_node ("1", "Leanne Graham")])
       0 0 [api +:+ "/users"] [] sample_net) /\
  select_value
    (<[2%nat := mkNode (Some "select") "selectMenu" None [] None false false
                  [CElem 5%nat] [] None]> sample_nodes
     ++ [option_node ("1", "Leanne Graham")])
    (mkNode (Some "select") "selectMenu" None [] None false false [CElem 5%nat] [] None)
    = Some "1".
Proof.
  split.
  - apply (initPage_spec down_state Rejected); reflexivity.
  - destruct (initPage_spec sample_state (Response true (Some (VArr [sample_user])))
                eq_refl) as [_ H].
    destruct (H 2%nat
                (mkNode (Some "select") "selectMenu" None [] None false false [] [] None)
                [sample_user] [("1", "Leanne Graham")]) as [Hrun Hvalue].
    + reflexivity.
    + reflexivity.
    + reflexivity.
    + constructor; [|constructor]. eexists. repeat split.
    + split; [exact Hrun|].
      apply (Hvalue ""); [reflexivity | discriminate | reflexivity].
Defined.

(* --------------------------------------------------------------------- *)
(** ** toggleComments                                                      *)

Lemma has_token_toggle (t : string) (cl : list string) :
  has_token t (toggle_token t cl) = negb (has_token t cl).
Proof.
  unfold toggle_token. destruct (has_token t cl) eqn:E; cbn [negb].
  - clear E. unfold has_token, remove_token.
    induction cl as [|c cl IH]; [reflexivity|].
    cbn [List.filter]. destruct (String.eqb t c) eqn:Ec; cbn [negb existsb];
      [exact IH | rewrite Ec; exact IH].
  - unfold has_token. rewrite existsb_app. cbn [existsb].
    rewrite String.eqb_refl. apply orb_true_iff. right. reflexivity.
Qed.

Lemma flip_label_nonempty (s : string) : String.eqb (flip_label s) "" = false.
Proof. unfold flip_label. destruct (String.eqb s "Show Comments"); reflexivity. Qed.

(** An update that keeps the field [f] of the node keeps the field in the
    whole store. *)
Lemma same_by_update {A} (f : node -> A) (ns : list node) (r : nat) (n n' : node) :
  ns !! r = Some n -> f n' = f n ->
  forall i, f <$> <[r := n']> ns !! i = f <$> ns !! i.
Proof.
  intros Hn Hf i. destruct (Nat.eq_dec i r) as [->|Hne].
  - rewrite list_lookup_insert_eq by (eapply lookup_lt_Some; exact Hn).
    rewrite Hn. cbn. f_equal. exact Hf.
  - rewrite list_lookup_insert_ne by congruence. reflexivity.
Qed.

Lemma set_flag_listener (st : state) (t : nat) (nT : node) :
  nodes st !! t = Some nT ->
  set_flag (VNode t) "listener" true st =
    (Ret tt, set_nodes st (<[t := with_flag nT true]> (nodes st))).
Proof. intros H. cbn [set_flag String.eqb Ascii.eqb Bool.eqb]. exact (modify_node_old st t nT (fun n => with_flag n true) H).
Qed.

(** One run of [toggleComments] on a click event. *)
Lemma toggleComments_run (st : state) (fs : list (string * value)) (postId : value)
      (p : string) (t s b : nat) (nT : node) :
  lookup_field "target" fs = VNode t -> nodes st !! t = Some nT ->
  postId <> VUndefined -> to_string postId = Some p -> css_plain p = true ->
  List.find (node_sat (nodes st) (has_post_id "section" p)) (doc_elements st) = Some s ->
  List.find (node_sat (nodes st) (has_post_id "button" p)) (doc_elements st) = Some b ->
  exists st',
    toggleComments (VObj fs) postId st = (Ret (VArr [VNode s; VNode b]), st') /\
    hidden st' s = negb (hidden st s) /\
    label st' b = flip_label (label st b) /\
    node_sat (nodes st') n_flag t = true /\
    length (nodes st') = length (nodes st).
Proof.
  intros Htarget HT Hdef Hp Hplain Hfs Hfb.
  set (st1 := set_nodes st (<[t := with_flag nT true]> (nodes st))).
  assert (Hfs1 : List.find (node_sat (nodes st1) (has_post_id "section" p))
                           (doc_elements st1) = Some s).
  { unfold st1. rewrite (update_querySelector st t nT _ HT); [exact Hfs | reflexivity ..]. }
  assert (Hfb1 : List.find (node_sat (nodes st1) (has_post_id "button" p))
                           (doc_elements st1) = Some b).
  { unfold st1. rewrite (update_querySelector st t nT _ HT); [exact Hfb | reflexivity ..]. }
  destruct (find_sat _ _ _ Hfs) as (nS0 & HnS0 & HsatS).
  destruct (find_sat _ _ _ Hfb) as (nB0 & HnB0 & HsatB).
  assert (Hsb : s <> b).
  { intros ->. rewrite HnS0 in HnB0. injection HnB0 as ->.
    unfold has_post_id, has_tag in HsatS, HsatB.
    destruct (n_tag nB0) as [tag|]; [|discriminate].
    apply andb_true_iff in HsatS as [HS _], HsatB as [HB _].
    apply String.eqb_eq in HS, HB. congruence. }
  destruct (find_sat _ _ _ Hfs1) as (nS1 & HnS1 & _).
  assert (Hclass : n_class nS1 = n_class nS0).
  { pose proof (same_by_update n_class (nodes st) t nT (with_flag nT true) HT eq_refl s) as H.
    fold (nodes st1) in H. cbn [nodes set_nodes st1] in HnS1.
    rewrite HnS1, HnS0 in H. injection H as H. exact H. }
  set (st2 := set_nodes st1 (<[s := with_class nS1 (toggle_token "hide" (n_class nS1))]>
                               (nodes st1))).
  assert (Hfb2 : List.find (node_sat (nodes st2) (has_post_id "button" p))
                           (doc_elements st2) = Some b).
  { unfold st2. rewrite (update_querySelector st1 s nS1 _ HnS1); [exact Hfb1 | reflexivity ..]. }
  destruct (find_sat _ _ _ Hfb2) as (nB2 & HnB2 & _).
  set (st3 := set_nodes st2 (<[b := with_children nB2 [CText (flip_label (label st2 b))]]>
                               (nodes st2))).
  assert (Hlabel : label st2 b = label st b).
  { unfold label, st2, st1. cbn [nodes set_nodes]. rewrite !length_insert.
    apply text_content_ext. intros i.
    unfold st1 in HnS1. cbn [nodes set_nodes] in HnS1.
    rewrite (same_by_update n_children _ s nS1
               (with_class nS1 (toggle_token "hide" (n_class nS1))) HnS1 eq_refl i).
    apply (same_by_update n_children _ t nT (with_flag nT true) HT eq_refl i). }
  exists st3. split; [|split; [|split; [|split]]].
  - unfold toggleComments. cbn [truthy negb orb]. rewrite (is_undefined_false _ Hdef).
    erewrite bind_run by (cbn [get_prop data_prop]; rewrite Htarget; reflexivity).
    erewrite bind_run by (apply (set_flag_listener st t nT HT)).
    erewrite bind_run
      by (apply (toggleCommentSection_found st1 postId p s nS1 Hdef Hp Hplain Hfs1 HnS1)).
    erewrite bind_run
      by (apply (toggleCommentButton_found st2 postId p b nB2 Hdef Hp Hplain Hfb2 HnB2)).
    reflexivity.
  - unfold hidden, node_sat, st3. cbn [nodes set_nodes].
    rewrite list_lookup_insert_ne by congruence.
    unfold st2. cbn [nodes set_nodes].
    rewrite list_lookup_insert_eq by (eapply lookup_lt_Some; exact HnS1).
    rewrite HnS0. cbn [n_class with_class]. rewrite Hclass. apply has_token_toggle.
  - rewrite (label_own st3 b (with_children nB2 [CText (flip_label (label st2 b))])).
    + unfold own_text. cbn [n_children with_children map String.concat].
      rewrite Hlabel. reflexivity.
    + unfold st3. cbn [nodes set_nodes].
      apply list_lookup_insert_eq. eapply lookup_lt_Some; exact HnB2.
    + reflexivity.
  - pose proof (same_by_update n_flag (nodes st2) b nB2
                  (with_children nB2 [CText (flip_label (label st2 b))]) HnB2 eq_refl t) as H3.
    pose proof (same_by_update n_flag (nodes st1) s nS1
                  (with_class nS1 (toggle_token "hide" (n_class nS1))) HnS1 eq_refl t) as H2.
    unfold node_sat. fold (nodes st3) in H3. fold (nodes st2) in H2.
    change (nodes st3 !! t) with (<[b := with_children nB2 [CText (flip_label (label st2 b))]]> (nodes st2) !! t).
    assert (H1 : nodes st1 !! t = Some (with_flag nT true)).
    { unfold st1. cbn [nodes set_nodes]. apply list_lookup_insert_eq.
      eapply lookup_lt_Some; exact HT. }
    cbn [nodes set_nodes st2] in H3. rewrite H1 in H2.
    destruct (_ !! t) as [n3|] eqn:E3 in H3 |- *.
    + cbn in H3, H2. destruct (_ !! t) as [n2|] in H3, H2; [|discriminate].
      cbn in H3, H2. congruence.
    + cbn in H3, H2. destruct (_ !! t) as [n2|] in H3, H2; discriminate.
  - unfold st3, st2, st1. cbn [nodes set_nodes]. rewrite !length_insert. reflexivity.
Qed.

(** X10. [toggleComments] returns undefined and changes nothing when the
    event is falsy or the post id is undefined.  On an event without a
    target it throws a TypeError before anything is toggled.  On a click
    event whose target is a node, for a post id whose comment section and
    button are in the document, it marks the target, returns the section and
    the button, flips the hidden state of the section and changes the
    button's label from "Show Comments" to "Hide Comments", or from anything
    else to "Show Comments". *)
Theorem toggleComments_spec (st : state) :
  (forall event postId, truthy event = false \/ postId = VUndefined ->
     toggleComments event postId st = (Ret VUndefined, st)) /\
  (forall fs postId, postId <> VUndefined ->
     nullish (lookup_field "target" fs) = true ->
     toggleComments (VObj fs) postId st = (Throw TypeError, st)) /\
  (forall fs postId p t s b nT,
     lookup_field "target" fs = VNode t -> nodes st !! t = Some nT ->
     postId <> VUndefined -> to_string postId = Some p -> css_plain p = true ->
     List.find (node_sat (nodes st) (has_post_id "section" p)) (doc_elements st) = Some s ->
     List.find (node_sat (nodes st) (has_post_id "button" p)) (doc_elements st) = Some b ->
     exists st',
       toggleComments (VObj fs) postId st = (Ret (VArr [VNode s; VNode b]), st') /\
       hidden st' s = negb (hidden st s) /\
       label st' b = flip_label (label st b) /\
       node_sat (nodes st') n_flag t = true /\
       length (nodes st') = length (nodes st)).
Proof.
  split; [|split].
  - intros event postId [H | ->]; unfold toggleComments.
    + rewrite H. reflexivity.
    + rewrite orb_true_r. reflexivity.
  - intros fs postId Hdef Htarget. unfold toggleComments.
    cbn [truthy negb orb]. rewrite (is_undefined_false _ Hdef).
    erewrite bind_run by reflexivity.
    apply bind_throw. cbn [data_prop].
    destruct (lookup_field "target" fs); try discriminate; reflexivity.
  - intros fs postId p t s b nT. apply toggleComments_run.
Qed.

Lemma toggleComments_spec_witness :
  toggleComments VNull (VNum (NInt 1)) post_state = (Ret VUndefined, post_state) /\
  toggleComments (VObj []) (VNum (NInt 1)) post_state = (Throw TypeError, post_state) /\
  exists st',
    toggleComments (VObj [("target", VNode 3)]) (VNum (NInt 1)) post_state =
      (Ret (VArr [VNode 4; VNode 3]), st') /\
    hidden st' 4 = false /\ label st' 3 = "Hide Comments".
Proof.
  destruct (toggleComments_spec post_state) as (Hguard & Hthrow & Hrun).
  split; [apply Hguard; left; reflexivity|].
  split; [apply Hthrow; [discriminate | reflexivity]|].
  destruct (Hrun [("target", VNode 3)] (VNum (NInt 1)) "1" 3%nat 4%nat 3%nat
              (mkNode (Some "button") "" (Some "1") [] None false false
                      [CText "Show Comments"] [] None))
    as (st' & Hr & Hh & Hl & _); try reflexivity; [discriminate|].
  exists st'. split; [exact Hr|]. split; [exact Hh | exact Hl].
Defined.

(* --------------------------------------------------------------------- *)
(** ** addButtonListeners and removeButtonListeners                        *)

Lemma filter_sat_lookup (ns : list node) (p : node -> bool) (l : list nat) (b : nat) :
  In b (List.filter (node_sat ns p) l) -> exists n, ns !! b = Some n.
Proof.
  intros H. apply filter_In in H as [_ H]. unfold node_sat in H.
  destruct (ns !! b) as [n|]; [eauto | discriminate].
Qed.

(** One turn of the [forEach] of [removeButtonListeners] on a button of the
    store: it completes and removes nothing. *)
Lemma remove_turn_runs (st : state) (button : nat) (n : node) :
  listeners_known st -> nodes st !! button = Some n ->
  exists k,
    (postId <- dataset_postId button ;;
     if truthy postId
     then fn <- fresh_fn ;; removeEventListener button fn
     else ret tt) st = (Ret tt, more_functions k st).
Proof.
  intros Hknown Hn. unfold dataset_postId, bind at 1, bind at 1, get_node at 1.
  rewrite Hn. unfold ret at 1.
  destruct (truthy _); [| exists 0%nat; destruct st; reflexivity].
  exists 1%nat.
  unfold bind, fresh_fn, removeEventListener, modify_node, bind, get_node, put_node.
  cbn [nodes]. rewrite Hn.
  rewrite filter_keeps_known by (intros l Hl; apply (Hknown button n l Hn Hl)).
  cbn [set_nodes nodes root next_fn requests console net].
  replace (with_click n (n_click n)) with n by (destruct n; reflexivity).
  rewrite (list_insert_id _ _ _ Hn). reflexivity.
Qed.

Lemma remove_turns_run (buttons : list nat) :
  forall st, listeners_known st ->
  (forall b, In b buttons -> exists n, nodes st !! b = Some n) ->
  exists k,
    for_each buttons (fun button =>
      postId <- dataset_postId button ;;
      if truthy postId
      then fn <- fresh_fn ;; removeEventListener button fn
      else ret tt) st = (Ret tt, more_functions k st).
Proof.
  induction buttons as [|b buttons IH]; intros st Hknown Hin.
  - exists 0%nat. destruct st; reflexivity.
  - destruct (Hin b (or_introl eq_refl)) as [n Hn].
    destruct (remove_turn_runs st b n Hknown Hn) as [k Hk].
    destruct (IH (more_functions k st) (listeners_known_more k st Hknown)) as [j Hj].
    { intros b' Hb'. apply Hin. right. exact Hb'. }
    exists (j + k)%nat. cbn [for_each].
    erewrite bind_run by exact Hk.
    rewrite Hj, more_functions_add. reflexivity.
Qed.

(** X11. In every document whose listeners are functions created earlier,
    [removeButtonListeners] completes and returns the buttons of [main], and
    the state it leaves differs from the one it started in only by the
    functions it created: every node, with every registered listener, is as
    before. *)
Theorem removeButtonListeners_is_idle (st : state) (m : nat) :
  listeners_known st ->
  List.find (node_sat (nodes st) (has_tag "main")) (doc_elements st) = Some m ->
  exists k,
    removeButtonListeners st =
      (Ret (VArr (map VNode
                    (List.filter (node_sat (nodes st) (has_tag "button"))
                                 (descendants (nodes st) m)))),
       more_functions k st).
Proof.
  intros Hknown Hmain. unfold removeButtonListeners.
  erewrite bind_run by (unfold querySelector; rewrite Hmain; reflexivity).
  cbv beta iota.
  erewrite bind_run by reflexivity.
  destruct (remove_turns_run
              (List.filter (node_sat (nodes st) (has_tag "button"))
                           (descendants (nodes st) m))
              st Hknown) as [k Hk].
  { intros b Hb. exact (filter_sat_lookup _ _ _ _ Hb). }
  exists k. erewrite bind_run by exact Hk. reflexivity.
Qed.

Lemma removeButtonListeners_is_idle_witness :
  exists k,
    removeButtonListeners
      (mkState (post_nodes [mkListener 0 (VStr "1")]) 0 1 [] [] sample_net) =
      (Ret (VArr [VNode 3]),
       more_functions k
         (mkState (post_nodes [mkListener 0 (VStr "1")]) 0 1 [] [] sample_net)).
Proof.
  apply (removeButtonListeners_is_idle
           (mkState (post_nodes [mkListener 0 (VStr "1")]) 0 1 [] [] sample_net) 1).
  - intros r n l Hn Hl. cbn [next_fn].
    destruct r as [|[|[|[|[|r]]]]]; cbn in Hn; try discriminate;
      injection Hn as <-; cbn in Hl; try contradiction.
    destruct Hl as [<-|[]]. cbn. lia.
  - reflexivity.
Defined.

(** A listener created now is none of the registered ones. *)
Lemma fresh_not_registered (ls : list listener) (fn : nat) (v : value) :
  (forall l, In l ls -> (l_fn l < fn)%nat) ->
  existsb (fun l' => Nat.eqb (l_fn l') (l_fn (mkListener fn v))) ls = false.
Proof.
  intros H. induction ls as [|l ls IH]; [reflexivity|].
  cbn [existsb l_fn]. destruct (Nat.eqb_spec (l_fn l) fn) as [E|_].
  - specialize (H l (or_introl eq_refl)). lia.
  - apply IH. intros l' Hl'. apply H. right. exact Hl'.
Qed.

(** One turn of the [forEach] of [addButtonListeners] on a button that
    carries a post id. *)
Lemma add_turn_binds (st : state) (button : nat) (n : node) (p : string) :
  listeners_known st -> nodes st !! button = Some n ->
  n_postId n = Some p -> p <> "" ->
  (postId <- dataset_postId button ;;
   if truthy postId
   then fn <- fresh_fn ;; addEventListener button (mkListener fn postId)
   else ret tt) st =
    (Ret tt,
     mkState
       (<[button := with_click n (n_click n ++ [mkListener (next_fn st) (VStr p)])]>
          (nodes st))
       (root st) (S (next_fn st)) (requests st) (console st) (net st)).
Proof.
  intros Hknown Hn Hp Hne.
  unfold dataset_postId, bind at 1, bind at 1, get_node at 1.
  rewrite Hn, Hp. unfold ret at 1. cbn [truthy].
  destruct (String.eqb_spec p "") as [->|_]; [contradiction|]. cbn [negb].
  unfold bind, fresh_fn, addEventListener, modify_node, bind, get_node, put_node.
  cbn [nodes]. rewrite Hn.
  rewrite fresh_not_registered by (intros l Hl; apply (Hknown button n l Hn Hl)).
  reflexivity.
Qed.

(** One turn on a button without a post id, or with an empty one. *)
Lemma add_turn_skips (st : state) (button : nat) (n : node) :
  nodes st !! button = Some n ->
  n_postId n = None \/ n_postId n = Some "" ->
  (postId <- dataset_postId button ;;
   if truthy postId
   then fn <- fresh_fn ;; addEventListener button (mkListener fn postId)
   else ret tt) st = (Ret tt, st).
Proof.
  intros Hn Hp. unfold dataset_postId, bind at 1, bind at 1, get_node at 1.
  rewrite Hn. destruct Hp as [-> | ->]; reflexivity.
Qed.

Lemma bound_known (st : state) (button : nat) (n : node) (v : value) :
  listeners_known st -> nodes st !! button = Some n ->
  listeners_known
    (mkState
       (<[button := with_click n (n_click n ++ [mkListener (next_fn st) v])]> (nodes st))
       (root st) (S (next_fn st)) (requests st) (console st) (net st)).
Proof.
  intros Hknown Hn r n' l Hr Hl. cbn [nodes next_fn] in *.
  destruct (Nat.eq_dec r button) as [->|Hne].
  - rewrite list_lookup_insert_eq in Hr by (eapply lookup_lt_Some; exact Hn).
    injection Hr as <-. cbn [n_click with_click] in Hl.
    apply in_app_or in Hl as [Hl | [<- | []]].
    + specialize (Hknown button n l Hn Hl). lia.
    + cbn [l_fn]. lia.
  - rewrite list_lookup_insert_ne in Hr by congruence.
    specialize (Hknown r n' l Hr Hl). lia.
Qed.

(** The [forEach] of [addButtonListeners] over distinct buttons. *)
Lemma add_turns_bind (buttons : list nat) :
  NoDup buttons ->
  forall st, listeners_known st ->
  (forall b, In b buttons -> exists n, nodes st !! b = Some n) ->
  exists st',
    for_each buttons (fun button =>
      postId <- dataset_postId button ;;
      if truthy postId
      then fn <- fresh_fn ;; addEventListener button (mkListener fn postId)
      else ret tt) st = (Ret tt, st') /\
    listeners_known st' /\
    (next_fn st <= next_fn st')%nat /\
    length (nodes st') = length (nodes st) /\
    forall r n, nodes st !! r = Some n ->
      (forall p, In r buttons -> n_postId n = Some p -> p <> "" ->
         exists fn, (next_fn st <= fn < next_fn st')%nat /\
           nodes st' !! r =
             Some (with_click n (n_click n ++ [mkListener fn (VStr p)]))) /\
      (~ In r buttons \/ n_postId n = None \/ n_postId n = Some "" ->
         nodes st' !! r = Some n).
Proof.
  induction 1 as [|b buttons Hnotin Hnodup IH]; intros st Hknown Hin.
  - exists st. cbn [for_each]. split; [reflexivity|]. split; [exact Hknown|].
    split; [lia|]. split; [reflexivity|].
    intros r n Hn. split; [intros p []|]. intros _. exact Hn.
  - rewrite list_elem_of_In in Hnotin.
    destruct (Hin b (or_introl eq_refl)) as [nb Hnb].
    assert (Hcase : (exists p, n_postId nb = Some p /\ p <> "") \/
                    (n_postId nb = None \/ n_postId nb = Some "")).
    { destruct (n_postId nb) as [p|]; [|right; left; reflexivity].
      destruct (String.eqb_spec p "") as [->|Hne];
        [right; right; reflexivity | left; eauto]. }
    destruct Hcase as [(p & Hp & Hne) | Hskip].
    + pose (st1 := mkState
         (<[b := with_click nb (n_click nb ++ [mkListener (next_fn st) (VStr p)])]>
            (nodes st))
         (root st) (S (next_fn st)) (requests st) (console st) (net st)).
      destruct (IH st1 (bound_known st b nb (VStr p) Hknown Hnb))
        as (st' & Hrun & Hknown' & Hfn & Hlen & Hnodes).
      { intros b' Hb'. destruct (Hin b' (or_intror Hb')) as [n' Hn'].
        cbn [nodes st1]. destruct (Nat.eq_dec b' b) as [->|Hd].
        - rewrite list_lookup_insert_eq by (eapply lookup_lt_Some; exact Hnb). eauto.
        - rewrite list_lookup_insert_ne by congruence. eauto. }
      exists st'. cbn [for_each].
      erewrite bind_run by (apply (add_turn_binds st b nb p Hknown Hnb Hp Hne)).
      fold st1. split; [exact Hrun|]. split; [exact Hknown'|].
      cbn [next_fn nodes st1] in Hfn, Hlen. rewrite length_insert in Hlen.
      split; [lia|]. split; [exact Hlen|].
      intros r n Hn. destruct (Nat.eq_dec r b) as [->|Hd].
      * assert (n = nb) as -> by congruence.
        assert (H1 : nodes st1 !! b =
                       Some (with_click nb (n_click nb ++ [mkListener (next_fn st) (VStr p)]))).
        { cbn [nodes st1]. apply list_lookup_insert_eq. eapply lookup_lt_Some; exact Hnb. }
        destruct (Hnodes _ _ H1) as [_ Hkeep].
        split.
        -- intros p' _ Hp' _. assert (p' = p) as -> by congruence.
           exists (next_fn st). split; [lia|]. apply Hkeep. left. exact Hnotin.
        -- intros [Hout | [Hnone | Hempty]].
           ++ exfalso. apply Hout. left. reflexivity.
           ++ congruence.
           ++ congruence.
      * assert (H1 : nodes st1 !! r = Some n).
        { cbn [nodes st1]. rewrite list_lookup_insert_ne by congruence. exact Hn. }
        destruct (Hnodes _ _ H1) as [Hbind Hkeep].
        split.
        -- intros p' [Hb | Hr] Hp' Hne'; [congruence|].
           destruct (Hbind p' Hr Hp' Hne') as (fn & Hrange & Hfound).
           exists fn. cbn [next_fn st1] in Hrange. split; [lia | exact Hfound].
        -- intros Hout. apply Hkeep.
           destruct Hout as [Hout | Hout]; [left | right; exact Hout].
           intros Hr. apply Hout. right. exact Hr.
    + destruct (IH st Hknown) as (st' & Hrun & Hknown' & Hfn & Hlen & Hnodes).
      { intros b' Hb'. apply Hin. right. exact Hb'. }
      exists st'. cbn [for_each].
      erewrite bind_run by (apply (add_turn_skips st b nb Hnb Hskip)).
      split; [exact Hrun|]. split; [exact Hknown'|]. split; [exact Hfn|].
      split; [exact Hlen|].
      intros r n Hn. destruct (Hnodes _ _ Hn) as [Hbind Hkeep]. split.
      * intros p' [Hb | Hr] Hp' Hne'.
        -- subst r. assert (n = nb) as -> by congruence.
           destruct Hskip as [Hs | Hs]; congruence.
        -- exact (Hbind p' Hr Hp' Hne').
      * intros Hout. destruct (Nat.eq_dec r b) as [->|Hd].
        -- apply Hkeep. left. exact Hnotin.
        -- apply Hkeep. destruct Hout as [Hout | Hout]; [left | right; exact Hout].
           intros Hr. apply Hout. right. exact Hr.
Qed.

(** X12. In a document with a [main] element, whose listeners are functions
    created earlier and where no button is reached twice below [main],
    [addButtonListeners] completes and returns the buttons of [main].  Each
    of them that carries a non-empty post id gets one more click listener,
    a new function bound to that post id, after the listeners it already
    has; those are kept.  Every other node is left as it was. *)
Theorem addButtonListeners_binds (st : state) (m : nat) :
  let buttons :=
    List.filter (node_sat (nodes st) (has_tag "button")) (descendants (nodes st) m) in
  listeners_known st ->
  List.find (node_sat (nodes st) (has_tag "main")) (doc_elements st) = Some m ->
  NoDup buttons ->
  exists st',
    addButtonListeners st = (Ret (VArr (map VNode buttons)), st') /\
    listeners_known st' /\
    length (nodes st') = length (nodes st) /\
    forall r n, nodes st !! r = Some n ->
      (forall p, In r buttons -> n_postId n = Some p -> p <> "" ->
         exists fn, (next_fn st <= fn < next_fn st')%nat /\
           nodes st' !! r =
             Some (with_click n (n_click n ++ [mkListener fn (VStr p)]))) /\
      (~ In r buttons \/ n_postId n = None \/ n_postId n = Some "" ->
         nodes st' !! r = Some n).
Proof.
  intros buttons Hknown Hmain Hnodup.
  destruct (add_turns_bind buttons Hnodup st Hknown)
    as (st' & Hrun & Hknown' & _ & Hlen & Hnodes).
  { intros b Hb. exact (filter_sat_lookup _ _ _ _ Hb). }
  exists st'. split; [|split; [exact Hknown' | split; [exact Hlen | exact Hnodes]]].
  unfold addButtonListeners.
  erewrite bind_run by (unfold querySelector; rewrite Hmain; reflexivity).
  cbv beta iota.
  erewrite bind_run by reflexivity.
  erewrite bind_run by exact Hrun.
  reflexivity.
Qed.

Lemma addButtonListeners_binds_witness :
  exists st',
    addButtonListeners post_state = (Ret (VArr [VNode 3]), st') /\
    exists fn,
      nodes st' !! 3%nat =
        Some (mkNode (Some "button") "" (Some "1") [] None false false
                     [CText "Show Comments"] [mkListener fn (VStr "1")] None).
Proof.
  destruct (addButtonListeners_binds post_state 1) as (st' & Hrun & _ & _ & Hnodes).
  - intros r n l Hn Hl.
    destruct r as [|[|[|[|[|r]]]]]; cbn in Hn; try discriminate;
      injection Hn as <-; cbn in Hl; contradiction.
  - reflexivity.
  - repeat constructor. intros H. inversion H.
  - exists st'. split; [exact Hrun|].
    destruct (Hnodes 3%nat _ eq_refl) as [Hbind _].
    destruct (Hbind "1") as (fn & _ & Hfound);
      [left; reflexivity | reflexivity | discriminate |].
    exists fn. exact Hfound.
Defined.

(* --------------------------------------------------------------------- *)
(** ** The change handler when there are no posts                          *)

Lemma getUserPosts_settles (st : state) (userId : value) (s : string) :
  userId <> VUndefined -> to_string userId = Some s ->
  getUserPosts userId st =
    (Ret (fst (outcome (net st (length (requests st)) (api +:+ "/posts?userId=" +:+ s)))),
     settled st (api +:+ "/posts?userId=" +:+ s)
       (net st (length (requests st)) (api +:+ "/posts?userId=" +:+ s))).
Proof.
  intros Hdef Hs. unfold getUserPosts. rewrite (is_undefined_false _ Hdef).
  rewrite <- caught_request_settles. unfold try_catch, bind at 1 3.
  rewrite Hs. reflexivity.
Qed.

(** X13. The change handler returns undefined and does nothing on a falsy
    event.  On a change event of the selector, when the request for the
    user's posts gives nothing to show (it fails, or its payload is falsy),
    the handler completes after that one request: it returns the resolved
    user id, what the request gave and undefined, and the document is as
    before but for the selector, which is enabled. *)
Theorem change_handler_without_posts (st : state) :
  (forall event, truthy event = false ->
     selectMenuChangeEventHandler event st = (Ret VUndefined, st)) /\
  (forall fs sel n v id r,
     lookup_field "target" fs = VNode sel ->
     nodes st !! sel = Some n -> n_tag n = Some "select" ->
     select_value (nodes st) n = Some v ->
     number_to_string (resolve_user_id v) = Some id ->
     net st (length (requests st)) (api +:+ "/posts?userId=" +:+ id) = r ->
     truthy (fst (outcome r)) = false ->
     selectMenuChangeEventHandler (VObj fs) st =
       (Ret (VArr [VNum (resolve_user_id v); fst (outcome r); VUndefined]),
        settled (set_nodes st (<[sel := with_disabled n false]> (nodes st)))
                (api +:+ "/posts?userId=" +:+ id) r)).
Proof.
  split.
  - intros event H. unfold selectMenuChangeEventHandler. rewrite H. reflexivity.
  - intros fs sel n v id r Ht Hn Htag Hv Hid Hr Hposts.
    rewrite (change_handler_start st fs sel n v Ht Hn Htag Hv).
    erewrite bind_run
      by (apply (getUserPosts_settles _ _ id); [discriminate | exact Hid]).
    cbn [nodes requests net set_nodes]. rewrite Hr.
    erewrite bind_run by (unfold refreshPosts; rewrite Hposts; reflexivity).
    erewrite bind_run.
    2:{ cbn [set_flag String.eqb Ascii.eqb Bool.eqb].
        apply (set_disabled_at _ sel (with_disabled n true) false);
          [ cbn [nodes settled]; apply list_lookup_insert_eq;
            eapply lookup_lt_Some; exact Hn
          | exact (select_not_option n Htag) ]. }
    unfold settled, set_nodes.
    cbn [nodes root next_fn requests console net with_disabled
         n_tag n_id n_postId n_class n_value n_disabled n_flag n_children n_click
         n_chosen].
    rewrite list_insert_insert_eq. reflexivity.
Qed.

Lemma change_handler_without_posts_witness :
  selectMenuChangeEventHandler VNull menu_down_state = (Ret VUndefined, menu_down_state) /\
  selectMenuChangeEventHandler (VObj [("target", VNode 2)]) menu_down_state =
    (Ret (VArr [VNum (NInt 2); VNull; VUndefined]),
     mkState menu_nodes 0 0 [api +:+ "/posts?userId=2"] [FetchRejected] down_net).
Proof.
  destruct (change_handler_without_posts menu_down_state) as [Hguard Hrun].
  split; [apply Hguard; reflexivity|].
  rewrite (Hrun [("target", VNode 2)] 2%nat
             (mkNode (Some "select") "selectMenu" None [] None false false
                     [CElem 5%nat; CElem 6%nat; CElem 7%nat] [] (Some 7%nat))
             "2" "2" Rejected); reflexivity.
Defined.

(* --------------------------------------------------------------------- *)
(** ** The tree of an ordered store                                        *)

Lemma flat_map_ext_In {A B} (f g : A -> list B) (l : list A) :
  (forall a, In a l -> f a = g a) -> flat_map f l = flat_map g l.
Proof.
  induction l as [|a l IH]; intros H; [reflexivity|].
  cbn [flat_map]. rewrite (H a (or_introl eq_refl)), IH; [reflexivity|].
  intros b Hb. apply H. right. exact Hb.
Qed.

Lemma ordered_kids (ns : list node) (r c : nat) :
  ordered ns -> In c (kids ns r) -> (r < c < length ns)%nat.
Proof.
  intros Hord Hc. unfold kids in Hc.
  destruct (ns !! r) as [n|] eqn:E; [|destruct Hc].
  exact (Hord r n c E Hc).
Qed.

(** In an ordered store the fuel of the document suffices: more of it
    shows nothing more. *)
Lemma subtree_saturates (ns : list node) :
  ordered ns ->
  forall f r, (r < length ns)%nat -> (length ns <= f + r)%nat ->
  forall f', (f <= f')%nat -> subtree f' ns r = subtree f ns r.
Proof.
  intros Hord. induction f as [|f IH]; intros r Hr Hf f' Hle; [lia|].
  destruct f' as [|f']; [lia|].
  cbn [subtree]. f_equal. apply flat_map_ext_In. intros c Hc.
  pose proof (ordered_kids ns r c Hord Hc).
  apply IH; lia.
Qed.

(** A store [ns'] that extends [ns] and differs from it at [m] only, where
    the selector holds in both, gives the same first match if that is [m]. *)
Section FirstMatch.
Variables (ns ns' : list node) (m : nat) (p : node -> bool).
Hypothesis Hord : ordered ns.
Hypothesis Hsame : forall i, (i < length ns)%nat -> i <> m -> ns' !! i = ns !! i.
Hypothesis Hm : node_sat ns p m = true.
Hypothesis Hm' : node_sat ns' p m = true.

Lemma first_match_none :
  forall f r, (r < length ns)%nat ->
    List.find (node_sat ns p) (subtree f ns r) = None ->
    List.find (node_sat ns' p) (subtree f ns' r) = None.
Proof using Hord Hsame Hm.
  clear Hm'. induction f as [|f IH]; intros r Hr H; [reflexivity|].
  cbn [subtree List.find] in H |- *.
  destruct (node_sat ns p r) eqn:Hpr; [discriminate|].
  assert (Hne : r <> m) by congruence.
  assert (Hk : kids ns' r = kids ns r) by (unfold kids; rewrite Hsame by assumption; reflexivity).
  assert (Hp : node_sat ns' p r = false)
    by (unfold node_sat in *; rewrite Hsame by assumption; exact Hpr).
  rewrite Hp, Hk. clear Hk.
  assert (Hkids : forall c, In c (kids ns r) -> (c < length ns)%nat)
    by (intros c Hc; apply (ordered_kids ns r c Hord Hc)).
  revert H Hkids.
  induction (kids ns r) as [|k ks IHk]; intros H Hkids; [reflexivity|].
  cbn [flat_map] in H |- *. rewrite find_app in H |- *.
  destruct (List.find (node_sat ns p) (subtree f ns k)) eqn:E; [discriminate|].
  rewrite (IH k (Hkids k (or_introl eq_refl)) E).
  apply IHk; [exact H | intros c Hc; apply Hkids; right; exact Hc].
Qed.

Lemma first_match_some :
  forall f r, (r < length ns)%nat ->
    List.find (node_sat ns p) (subtree f ns r) = Some m ->
    List.find (node_sat ns' p) (subtree f ns' r) = Some m.
Proof using Hord Hsame Hm Hm'.
  induction f as [|f IH]; intros r Hr H; [discriminate|].
  cbn [subtree List.find] in H |- *.
  destruct (node_sat ns p r) eqn:Hpr.
  - injection H as ->. rewrite Hm'. reflexivity.
  - assert (Hne : r <> m) by congruence.
    assert (Hk : kids ns' r = kids ns r)
      by (unfold kids; rewrite Hsame by assumption; reflexivity).
    assert (Hp : node_sat ns' p r = false)
      by (unfold node_sat in *; rewrite Hsame by assumption; exact Hpr).
    rewrite Hp, Hk. clear Hk.
    assert (Hkids : forall c, In c (kids ns r) -> (c < length ns)%nat)
      by (intros c Hc; apply (ordered_kids ns r c Hord Hc)).
    revert H Hkids.
    induction (kids ns r) as [|k ks IHk]; intros H Hkids; [discriminate|].
    cbn [flat_map] in H |- *. rewrite find_app in H |- *.
    destruct (List.find (node_sat ns p) (subtree f ns k)) eqn:E.
    + injection H as ->. rewrite (IH k (Hkids k (or_introl eq_refl)) E). reflexivity.
    + rewrite (first_match_none f k (Hkids k (or_introl eq_refl)) E).
      apply IHk; [exact H | intros c Hc; apply Hkids; right; exact Hc].
Qed.
End FirstMatch.

(** The first match of a selector in the document is kept when the store
    grows and the matching node alone changes. *)
Lemma querySelector_grows (st st' : state) (m : nat) (p : node -> bool) :
  ordered (nodes st) -> (root st < length (nodes st))%nat ->
  root st' = root st -> (length (nodes st) <= length (nodes st'))%nat ->
  (forall i, (i < length (nodes st))%nat -> i <> m -> nodes st' !! i = nodes st !! i) ->
  node_sat (nodes st') p m = true ->
  List.find (node_sat (nodes st) p) (doc_elements st) = Some m ->
  List.find (node_sat (nodes st') p) (doc_elements st') = Some m.
Proof.
  intros Hord Hroot Hr Hlen Hsame Hm' Hfind.
  assert (Hm : node_sat (nodes st) p m = true)
    by (apply find_some in Hfind as [_ H]; exact H).
  unfold doc_elements in *. rewrite Hr.
  apply (first_match_some (nodes st) (nodes st') m p Hord Hsame Hm Hm' _ _ Hroot).
  rewrite (subtree_saturates (nodes st) Hord (length (nodes st)) (root st) Hroot
             ltac:(lia) (length (nodes st')) Hlen).
  exact Hfind.
Qed.

(* --------------------------------------------------------------------- *)
(** ** The buttons of the posts                                            *)




Lemma filter_flat_map {A B} (p : B -> bool) (f : A -> list B) (l : list A) :
  List.filter p (flat_map f l) = flat_map (fun x => List.filter p (f x)) l.
Proof.
  induction l as [|a l IH]; [reflexivity|].
  cbn [flat_map]. rewrite List.filter_app, IH. reflexivity.
Qed.


(** An element without element children is all of its subtree. *)
Lemma subtree_leaf (ns : list node) (r : nat) (n : node) (f : nat) :
  ns !! r = Some n -> elem_children (n_children n) = [] ->
  subtree (S f) ns r = [r].
Proof. intros Hn Hk. cbn [subtree]. unfold kids. rewrite Hn, Hk. reflexivity. Qed.

Lemma subtree_node (ns : list node) (r : nat) (n : node) (f : nat) :
  ns !! r = Some n ->
  subtree (S f) ns r = r :: flat_map (subtree f ns) (elem_children (n_children n)).
Proof. intros Hn. cbn [subtree]. unfold kids. rewrite Hn. reflexivity. Qed.

Lemma sat_at (ns : list node) (p : node -> bool) (r : nat) (n : node) :
  ns !! r = Some n -> node_sat ns p r = p n.
Proof. intros H. unfold node_sat. rewrite H. reflexivity. Qed.







(* --------------------------------------------------------------------- *)
(** ** refreshPosts on the posts of a user                                 *)

Lemma elem_children_app (a b : list child) :
  elem_children (a ++ b) = elem_children a ++ elem_children b.
Proof. unfold elem_children. apply flat_map_app. Qed.

Lemma elem_children_texts (cs : list child) :
  elem_children (List.filter is_text cs) = [].
Proof. induction cs as [|[s|c] cs IH]; simpl; auto. Qed.

(** [deleteChildElements] on an element of the store. *)
Lemma deleteChildElements_element (st : state) (r : nat) (n : node) (t : string) :
  nodes st !! r = Some n -> n_tag n = Some t -> t <> "" ->
  deleteChildElements (VNode r) st =
    (Ret (VNode r),
     set_nodes st (<[r := with_children n (List.filter is_text (n_children n))]> (nodes st))).
Proof.
  intros Hn Htag Ht. unfold deleteChildElements, get_prop_opt. cbn [nullish].
  erewrite bind_run.
  2:{ unfold get_prop. erewrite bind_run by (unfold get_node; rewrite Hn; reflexivity).
      unfold node_prop. cbn [String.eqb Ascii.eqb Bool.eqb]. rewrite Htag. reflexivity. }
  cbn [truthy]. rewrite (upper_nonempty _ Ht). cbn [negb].
  erewrite bind_run by (unfold get_node; rewrite Hn; reflexivity).
  erewrite bind_run.
  2:{ apply (deleteChildElements_loop_spec _ st r n Hn).
      pose proof (length_elem_children (n_children n)). lia. }
  reflexivity.
Qed.





Lemma ordered_prune (ns : list node) (m : nat) (n' : node) :
  ordered ns -> elem_children (n_children n') = [] -> ordered (<[m := n']> ns).
Proof.
  intros Hord Hleaf i n c Hi Hc. rewrite length_insert.
  destruct (Nat.eq_dec i m) as [->|Hne].
  - apply list_lookup_insert_Some in Hi as [(_ & <- & _) | (Hd & _)]; [|congruence].
    rewrite Hleaf in Hc. destruct Hc.
  - rewrite list_lookup_insert_ne in Hi by congruence. exact (Hord i n c Hi Hc).
Qed.

Lemma removeButtonListeners_with (st st' : state) (m : nat) :
  List.find (node_sat (nodes st) (has_tag "main")) (doc_elements st) = Some m ->
  for_each (List.filter (node_sat (nodes st) (has_tag "button")) (descendants (nodes st) m))
    (fun button =>
       postId <- dataset_postId button ;;
       if truthy postId
       then fn <- fresh_fn ;; removeEventListener button fn
       else ret tt) st = (Ret tt, st') ->
  removeButtonListeners st =
    (Ret (VArr (map VNode
                  (List.filter (node_sat (nodes st) (has_tag "button"))
                               (descendants (nodes st) m)))), st').
Proof.
  intros Hmain Hrun. unfold removeButtonListeners.
  erewrite bind_run by (unfold querySelector; rewrite Hmain; reflexivity).
  cbv beta iota.
  erewrite bind_run by reflexivity.
  erewrite bind_run by exact Hrun. reflexivity.
Qed.

Lemma addButtonListeners_with (st st' : state) (m : nat) :
  List.find (node_sat (nodes st) (has_tag "main")) (doc_elements st) = Some m ->
  for_each (List.filter (node_sat (nodes st) (has_tag "button")) (descendants (nodes st) m))
    (fun button =>
       postId <- dataset_postId button ;;
       if truthy postId
       then fn <- fresh_fn ;; addEventListener button (mkListener fn postId)
       else ret tt) st = (Ret tt, st') ->
  addButtonListeners st =
    (Ret (VArr (map VNode
                  (List.filter (node_sat (nodes st) (has_tag "button"))
                               (descendants (nodes st) m)))), st').
Proof.
  intros Hmain Hrun. unfold addButtonListeners.
  erewrite bind_run by (unfold querySelector; rewrite Hmain; reflexivity).
  cbv beta iota.
  erewrite bind_run by reflexivity.
  erewrite bind_run by exact Hrun. reflexivity.
Qed.

Lemma has_tag_eq (t : string) (n : node) : has_tag t n = true -> n_tag n = Some t.
Proof.
  unfold has_tag. destruct (n_tag n) as [t'|]; [|discriminate].
  intros H. apply String.eqb_eq in H. congruence.
Qed.

(** The document after [displayPosts] has put the articles of the posts
    into the emptied [main]. *)
Section Refreshed.
Variables (st : state) (m : nat) (M : node) (ds : list post_data) (k : nat).
Hypothesis Hord : ordered (nodes st).
Hypothesis Hroot : (root st < length (nodes st))%nat.
Hypothesis Hknown : listeners_known st.
Hypothesis Hmain :
  List.find (node_sat (nodes st) (has_tag "main")) (doc_elements st) = Some m.
Hypothesis HM : nodes st !! m = Some M.
Hypothesis Hds : ds <> [].

Let L := length (nodes st).
Let refs := post_refs (S L) ds.
Let M0 := with_children M (List.filter is_text (n_children M)).
Let M1 := with_children M (List.filter is_text (n_children M) ++ map CElem refs).
Let ns3 := <[m := M1]> (nodes st) ++ blank None :: posts_nodes (S L) ds.
Let st2 := set_nodes (more_functions k st) (<[m := M0]> (nodes st)).
Let st3 := mkState ns3 (root st) (k + next_fn st)
                   (requests st ++ flat_map post_urls ds) (console st) (net st).








End Refreshed.

(* --------------------------------------------------------------------- *)
(** ** The rendered posts keep the store ordered                           *)










Lemma sample_ready : ready sample_state 3.
Proof.
  split; [|split; [|split]].
  - intros i n c Hi Hc.
    destruct i as [|[|[|[|[|i]]]]]; cbn in Hi; try discriminate;
      injection Hi as <-; cbn in Hc;
      repeat (destruct Hc as [<-|Hc]; [cbn; lia|]); destruct Hc.
  - cbn. lia.
  - intros r n l Hn Hl.
    destruct r as [|[|[|[|[|r]]]]]; cbn in Hn; try discriminate;
      injection Hn as <-; cbn in Hl; contradiction.
  - reflexivity.
Qed.





(* --------------------------------------------------------------------- *)
(** ** The change handler on the posts of a user                           *)






(* --------------------------------------------------------------------- *)
(** ** deleteChildElements, once more                                      *)

Lemma filter_texts_twice (cs : list child) :
  List.filter is_text (List.filter is_text cs) = List.filter is_text cs.
Proof.
  induction cs as [|[s|c] cs IH]; cbn; [reflexivity | rewrite IH; reflexivity | exact IH].
Qed.

(** X16. [deleteChildElements] is idempotent: called a second time on the
    same argument it returns what it returned the first time and changes
    nothing any more, whatever the argument and the document. *)
Theorem deleteChildElements_again (st : state) (v : value) :
  (deleteChildElements v ;;; deleteChildElements v) st = deleteChildElements v st.
Proof.
  destruct v as [| |b|k|s|items|fs|r]; try reflexivity.
  - unfold bind at 1.
    destruct (deleteChildElements (VObj fs) st) as [[w|e|] st1] eqn:E; try reflexivity.
    revert E. unfold deleteChildElements, get_prop_opt. cbn [nullish].
    unfold bind, get_prop, ret. cbn [data_prop String.eqb Ascii.eqb Bool.eqb].
    destruct (truthy (lookup_field "tagName" fs)); cbn [negb].
    + destruct (truthy (lookup_field "lastElementChild" fs)); intros E;
        [discriminate | injection E as <- <-; reflexivity].
    + intros E. injection E as <- <-. reflexivity.
  - destruct (nodes st !! r) as [n|] eqn:Hn.
    2:{ unfold bind at 1, deleteChildElements, get_prop_opt. cbn [nullish].
        unfold bind, get_prop, bind, get_node. rewrite Hn. reflexivity. }
    destruct (n_tag n) as [t|] eqn:Htag.
    2:{ assert (H : deleteChildElements (VNode r) st = (Ret VUndefined, st)).
        { unfold deleteChildElements, get_prop_opt. cbn [nullish].
          unfold bind, get_prop, bind, get_node. rewrite Hn.
          unfold node_prop. cbn [String.eqb Ascii.eqb Bool.eqb]. rewrite Htag. reflexivity. }
        unfold bind at 1. rewrite H. exact H. }
    destruct (String.eqb_spec t "") as [->|Ht].
    { assert (H : deleteChildElements (VNode r) st = (Ret VUndefined, st)).
      { unfold deleteChildElements, get_prop_opt. cbn [nullish].
        unfold bind, get_prop, bind, get_node. rewrite Hn.
        unfold node_prop. cbn [String.eqb Ascii.eqb Bool.eqb]. rewrite Htag. reflexivity. }
      unfold bind at 1. rewrite H. exact H. }
    erewrite bind_run by (apply (deleteChildElements_element st r n t Hn Htag Ht)).
    rewrite (deleteChildElements_element st r n t Hn Htag Ht).
    rewrite (deleteChildElements_element _ r
               (with_children n (List.filter is_text (n_children n))) t
               (update_lookup_same st r n _ Hn) Htag Ht).
    cbn [nodes set_nodes n_children with_children].
    rewrite set_nodes_twice, list_insert_insert_eq, with_children_twice, filter_texts_twice.
    reflexivity.
Qed.

(* --------------------------------------------------------------------- *)
(** ** refreshPosts when the user has no posts                             *)

(** X17. Let the document be ready: numbered in tree order, with a [main]
    element, its listeners being functions created earlier.  On the empty
    array [refreshPosts] completes without a request: it returns the
    former buttons of [main], [main], the new paragraph and no button, and
    [main] keeps its text children and holds, in place of its former
    elements, the one paragraph that asks to select an employee. *)
Theorem refreshPosts_without_posts (st : state) (m : nat) (M : node) :
  let L := length (nodes st) in
  let former :=
    List.filter (node_sat (nodes st) (has_tag "button")) (descendants (nodes st) m) in
  ready st m ->
  nodes st !! m = Some M ->
  exists k,
    refreshPosts (VArr []) st =
      (Ret (VArr [VArr (map VNode former); VNode m; VNode L; VArr []]),
       more_functions k
         (set_nodes st
            (<[m := with_children M (List.filter is_text (n_children M) ++ [CElem L])]>
               (nodes st)
             ++ [default_text]))).
Proof.
  intros L former (Hord & Hroot & Hknown & Hmain) HM.
  pose proof (lookup_lt_Some _ _ _ HM) as Hm.
  destruct (find_sat _ _ _ Hmain) as (M' & HM' & Hsat).
  assert (M' = M) as -> by congruence.
  destruct (remove_turns_run former st Hknown) as [k Hremove].
  { intros b Hb. exact (filter_sat_lookup _ _ _ _ Hb). }
  set (M0 := with_children M (List.filter is_text (n_children M))).
  set (M1 := with_children M (List.filter is_text (n_children M) ++ [CElem L])).
  set (st2 := set_nodes (more_functions k st) (<[m := M0]> (nodes st))).
  set (ns3 := <[m := M1]> (nodes st) ++ [default_text]).
  set (st3 := more_functions k (set_nodes st ns3)).
  assert (Hfind2 : List.find (node_sat (nodes st2) (has_tag "main")) (doc_elements st2)
                   = Some m).
  { apply (prune_querySelector (more_functions k st) m M M0 HM
             (elem_children_texts _) (has_tag "main") eq_refl m); [|exact Hmain].
    left. split; [reflexivity|]. rewrite (sat_at _ _ _ _ HM). exact Hsat. }
  assert (Hdisplay : displayPosts (VArr []) st2 = (Ret (VNode L), st3)).
  { rewrite (displayPosts_default st2 m M0 (VArr []) Hfind2
               (update_lookup_same (more_functions k st) m M M0 HM)
               (or_intror eq_refl)).
    unfold st3, ns3, st2. cbn [nodes set_nodes more_functions n_children with_children].
    rewrite length_insert, list_insert_insert_eq. reflexivity. }
  assert (Hmain3 : ns3 !! m = Some M1).
  { unfold ns3. rewrite lookup_app_l by (rewrite length_insert; exact Hm).
    apply list_lookup_insert_eq, Hm. }
  assert (Hfound : List.find (node_sat (nodes st3) (has_tag "main")) (doc_elements st3)
                   = Some m).
  { apply (querySelector_grows st2 st3 m (has_tag "main")).
    - apply ordered_prune; [exact Hord | apply elem_children_texts].
    - cbn [nodes root st2 set_nodes more_functions]. rewrite length_insert. exact Hroot.
    - reflexivity.
    - cbn [nodes st2 st3 set_nodes more_functions]. unfold ns3.
      rewrite length_app, !length_insert. lia.
    - intros i Hi Hne. cbn [nodes st2 st3 set_nodes more_functions] in *.
      rewrite length_insert in Hi. unfold ns3.
      rewrite lookup_app_l by (rewrite length_insert; exact Hi).
      rewrite !list_lookup_insert_ne by congruence. reflexivity.
    - cbn [nodes st3 set_nodes more_functions]. rewrite (sat_at _ _ _ _ Hmain3). exact Hsat.
    - exact Hfind2. }
  assert (Hbuttons : List.filter (node_sat ns3 (has_tag "button")) (descendants ns3 m) = []).
  { assert (Hdefault : ns3 !! L = Some default_text).
    { unfold ns3, L. rewrite lookup_app_r by (rewrite length_insert; lia).
      rewrite length_insert, Nat.sub_diag. reflexivity. }
    assert (Hlen : length ns3 = S (S (length (nodes st) - 1))).
    { unfold ns3. rewrite length_app, length_insert. cbn [length]. lia. }
    unfold descendants. rewrite Hlen.
    rewrite (subtree_node ns3 m M1 _ Hmain3). cbn [tl].
    unfold M1 at 1. cbn [n_children with_children].
    rewrite elem_children_app, elem_children_texts. cbn [app elem_children flat_map].
    rewrite (subtree_leaf ns3 L default_text _ Hdefault eq_refl).
    cbn [app List.filter]. rewrite (sat_at _ _ _ _ Hdefault). reflexivity. }
  exists k.
  unfold refreshPosts. cbn [truthy negb].
  erewrite bind_run by (apply (removeButtonListeners_with st _ m Hmain), Hremove).
  erewrite bind_run by (unfold querySelector; cbn [nodes more_functions];
                        change (doc_elements (more_functions k st)) with (doc_elements st);
                        rewrite Hmain; reflexivity).
  erewrite bind_run
    by (apply (deleteChildElements_element (more_functions k st) m M "main" HM);
        [apply has_tag_eq, Hsat | discriminate]).
  erewrite bind_run by exact Hdisplay.
  erewrite bind_run.
  2:{ rewrite (addButtonListeners_with st3 st3 m Hfound);
        cbn [nodes st3 set_nodes more_functions]; rewrite Hbuttons; reflexivity. }
  reflexivity.
Qed.

Lemma refreshPosts_without_posts_witness :
  exists k,
    refreshPosts (VArr []) sample_state =
      (Ret (VArr [VArr []; VNode 3; VNode 5; VArr []]),
       more_functions k
         (set_nodes sample_state
            (<[3%nat := elem "main" [CElem 5%nat]]> sample_nodes ++ [default_text]))).
Proof.
  apply (refreshPosts_without_posts sample_state 3 (elem "main" [CElem 4%nat])).
  - exact sample_ready.
  - reflexivity.
Defined.
